(** * The user-board simulation pipeline (userboard_pipeline.py)

    A shallow embedding of the stages of the pipeline and of the LangGraph
    nodes that drive them, together with the properties the specification
    states about them.

    Conventions.
    - A Python [str] is modelled by the [string] of the bytes of its UTF-8
      encoding. Searching for a text, and cutting off a prefix or a suffix
      made of ASCII characters, are the same on the bytes as on the
      characters. [str.strip] removes the encodings of the 29 characters
      that [str.isspace] accepts; [str.lower] and [str.capitalize] are
      computed on texts of ASCII characters and taken from the environment
      on any other text (the Unicode case mapping is not embedded).
    - Python [int] is [Z].
    - A [dict] used as a map is a [gmap]; the clusters mapping, whose
      insertion order is observable, is an association list.
    - The outside world (the chat model, the random generator, the JSON
      parser and the renderings of dynamically typed values) is gathered in
      a record [Env]; the effects on it are threaded through the monad [M],
      which also carries raised exceptions. *)

From stdpp Require Import base strings list gmap pretty.
From Stdlib Require Import Ascii ZArith Lia.

Open Scope string_scope.
Open Scope Z_scope.
Open Scope list_scope.

(** ** Python string primitives *)

Module PyStr.

(** ["\n"] *)
Definition nl : string := String (Ascii.ascii_of_nat 10) EmptyString.

(** ASCII white space as [str.isspace] sees it: TAB, LF, VT, FF, CR,
    FS, GS, RS, US and SPACE. *)
Definition is_space (c : ascii) : bool :=
  let n := Ascii.nat_of_ascii c in
  ((9 <=? n)%nat && (n <=? 13)%nat) || ((28 <=? n)%nat && (n <=? 32)%nat).

(** The white space of two bytes: U+0085 and U+00A0 *)
Definition is_space2 (c1 c2 : ascii) : bool :=
  let n1 := Ascii.nat_of_ascii c1 in
  let n2 := Ascii.nat_of_ascii c2 in
  (n1 =? 194)%nat && ((n2 =? 133)%nat || (n2 =? 160)%nat).

(** The white space of three bytes: U+1680, U+2000 to U+200A, U+2028,
    U+2029, U+202F, U+205F and U+3000 *)
Definition is_space3 (c1 c2 c3 : ascii) : bool :=
  let n1 := Ascii.nat_of_ascii c1 in
  let n2 := Ascii.nat_of_ascii c2 in
  let n3 := Ascii.nat_of_ascii c3 in
  ((n1 =? 225)%nat && (n2 =? 154)%nat && (n3 =? 128)%nat)
  || ((n1 =? 226)%nat && (n2 =? 128)%nat
      && (((128 <=? n3)%nat && (n3 <=? 138)%nat)
          || (n3 =? 168)%nat || (n3 =? 169)%nat || (n3 =? 175)%nat))
  || ((n1 =? 226)%nat && (n2 =? 129)%nat && (n3 =? 159)%nat)
  || ((n1 =? 227)%nat && (n2 =? 128)%nat && (n3 =? 128)%nat).

(** The text without the white space it starts with; [two] and [three]
    recognise the white space of two and of three bytes. *)
Fixpoint strip_leading (two : ascii -> ascii -> bool)
  (three : ascii -> ascii -> ascii -> bool) (s : string) : string :=
  match s with
  | EmptyString => EmptyString
  | String c1 s1 =>
      if is_space c1 then strip_leading two three s1
      else
        match s1 with
        | EmptyString => s
        | String c2 s2 =>
            if two c1 c2 then strip_leading two three s2
            else
              match s2 with
              | EmptyString => s
              | String c3 s3 =>
                  if three c1 c2 c3 then strip_leading two three s3 else s
              end
        end
  end.

(** [s.lstrip()] *)
Definition lstrip (s : string) : string := strip_leading is_space2 is_space3 s.

Fixpoint rev_onto (s acc : string) : string :=
  match s with
  | EmptyString => acc
  | String c s' => rev_onto s' (String c acc)
  end.

Definition reverse (s : string) : string := rev_onto s EmptyString.

(** [s.rstrip()]: the white space is looked for from the end, its bytes
    in reverse. *)
Definition rstrip (s : string) : string :=
  reverse (strip_leading (fun c1 c2 => is_space2 c2 c1)
             (fun c1 c2 c3 => is_space3 c3 c2 c1) (reverse s)).

(** [s.strip()] *)
Definition strip (s : string) : string := rstrip (lstrip s).

Definition lower_ascii (c : ascii) : ascii :=
  let n := Ascii.nat_of_ascii c in
  if ((65 <=? n)%nat && (n <=? 90)%nat) then Ascii.ascii_of_nat (n + 32) else c.

(** The text holds ASCII characters only. *)
Fixpoint is_ascii (s : string) : bool :=
  match s with
  | EmptyString => true
  | String c s' => (Ascii.nat_of_ascii c <? 128)%nat && is_ascii s'
  end.

(** [s.lower()] for a text of ASCII characters *)
Fixpoint ascii_lower (s : string) : string :=
  match s with
  | EmptyString => EmptyString
  | String c s' => String (lower_ascii c) (ascii_lower s')
  end.

(** [s.lower()]; [fold] is what it gives for a text that has characters
    outside ASCII. *)
Definition lower (fold : string -> string) (s : string) : string :=
  if is_ascii s then ascii_lower s else fold s.

(** [s.startswith(p)] *)
Definition startswith (s p : string) : bool := String.prefix p s.

(** [s.endswith(p)] *)
Definition endswith (s p : string) : bool := String.prefix (reverse p) (reverse s).

(** [needle in hay] *)
Fixpoint contains (needle hay : string) : bool :=
  String.prefix needle hay ||
  match hay with
  | EmptyString => false
  | String _ hay' => contains needle hay'
  end.

(** [sep.join(l)] *)
Fixpoint join (sep : string) (l : list string) : string :=
  match l with
  | [] => EmptyString
  | [s] => s
  | s :: l' => s +:+ sep +:+ join sep l'
  end.

(** [s[n:]] for [0 <= n] *)
Fixpoint drop_prefix (n : nat) (s : string) : string :=
  match n, s with
  | O, _ => s
  | S n', String _ s' => drop_prefix n' s'
  | S _, EmptyString => EmptyString
  end.

(** [s[:-n]] for [0 < n] *)
Definition drop_suffix (n : nat) (s : string) : string :=
  reverse (drop_prefix n (reverse s)).

(** [s.split(sep)] for a one-character separator *)
Fixpoint split_on (sep : ascii) (s : string) : list string :=
  match s with
  | EmptyString => [EmptyString]
  | String c s' =>
      if Ascii.eqb c sep then EmptyString :: split_on sep s'
      else match split_on sep s' with
           | [] => [String c EmptyString]
           | w :: ws => String c w :: ws
           end
  end.

(** [not s], the truth value of a string *)
Definition is_empty (s : string) : bool :=
  match s with EmptyString => true | _ => false end.

End PyStr.

(** ** Data classes *)

Record FeatureProposal := mkFeature {
  feature_id : Z;
  description : string
}.

Record Persona := mkPersona {
  name : string;
  background : string;
  quote : string;
  sentiment : string;
  pain_points : list string;
  inspired_by_cluster_id : option string
}.

Inductive BaseMessage :=
| HumanMessage (content : string)
| AIMessage (content : string).

(** Parsed JSON, as [json.load] and [json.loads] return it. A float is
    kept as its literal. *)
#[local] Set Warnings "-register-all".
Inductive json :=
| JNull
| JBool (b : bool)
| JInt (n : Z)
| JFloat (literal : string)
| JStr (s : string)
| JArr (items : list json)
| JObj (fields : list (string * json)).

(** ** Exceptions, results and the effect monad *)

(** A raised exception: its class and [str(e)]. Every exception of the
    model derives from [Exception], so [except Exception] catches it. The
    class is the one the handlers of the program tell it by: an exception
    of a subclass of [json.JSONDecodeError] bears that name. *)
Record exn := PyExc { exn_class : string; exn_str : string }.

(** [isinstance(e, json.JSONDecodeError)] *)
Definition is_json_decode_error (e : exn) : bool :=
  String.eqb (exn_class e) "JSONDecodeError".

Inductive result (A : Type) : Type :=
| Ok (a : A)
| Raise (e : exn).
Arguments Ok {A} a.
Arguments Raise {A} e.

(** The arguments of one call of [write_report]; what the call writes to
    the file follows from them and from the clock ([report_writes]). *)
Record Report := mkReport {
  report_clusters : list (string * json);
  report_features : list FeatureProposal;
  report_personas : list Persona;
  report_transcript : string;
  report_summary : string
}.

(** What the program has done to the outside so far: the prompts sent to
    the chat model (most recent first), the number of shuffles drawn from
    the random generator and the reports written (most recent first). *)
Record World := mkWorld {
  llm_calls : list string;
  shuffles : nat;
  reports : list Report
}.

Definition log_prompt (prompt : string) (w : World) : World :=
  {| llm_calls := prompt :: llm_calls w;
     shuffles := shuffles w;
     reports := reports w |}.

Definition count_shuffle (w : World) : World :=
  {| llm_calls := llm_calls w;
     shuffles := S (shuffles w);
     reports := reports w |}.

Definition file_report (r : Report) (w : World) : World :=
  {| llm_calls := llm_calls w;
     shuffles := shuffles w;
     reports := r :: reports w |}.

Definition M (A : Type) : Type := World -> World * result A.

Definition ret {A} (a : A) : M A := fun w => (w, Ok a).

Definition raise {A} (e : exn) : M A := fun w => (w, Raise e).

Definition bind {A B} (m : M A) (k : A -> M B) : M B :=
  fun w =>
    match m w with
    | (w', Ok a) => k a w'
    | (w', Raise e) => (w', Raise e)
    end.

(** [try: m  except Exception as e: h e] *)
Definition try_except {A} (m : M A) (h : exn -> M A) : M A :=
  fun w =>
    match m w with
    | (w', Ok a) => (w', Ok a)
    | (w', Raise e) => h e w'
    end.

(** stdpp's notation [x ← m; k] is used for [bind]. *)
#[global] Instance M_ret : MRet M := @ret.
#[global] Instance M_bind : MBind M := fun A B k m => bind m k.

(** [for a in l: s = body(s, a)], stopping at the first exception. *)
Fixpoint for_each {A S} (body : S -> A -> M S) (l : list A) (s : S) : M S :=
  match l with
  | [] => ret s
  | a :: l' => s' ← body s a; for_each body l' s'
  end.

(** ** The environment *)

Record Env := mkEnv {
  (** the chat model: the reply to a prompt, given the prompts it was sent
      before; [Raise] is a failed call *)
  llm_reply : list string -> string -> result string;
  (** [random.shuffle], as a function of the number of earlier shuffles *)
  shuffled : nat -> list Persona -> list Persona;
  (** [json.loads]; [None] is a [JSONDecodeError] *)
  json_loads : string -> option json;
  (** [str(v)] for a parsed value that is not a string *)
  py_repr : json -> string;
  (** one line of the ideation prompt for a cluster (identifier, fields);
      raises on fields of the wrong type *)
  ideation_cluster_line : string -> list (string * json) -> result string;
  (** the ideation prompt, from [n] and the cluster lines *)
  ideation_prompt : Z -> string -> string;
  (** one line of the persona prompt for a cluster; raises on fields of the
      wrong type *)
  persona_cluster_line : string -> list (string * json) -> result string;
  (** the persona prompt, from [count] and the cluster lines *)
  persona_prompt : Z -> string -> string;
  (** [str.lower] on a text that has characters outside ASCII *)
  unicode_lower : string -> string;
  (** [str.capitalize] on a text that has characters outside ASCII *)
  unicode_capitalize : string -> string;
  (** the time of the call of [write_report], formatted *)
  report_timestamp : string;
  (** what the loop of [write_report] over the clusters writes, and the
      exception that ends the loop early when a cluster is malformed *)
  report_cluster_section : list (string * json) -> list string * option exn
}.

(** ** LangChain: a conversation chain and its window memory *)

(** A [ConversationChain] over the shared chat model: the persona details
    pre-filled in its prompt by [prompt.partial] and its own
    [ConversationBufferWindowMemory], whose [chat_memory] holds every
    message saved so far. *)
Record ConversationChain := mkChain {
  persona_name : string;
  persona_background : string;
  persona_sentiment : string;
  persona_pain_points : string;
  memory : list BaseMessage
}.

(** The messages a window of [k] interactions lets through:
    [messages[-k * 2:]]. *)
Definition window (k : nat) (messages : list BaseMessage) : list BaseMessage :=
  drop (length messages - 2 * k)%nat messages.

Definition message_line (m : BaseMessage) : string :=
  match m with
  | HumanMessage c => "Human: " +:+ c
  | AIMessage c => "AI: " +:+ c
  end.

(** [memory.load_memory_variables], with [k = 5] *)
Definition load_history (chain : ConversationChain) : string :=
  PyStr.join PyStr.nl (message_line <$> window 5 (memory chain)).

(** [convo_template], filled in *)
Definition format_prompt (chain : ConversationChain) (history input : string) : string :=
  PyStr.nl +:+ "You are " +:+ persona_name chain
  +:+ ". Act and respond authentically based on this profile:" +:+ PyStr.nl
  +:+ "- Background: " +:+ persona_background chain +:+ PyStr.nl
  +:+ "- Overall Sentiment towards Spotify: " +:+ persona_sentiment chain +:+ PyStr.nl
  +:+ "- Key Pain Points/Frustrations: " +:+ persona_pain_points chain +:+ PyStr.nl
  +:+ PyStr.nl
  +:+ "Always speak in the first person ('I', 'me', 'my'). Keep your responses concise (1-3 sentences unless asked otherwise) and focused on the discussion topic. Ground your opinions in your background and pain points. Be honest and natural. Avoid clichés like 'Honestly' or 'Thanks for bringing this up'."
  +:+ PyStr.nl +:+ PyStr.nl
  +:+ "Current Conversation:" +:+ PyStr.nl
  +:+ history +:+ PyStr.nl
  +:+ "Human: " +:+ input +:+ PyStr.nl
  +:+ persona_name chain +:+ ":".

(** [memory.save_context]: the input and the output join the memory. *)
Definition save_context (chain : ConversationChain) (input output : string)
  : ConversationChain :=
  {| persona_name := persona_name chain;
     persona_background := persona_background chain;
     persona_sentiment := persona_sentiment chain;
     persona_pain_points := persona_pain_points chain;
     memory := memory chain ++ [HumanMessage input; AIMessage output] |}.

(** ** The discussion simulation engine *)

(** The local variables of [simulate_board] that its loop updates. *)
Record SimState := mkSim {
  chains : gmap string ConversationChain;
  transcript : list string;
  global_history : list BaseMessage;
  priority_votes : gmap string Z
}.

(** [f"{i+1}. {f.description}"] for each feature, joined by newlines *)
Definition feature_list_md (features : list FeatureProposal) : string :=
  PyStr.join PyStr.nl
    (imap (fun i f => pretty (Z.of_nat i + 1) +:+ ". " +:+ description f) features).

Definition welcome_prompt (features : list FeatureProposal) : string :=
  "Welcome, everyone. We have **" +:+ pretty (Z.of_nat (length features))
  +:+ "** candidate features:" +:+ PyStr.nl
  +:+ feature_list_md features +:+ PyStr.nl +:+ PyStr.nl
  +:+ "👉 In a SHORT paragraph: what excites or worries you most?".

Definition dig_deeper_prompt : string :=
  "Thanks! Now dig deeper: for EACH feature name either one concrete risk or one success metric. Any initial thoughts on potential impacts?".

Definition prioritise_prompt : string :=
  "Time to prioritise. Pick ONE feature Spotify should ship next quarter & why . Mention one trade-off you'd accept.".

(** The facilitator prompt of round [r] *)
Definition fac_input (features : list FeatureProposal) (r : Z) : string :=
  if r =? 1 then welcome_prompt features
  else if r =? 2 then dig_deeper_prompt
  else prioritise_prompt.

Definition error_reply : string :=
  "(Persona encountered an error and could not generate response)".

(** The chains dictionary after the initialisation loop: one entry per
    persona NAME, a later persona replacing an earlier one of the same
    name. (The [memories] dictionary holds the same memory objects under
    the same keys and is never read.) *)
Definition init_chains (personas : list Persona) : gmap string ConversationChain :=
  foldl (fun cs p =>
           <[name p := mkChain (name p) (background p) (sentiment p)
                               (PyStr.join "; " (pain_points p)) []]> cs)
        ∅ personas.

(** [chains[key]] *)
Definition lookup_chain (cs : gmap string ConversationChain) (key : string)
  : M ConversationChain :=
  match cs !! key with
  | Some c => ret c
  | None => raise (PyExc "KeyError" key)
  end.

(** [s.lower()] *)
Definition py_lower (E : Env) (s : string) : string :=
  PyStr.lower (unicode_lower E) s.

(** The vote of one reply: the first feature, in list order, whose
    lower-cased description occurs in the lower-cased reply. *)
Fixpoint tally_vote (E : Env) (features : list FeatureProposal) (reply : string)
  (votes : gmap string Z) : gmap string Z :=
  match features with
  | [] => votes
  | f :: rest =>
      if PyStr.contains (py_lower E (description f)) (py_lower E reply)
      then <[description f := default 0 (votes !! description f) + 1]> votes
      else tally_vote E rest reply votes
  end.

Section Simulation.

Context (E : Env).

(** One call of the chat model: the prompt is logged, the reply is the
    environment's. *)
Definition llm_invoke (prompt : string) : M string :=
  fun w => (log_prompt prompt w, llm_reply E (llm_calls w) prompt).

(** [random.shuffle(order)] on a copy of the list *)
Definition shuffle (l : list Persona) : M (list Persona) :=
  fun w => (count_shuffle w, Ok (shuffled E (shuffles w) l)).

(** [chain.predict(input=...)]: the reply and the chain with its memory
    updated; a failed call leaves the memory as it was. *)
Definition predict (chain : ConversationChain) (input : string)
  : M (string * ConversationChain) :=
  output ← llm_invoke (format_prompt chain (load_history chain) input);
  ret (output, save_context chain input output).

(** The body of [for p in order] *)
Definition persona_turn (features : list FeatureProposal) (rounds r : Z)
  (fac : string) (st : SimState) (p : Persona) : M SimState :=
  chain ← lookup_chain (chains st) (name p);
  '(reply, chain') ←
    try_except
      ('(output, chain') ← predict chain fac; ret (PyStr.strip output, chain'))
      (fun _ => ret (error_reply, chain));
  ret {| chains := <[name p := chain']> (chains st);
         transcript := transcript st
                       ++ [PyStr.nl +:+ "#### 👤 " +:+ name p; reply];
         global_history := global_history st ++ [AIMessage reply];
         priority_votes :=
           if r =? rounds
           then tally_vote E features reply (priority_votes st)
           else priority_votes st |}.

(** The body of [for r in range(1, rounds + 1)] *)
Definition discussion_round (personas : list Persona)
  (features : list FeatureProposal) (rounds : Z) (st : SimState) (r : Z)
  : M SimState :=
  let fac := fac_input features r in
  let st1 :=
    {| chains := chains st;
       transcript := transcript st
                     ++ [PyStr.nl +:+ "### 🎤 Facilitator – Round " +:+ pretty r; fac];
       global_history := global_history st ++ [HumanMessage fac];
       priority_votes := priority_votes st |} in
  order ← shuffle personas;
  for_each (persona_turn features rounds r fac) order st1.

(** [simulate_board] from the initialisation of the chains to the end of
    the simulation loop *)
Definition run_discussion (personas : list Persona)
  (features : list FeatureProposal) (rounds : Z) : M SimState :=
  for_each (discussion_round personas features rounds) (seqZ 1 rounds)
    {| chains := init_chains personas;
       transcript := [];
       global_history := [];
       priority_votes := ∅ |}.

Definition simulate_board (personas : list Persona)
  (features : list FeatureProposal) (rounds : Z)
  : M (string * list BaseMessage) :=
  match personas, features with
  | [], _ | _, [] => ret ("", [])
  | _, _ =>
      st ← run_discussion personas features rounds;
      ret (PyStr.join PyStr.nl (transcript st), global_history st)
  end.

End Simulation.


(** ** The completion service *)

Section Completion.

Context (E : Env).

(** One attempt of [invoke_llm_with_retry]: the reply, stripped. *)
Definition invoke_once (prompt : string) : M string :=
  reply ← llm_invoke E prompt;
  ret (PyStr.strip reply).

(** [invoke_llm_with_retry]: up to three attempts, the exception of the
    third one re-raised ([stop_after_attempt(3)], [reraise=True]). *)
Definition invoke_llm_with_retry (prompt : string) : M string :=
  try_except (invoke_once prompt)
    (fun _ => try_except (invoke_once prompt)
                (fun _ => invoke_once prompt)).

Definition ask_llm (prompt : string) : M string :=
  invoke_llm_with_retry prompt.

End Completion.

(** ** Meeting summary *)

Definition summary_prompt (transcript_md : string) : string :=
  "You are an expert meeting summarizer. Analyze the virtual user board meeting transcript provided below." +:+ PyStr.nl
  +:+ "Your summary MUST include these sections in markdown format:" +:+ PyStr.nl +:+ PyStr.nl
  +:+ "1.  **Pros & Cons per Feature:** For each proposed feature, list the key advantages (Pros) and disadvantages or concerns (Cons) raised by the participants. Be specific." +:+ PyStr.nl
  +:+ "2.  **Overall Sentiment & Key Takeaways per Persona:** Briefly describe each persona's overall stance, highlighting their main points, priorities, or key concerns." +:+ PyStr.nl
  +:+ "3.  **Points of Agreement & Disagreement:** Note any areas where personas strongly agreed or disagreed with each other." +:+ PyStr.nl
  +:+ "4.  **Final Recommendation:** Provide a concise (1-3 sentences) go/no-go/conditional recommendation for the features, explicitly mentioning the rationale based on the discussion (e.g., priority, concerns raised)." +:+ PyStr.nl +:+ PyStr.nl
  +:+ "---" +:+ PyStr.nl
  +:+ transcript_md +:+ PyStr.nl
  +:+ "---" +:+ PyStr.nl
  +:+ "Generate the summary now.".

Definition empty_transcript_error : string := "Error: Transcript was empty.".

Definition summary_failure_prefix : string :=
  "Error: Failed to generate meeting summary due to: ".

Definition summarise_meeting (E : Env) (transcript_md : string)
  (conversation_history : list BaseMessage) : M string :=
  if PyStr.is_empty (PyStr.strip transcript_md)
  then ret empty_transcript_error
  else try_except (ask_llm E (summary_prompt transcript_md))
         (fun e => ret (summary_failure_prefix +:+ exn_str e)).

(** ** Cluster lines of a prompt *)

(** The loop that renders one line per cluster of a prompt: a cluster that
    is not a dictionary is skipped, and an exception of the rendering
    propagates (the loop is outside any [try]). *)
Fixpoint cluster_lines (line : string -> list (string * json) -> result string)
  (clusters : list (string * json)) : M (list string) :=
  match clusters with
  | [] => ret []
  | (cid, JObj fields) :: rest =>
      match line cid fields with
      | Ok l => ls ← cluster_lines line rest; ret (l :: ls)
      | Raise e => raise e
      end
  | _ :: rest => cluster_lines line rest
  end.

(** [l[:n]], for any integer [n] *)
Definition slice_upto {A} (n : Z) (l : list A) : list A :=
  if 0 <=? n then take (Z.to_nat n) l
  else take (length l - Z.to_nat (- n))%nat l.

(** ** Feature ideation *)

Definition is_markup_line (line : string) : bool :=
  PyStr.startswith line "*" || PyStr.startswith line "-"
  || PyStr.startswith line "#" || PyStr.contains "|" line.

(** The post-processing of the reply of the ideation prompt *)
Definition proposals_of_reply (raw : string) (n : Z) : list FeatureProposal :=
  let lines :=
    List.filter (fun line => negb (PyStr.is_empty line))
      (PyStr.strip <$> PyStr.split_on (Ascii.ascii_of_nat 10) raw) in
  let proposals_text := List.filter (fun line => negb (is_markup_line line)) lines in
  let proposals :=
    imap (fun i desc => mkFeature (Z.of_nat i + 1) desc) (slice_upto n proposals_text) in
  if Z.of_nat (length proposals) <? n then proposals
  else if Z.of_nat (length proposals) >? n then slice_upto n proposals
  else proposals.

Definition ideate_features (E : Env) (selected : list (string * json)) (n : Z)
  : M (list FeatureProposal) :=
  match selected with
  | [] => ret []
  | _ =>
      cluster_details ← cluster_lines (ideation_cluster_line E) selected;
      match cluster_details with
      | [] => ret []
      | _ =>
          let prompt := ideation_prompt E n (PyStr.join PyStr.nl cluster_details) in
          try_except
            (raw ← ask_llm E prompt; ret (proposals_of_reply raw n))
            (fun _ => ret [])
      end
  end.

(** ** Persona generation *)

Definition required_keys : list string :=
  ["name"; "background"; "quote"; "sentiment"; "pain_points";
   "inspired_by_cluster_id"].

(** [d.get(key)] on a parsed object (its keys are distinct) *)
Fixpoint dict_get (key : string) (fields : list (string * json)) : option json :=
  match fields with
  | [] => None
  | (k, v) :: rest => if String.eqb k key then Some v else dict_get key rest
  end.

Definition has_key (key : string) (fields : list (string * json)) : bool :=
  match dict_get key fields with Some _ => true | None => false end.

(** [required_keys.issubset(item.keys())] *)
Definition has_required_keys (fields : list (string * json)) : bool :=
  forallb (fun k => has_key k fields) required_keys.

(** The strings of a list all of whose elements are strings *)
Fixpoint all_strings (items : list json) : option (list string) :=
  match items with
  | [] => Some []
  | JStr s :: rest =>
      match all_strings rest with
      | Some l => Some (s :: l)
      | None => None
      end
  | _ :: _ => None
  end.

Definition valid_sentiment (s : string) : bool :=
  String.eqb s "positive" || String.eqb s "neutral" || String.eqb s "negative".

Section Personas.

Context (E : Env).

(** [str(v)] *)
Definition py_str (v : json) : string :=
  match v with
  | JStr s => s
  | _ => py_repr E v
  end.

(** One pass of the validation loop over an element of the array:
    [Ok None] is [continue], [Raise] an exception that leaves the loop. *)
Definition validate_item (item : json) : result (option Persona) :=
  match item with
  | JObj fields =>
      if negb (has_required_keys fields) then Ok None
      else
        match default (JStr "") (dict_get "sentiment" fields) with
        | JStr s =>
            let sentiment := py_lower E s in
            if negb (valid_sentiment sentiment) then Ok None
            else
              match default (JArr []) (dict_get "pain_points" fields) with
              | JArr points =>
                  match all_strings points with
                  | Some pain_points =>
                      let cluster_id :=
                        match dict_get "inspired_by_cluster_id" fields with
                        | None | Some JNull => None
                        | Some v => Some (py_str v)
                        end in
                      Ok (Some
                            {| name := py_str (default JNull (dict_get "name" fields));
                               background := py_str (default JNull (dict_get "background" fields));
                               quote := py_str (default JNull (dict_get "quote" fields));
                               sentiment := sentiment;
                               pain_points := pain_points;
                               inspired_by_cluster_id := cluster_id |})
                  | None => Ok None
                  end
              | _ => Ok None
              end
        | _ => Raise (PyExc "AttributeError" "object has no attribute 'lower'")
        end
  | _ => Ok None
  end.

(** The validation loop: the personas appended, in order. *)
Fixpoint validate_items (items : list json) : result (list Persona) :=
  match items with
  | [] => Ok []
  | item :: rest =>
      match validate_item item with
      | Raise e => Raise e
      | Ok o =>
          match validate_items rest with
          | Raise e => Raise e
          | Ok ps => Ok (match o with Some p => p :: ps | None => ps end)
          end
      end
  end.

(** Step 4 of [generate_personas] on the parsed reply: validation, then
    truncation to [count]. A parsed value that is not an array yields no
    persona: iterating over an object or a string meets no dictionary,
    and iterating over anything else raises inside the [try]. *)
Definition validated_personas (parsed : json) (count : Z)
  : result (list Persona) :=
  match parsed with
  | JArr items =>
      match validate_items items with
      | Raise e => Raise e
      | Ok ps =>
          if Z.of_nat (length ps) >? count then Ok (slice_upto count ps)
          else Ok ps
      end
  | JObj _ | JStr _ => Ok []
  | _ => Raise (PyExc "TypeError" "object is not iterable")
  end.

(** The reply without its code fence *)
Definition clean_response (raw : string) : string :=
  let cleaned := PyStr.strip raw in
  let cleaned :=
    if PyStr.startswith cleaned "```json" then PyStr.drop_prefix 7 cleaned
    else cleaned in
  let cleaned :=
    if PyStr.endswith cleaned "```" then PyStr.drop_suffix 3 cleaned
    else cleaned in
  PyStr.strip cleaned.

Definition lift_result {A} (r : result A) : M A :=
  match r with
  | Ok a => ret a
  | Raise e => raise e
  end.

(** Run [m] and hand over how it ended, a raised exception included. *)
Definition observed {A} (m : M A) : M (result A) :=
  fun w => match m w with (w', r) => (w', Ok r) end.

(** What reading the local variable [cleaned_response] raises while it is
    not bound (the message is that of Python 3.11 and later). *)
Definition unbound_cleaned_response : exn :=
  PyExc "UnboundLocalError"
    "cannot access local variable 'cleaned_response' where it is not associated with a value".

(** The handlers of the [try] of step 3, which all return []. The one of
    [json.JSONDecodeError] first writes [cleaned_response] to the log:
    while that variable is not bound ([None]: the completion request
    itself has failed) reading it raises, out of the handler and so out
    of the function. *)
Definition persona_failure (cleaned_response : option string) (e : exn)
  : M (list Persona) :=
  if is_json_decode_error e
  then match cleaned_response with
       | Some _ => ret []
       | None => raise unbound_cleaned_response
       end
  else ret [].

Definition generate_personas (clusters : list (string * json)) (count : Z)
  : M (list Persona) :=
  match clusters with
  | [] => ret []
  | _ =>
      if count <=? 0 then ret []
      else
        let num_to_select := Z.min count (Z.of_nat (length clusters)) in
        if negb (num_to_select <? count) && (num_to_select =? 0) then ret []
        else
          let selected := take (Z.to_nat num_to_select) clusters in
          cluster_details ← cluster_lines (persona_cluster_line E) selected;
          match cluster_details with
          | [] => ret []
          | _ =>
              (* ["\\n".join]: a backslash and an n, not a newline *)
              let prompt := persona_prompt E count (PyStr.join "\n" cluster_details) in
              raw_response ← observed (ask_llm E prompt);
              match raw_response with
              | Raise e => persona_failure None e
              | Ok raw =>
                  let cleaned := clean_response raw in
                  try_except
                    (if negb (PyStr.startswith cleaned "[")
                        || negb (PyStr.endswith cleaned "]")
                     then ret []
                     else
                       match json_loads E cleaned with
                       | None => ret []
                       | Some parsed => lift_result (validated_personas parsed count)
                       end)
                    (persona_failure (Some cleaned))
              end
          end
  end.

End Personas.

(** ** The LangGraph nodes and the pipeline *)

Record Config := mkConfig {
  persona_count : Z;
  feature_count : Z;
  discussion_rounds : Z
}.

(** [AgentState] *)
Record AgentState := mkState {
  selected_clusters : list (string * json);
  features : list FeatureProposal;
  personas : list Persona;
  state_transcript : string;
  conversation_history : list BaseMessage;
  summary : string;
  error : option string
}.

(** The dictionary a node returns: the keys it sets. *)
Record StateUpdate := mkUpdate {
  set_features : option (list FeatureProposal);
  set_personas : option (list Persona);
  set_transcript : option string;
  set_conversation_history : option (list BaseMessage);
  set_summary : option string;
  set_error : option (option string)
}.

(** [{}] *)
Definition no_update : StateUpdate :=
  mkUpdate None None None None None None.

(** [{"error": message}] *)
Definition error_update (message : string) : StateUpdate :=
  mkUpdate None None None None None (Some (Some message)).

(** The graph merges the returned keys into the state. *)
Definition apply_update (st : AgentState) (u : StateUpdate) : AgentState :=
  {| selected_clusters := selected_clusters st;
     features := default (features st) (set_features u);
     personas := default (personas st) (set_personas u);
     state_transcript := default (state_transcript st) (set_transcript u);
     conversation_history :=
       default (conversation_history st) (set_conversation_history u);
     summary := default (summary st) (set_summary u);
     error := default (error st) (set_error u) |}.

(** The truth value of [state.get("error")] *)
Definition error_flag (st : AgentState) : bool :=
  match error st with
  | Some message => negb (PyStr.is_empty message)
  | None => false
  end.

Section Pipeline.

Context (E : Env) (CFG : Config).

Definition run_feature_ideation (state : AgentState) : M StateUpdate :=
  try_except
    (fs ← ideate_features E (selected_clusters state) (feature_count CFG);
     ret (mkUpdate (Some fs) None None None None (Some None)))
    (fun e => ret (error_update ("Feature Ideation Failed: " +:+ exn_str e))).

Definition run_persona_generation (state : AgentState) : M StateUpdate :=
  if error_flag state then ret no_update
  else
    try_except
      (ps ← generate_personas E (selected_clusters state) (persona_count CFG);
       ret (mkUpdate None (Some ps) None None None (Some None)))
      (fun e => ret (error_update ("Persona Generation Failed: " +:+ exn_str e))).

Definition run_board_simulation (state : AgentState) : M StateUpdate :=
  if error_flag state then ret no_update
  else
    try_except
      ('(transcript_md, history) ←
         simulate_board E (personas state) (features state) (discussion_rounds CFG);
       ret (mkUpdate None None (Some transcript_md) (Some history) None (Some None)))
      (fun e => ret (error_update ("Board Simulation Failed: " +:+ exn_str e))).

Definition run_summary_generation (state : AgentState) : M StateUpdate :=
  if error_flag state then ret no_update
  else
    try_except
      (s ← summarise_meeting E (state_transcript state) (conversation_history state);
       ret (mkUpdate None None None None (Some s) (Some None)))
      (fun e => ret (error_update ("Summary Generation Failed: " +:+ exn_str e))).

(** A node of the compiled graph: run it and merge what it returns. *)
Definition step (node : AgentState -> M StateUpdate) (state : AgentState)
  : M AgentState :=
  u ← node state;
  ret (apply_update state u).

(** [pipeline.invoke]: ideate, generate_personas, board, generate_summary *)
Definition invoke_pipeline (initial_state : AgentState) : M AgentState :=
  s1 ← step run_feature_ideation initial_state;
  s2 ← step run_persona_generation s1;
  s3 ← step run_board_simulation s2;
  step run_summary_generation s3.

(** [write_report]: the call is recorded with its arguments, from which
    [report_writes] gives what is written. (Whatever is raised while the
    file is written is logged by the function and not raised again.) *)
Definition write_report (clusters : list (string * json))
  (fs : list FeatureProposal) (ps : list Persona) (transcript_md s : string)
  : M unit :=
  fun w => (file_report (mkReport clusters fs ps transcript_md s) w, Ok tt).

Definition initial_state (selected_clusters_data : list (string * json))
  : AgentState :=
  mkState selected_clusters_data [] [] "" [] "" None.

(** [main] once the clusters are loaded and selected; the result is the
    exit status of the process. *)
Definition main_after_selection (selected_clusters_data : list (string * json))
  : M Z :=
  match selected_clusters_data with
  | [] => ret 1
  | _ =>
      final_state ← invoke_pipeline (initial_state selected_clusters_data);
      _ ← write_report (selected_clusters final_state) (features final_state)
            (personas final_state) (state_transcript final_state)
            (summary final_state);
      if error_flag final_state then ret 1 else ret 0
  end.

End Pipeline.

From Stdlib Require Import Sorted.

(** ** Loading the clusters *)

(** What [load_cluster_data] finds at the path: no file, a file that
    cannot be read, or its text. *)
Inductive FileState :=
| FileMissing
| FileUnreadable
| FileText (text : string).

(** [type(v)], as an f-string renders it *)
Definition type_name (v : json) : string :=
  match v with
  | JNull => "<class 'NoneType'>"
  | JBool _ => "<class 'bool'>"
  | JInt _ => "<class 'int'>"
  | JFloat _ => "<class 'float'>"
  | JStr _ => "<class 'str'>"
  | JArr _ => "<class 'list'>"
  | JObj _ => "<class 'dict'>"
  end.

(** [{str(i): item for i, item in enumerate(loaded_data)}] *)
Definition keyed_by_index (items : list json) : list (string * json) :=
  imap (fun i item => (pretty i, item)) items.

Definition load_cluster_data (E : Env) (path : string) (file : FileState)
  : result (list (string * json)) :=
  match file with
  | FileMissing =>
      Raise (PyExc "FileNotFoundError" ("Cluster JSON file not found: " +:+ path))
  | FileUnreadable =>
      Raise (PyExc "OSError" ("Could not read cluster file: " +:+ path))
  | FileText text =>
      match json_loads E text with
      | None => Raise (PyExc "ValueError" ("Invalid JSON file: " +:+ path))
      | Some loaded_data =>
          let converted :=
            match loaded_data with
            | JArr items => Ok (keyed_by_index items)
            | JObj fields => Ok fields
            | _ => Raise (PyExc "TypeError"
                            ("Unexpected data type in JSON file: "
                             +:+ type_name loaded_data))
            end in
          match converted with
          | Raise e => Raise e
          | Ok [] => Raise (PyExc "ValueError" "Cluster data is empty.")
          | Ok clusters => Ok clusters
          end
      end
  end.

(** ** Ranking the clusters *)

(** The sort key of a cluster: its count of negative reviews, 0 when the
    cluster is not a dictionary or the count is absent. A [sentiment_dist]
    that is not a dictionary has no [get]. *)
Definition negative_count (data : json) : result json :=
  match data with
  | JObj fields =>
      match default (JObj []) (dict_get "sentiment_dist" fields) with
      | JObj dist => Ok (default (JInt 0) (dict_get "negative" dist))
      | _ => Raise (PyExc "AttributeError" "object has no attribute 'get'")
      end
  | _ => Ok (JInt 0)
  end.

(** The keys of all items, computed before anything is compared *)
Fixpoint with_keys (items : list (string * json))
  : result (list (json * (string * json))) :=
  match items with
  | [] => Ok []
  | kv :: rest =>
      match negative_count kv.2 with
      | Raise e => Raise e
      | Ok key =>
          match with_keys rest with
          | Raise e => Raise e
          | Ok keyed => Ok ((key, kv) :: keyed)
          end
      end
  end.

Section Ranking.

(** Python's [a < b] on two sort keys; it raises on values that have no
    order. *)
Context (py_lt : json -> json -> result bool).

(** One item put in its place in a list sorted by decreasing key: behind
    the items of a greater key, before those of an equal or smaller one. *)
Fixpoint insert_by_key (x : json * (string * json))
  (sorted : list (json * (string * json)))
  : result (list (json * (string * json))) :=
  match sorted with
  | [] => Ok [x]
  | y :: rest =>
      match py_lt x.1 y.1 with
      | Raise e => Raise e
      | Ok true =>
          match insert_by_key x rest with
          | Raise e => Raise e
          | Ok placed => Ok (y :: placed)
          end
      | Ok false => Ok (x :: y :: rest)
      end
  end.

(** [sorted(..., reverse=True)] on keyed items: by decreasing key, items
    of equal keys staying in their original order. *)
Fixpoint sort_by_key (keyed : list (json * (string * json)))
  : result (list (json * (string * json))) :=
  match keyed with
  | [] => Ok []
  | x :: rest =>
      match sort_by_key rest with
      | Raise e => Raise e
      | Ok sorted => insert_by_key x sorted
      end
  end.

(** [sorted(clusters.items(), key=..., reverse=True)] *)
Definition ranked_clusters (clusters : list (string * json))
  : result (list (string * json)) :=
  match with_keys clusters with
  | Raise e => Raise e
  | Ok keyed =>
      match sort_by_key keyed with
      | Raise e => Raise e
      | Ok sorted => Ok (snd <$> sorted)
      end
  end.

Definition pick_top_clusters (clusters : list (string * json)) (k : Z)
  : result (list (string * json)) :=
  if k <=? 0 then Ok []
  else
    match ranked_clusters clusters with
    | Raise _ =>
        Raise (PyExc "TypeError"
                 "Cluster data format seems incompatible for sorting.")
    | Ok ranked =>
        let num_to_select := Z.min k (Z.of_nat (length ranked)) in
        Ok (take (Z.to_nat num_to_select) ranked)
    end.

(** ** The entry point *)

(** The exit status [main] gives for an exception that reaches its
    handlers. *)
Definition exit_status (e : exn) : Z :=
  if String.eqb (exn_class e) "FileNotFoundError" then 2
  else if String.eqb (exn_class e) "ValueError" then 3
  else 1.

(** [main]: the result is the exit status of the process. *)
Definition main (E : Env) (CFG : Config) (path : string) (file : FileState)
  : M Z :=
  match load_cluster_data E path file with
  | Raise e => ret (exit_status e)
  | Ok clusters =>
      match pick_top_clusters clusters (persona_count CFG) with
      | Raise e => ret (exit_status e)
      | Ok selected_clusters_data => main_after_selection E CFG selected_clusters_data
      end
  end.

End Ranking.

(** ** The sections of the report *)

Definition upper_ascii (c : ascii) : ascii :=
  let n := Ascii.nat_of_ascii c in
  if ((97 <=? n)%nat && (n <=? 122)%nat) then Ascii.ascii_of_nat (n - 32) else c.

(** [s.capitalize()]: on a text of ASCII characters the first one in
    upper case and the others in lower case; [cap] is what it gives for a
    text that has characters outside ASCII. *)
Definition capitalize (cap : string -> string) (s : string) : string :=
  if PyStr.is_ascii s
  then match s with
       | EmptyString => EmptyString
       | String c rest => String (upper_ascii c) (PyStr.ascii_lower rest)
       end
  else cap s.

(** [FeatureProposal.md] *)
Definition feature_md (f : FeatureProposal) : string :=
  pretty (feature_id f) +:+ ". " +:+ description f.

(** [Persona.md] *)
Definition persona_md (E : Env) (p : Persona) : string :=
  "### " +:+ name p +:+ PyStr.nl +:+ PyStr.nl
  +:+ "*" +:+ quote p +:+ "*" +:+ PyStr.nl +:+ PyStr.nl
  +:+ "**Background**: " +:+ background p +:+ PyStr.nl +:+ PyStr.nl
  +:+ "**Sentiment**: " +:+ capitalize (unicode_capitalize E) (sentiment p) +:+ PyStr.nl +:+ PyStr.nl
  +:+ "**Key Pain Points**:" +:+ PyStr.nl
  +:+ "  - " +:+ PyStr.join (PyStr.nl +:+ "  - ") (pain_points p) +:+ PyStr.nl.

(** What [write_report] writes under "Proposed Features" *)
Definition features_section (fs : list FeatureProposal) : list string :=
  ("## 💡 Proposed Features" +:+ PyStr.nl +:+ PyStr.nl)
  :: match fs with
     | [] => ["*No features were generated.*" +:+ PyStr.nl +:+ PyStr.nl]
     | _ => (fun feat => "### " +:+ feature_md feat +:+ PyStr.nl +:+ PyStr.nl) <$> fs
     end.

(** What [write_report] writes under "User Personas" *)
Definition personas_section (E : Env) (ps : list Persona) : list string :=
  ("## 👥 User Personas" +:+ PyStr.nl +:+ PyStr.nl)
  :: match ps with
     | [] => ["*No personas were generated.*" +:+ PyStr.nl +:+ PyStr.nl]
     | _ => ps ≫= (fun persona => [persona_md E persona; PyStr.nl])
     end.

(** What [write_report] writes under "Discussion Transcript" *)
Definition transcript_section (transcript_md : string) : list string :=
  ("## 💬 Discussion Transcript" +:+ PyStr.nl +:+ PyStr.nl)
  :: (if PyStr.is_empty (PyStr.strip transcript_md)
      then ["*No discussion transcript was generated.*" +:+ PyStr.nl +:+ PyStr.nl]
      else ["```markdown" +:+ PyStr.nl;
            transcript_md +:+ PyStr.nl;
            "```" +:+ PyStr.nl +:+ PyStr.nl]).

(** What [write_report] writes under "Meeting Summary" *)
Definition summary_section (s : string) : list string :=
  ("## 📝 Meeting Summary" +:+ PyStr.nl +:+ PyStr.nl)
  :: (if negb (PyStr.is_empty (PyStr.strip s)) && negb (PyStr.startswith s "Error:")
      then [s +:+ PyStr.nl]
      else ["*Summary could not be generated. Details: " +:+ s +:+ "*" +:+ PyStr.nl]).

(** What [write_report] writes before the clusters: the title, the time
    and the overview. *)
Definition report_header (E : Env) (CFG : Config) (r : Report) : list string :=
  ["# 🎵 Spotify Virtual User-Board Session" +:+ PyStr.nl +:+ PyStr.nl;
   "*Generated on " +:+ report_timestamp E +:+ "*" +:+ PyStr.nl +:+ PyStr.nl;
   "## 📊 Overview" +:+ PyStr.nl +:+ PyStr.nl;
   "- **Number of Features Discussed**: "
     +:+ pretty (Z.of_nat (length (report_features r))) +:+ PyStr.nl;
   "- **Number of Personas**: "
     +:+ pretty (Z.of_nat (length (report_personas r))) +:+ PyStr.nl;
   "- **Discussion Rounds**: " +:+ pretty (discussion_rounds CFG)
     +:+ PyStr.nl +:+ PyStr.nl;
   "## 🔍 Selected User Feedback Clusters" +:+ PyStr.nl +:+ PyStr.nl].

Definition report_footer : list string :=
  [PyStr.nl +:+ "---" +:+ PyStr.nl;
   "*This report was generated using an AI-powered user board simulation pipeline.*"
     +:+ PyStr.nl].

(** What [write_report] writes once the loop over the clusters has ended
    without an exception *)
Definition report_body (E : Env) (r : Report) : list string :=
  features_section (report_features r)
  ++ personas_section E (report_personas r)
  ++ transcript_section (report_transcript r)
  ++ summary_section (report_summary r)
  ++ report_footer.

(** The strings that a call of [write_report] hands to [f.write], in
    order, on a file that opens and takes them. An exception raised in the
    loop over the clusters ends the writing there: it is caught at the end
    of the function and logged. *)
Definition report_writes (E : Env) (CFG : Config) (r : Report) : list string :=
  report_header E CFG r
  ++ match report_cluster_section E (report_clusters r) with
     | (written, Some _) => written
     | (written, None) => written ++ report_body E r
     end.
(** ** What a run leaves behind, round by round *)

(** What happened in one round: its number, the order in which the
    personas spoke and what the chain of each turn returned ([None] when
    the call failed). *)
Record RoundLog := mkRound {
  round_no : Z;
  speakers : list Persona;
  outputs : list (option string)
}.

(** The reply recorded for a turn *)
Definition recorded (output : option string) : string :=
  match output with
  | Some text => PyStr.strip text
  | None => error_reply
  end.

(** The replies recorded in a round, in the order they were given *)
Definition replies (rl : RoundLog) : list string := recorded <$> outputs rl.

(** What a successful turn adds to the memory of its chain *)
Definition exchange (fac : string) (output : option string) : list BaseMessage :=
  match output with
  | Some text => [HumanMessage fac; AIMessage text]
  | None => []
  end.

(** The chain after a turn *)
Definition remember (chain : ConversationChain) (fac : string)
  (output : option string) : ConversationChain :=
  match output with
  | Some text => save_context chain fac text
  | None => chain
  end.

(** What the turns of the personas called [key] add to a memory *)
Definition exchanges_named (key : string) (fac : string)
  (turns : list (Persona * option string)) : list BaseMessage :=
  turns ≫= (fun turn =>
              if decide (name turn.1 = key) then exchange fac turn.2 else []).

#[global] Instance Persona_eq_dec : EqDecision Persona.
Proof. solve_decision. Defined.


Definition round_turns (rl : RoundLog) : list (Persona * option string) :=
  zip (speakers rl) (outputs rl).

Definition facilitator_header (r : Z) : string :=
  PyStr.nl +:+ "### 🎤 Facilitator – Round " +:+ pretty r.

Definition persona_header (p : Persona) : string :=
  PyStr.nl +:+ "#### 👤 " +:+ name p.

Definition round_history (features : list FeatureProposal) (rl : RoundLog)
  : list BaseMessage :=
  HumanMessage (fac_input features (round_no rl)) :: (AIMessage <$> replies rl).

Definition turn_lines (turn : Persona * string) : list string :=
  [persona_header turn.1; turn.2].

Definition round_transcript (features : list FeatureProposal) (rl : RoundLog)
  : list string :=
  [facilitator_header (round_no rl); fac_input features (round_no rl)]
  ++ (zip (speakers rl) (replies rl) ≫= turn_lines).

Definition tally_votes (E : Env) (features : list FeatureProposal)
  (rs : list string) (votes : gmap string Z) : gmap string Z :=
  foldl (fun v reply => tally_vote E features reply v) votes rs.

Definition round_votes (E : Env) (features : list FeatureProposal) (rounds : Z)
  (votes : gmap string Z) (rl : RoundLog) : gmap string Z :=
  if round_no rl =? rounds then tally_votes E features (replies rl) votes
  else votes.

(** The shuffle returns the personas it was given, in some order. *)
Definition fair_shuffle (E : Env) : Prop :=
  ∀ n l, shuffled E n l ≡ₚ l.

Definition is_human (m : BaseMessage) : bool :=
  match m with HumanMessage _ => true | AIMessage _ => false end.

Definition is_ai (m : BaseMessage) : bool :=
  match m with HumanMessage _ => false | AIMessage _ => true end.

(** What the chain of a turn returns *)
Definition turn_output (E : Env) (w : World) (chain : ConversationChain)
  (fac : string) : option string :=
  match llm_reply E (llm_calls w) (format_prompt chain (load_history chain) fac) with
  | Ok output => Some output
  | Raise _ => None
  end.

(** The world after the chain of a turn has called the chat model. *)
Definition after_call (w : World) (chain : ConversationChain) (fac : string)
  : World :=
  log_prompt (format_prompt chain (load_history chain) fac) w.

(** A round in which every persona spoke once. *)
Definition well_formed_round (personas : list Persona) (rl : RoundLog) : Prop :=
  speakers rl ≡ₚ personas ∧ length (outputs rl) = length personas.

(** A reply mentions feature [f]: the lower-cased description of [f]
    occurs in the lower-cased reply. *)
Definition mentions (E : Env) (reply : string) (f : FeatureProposal) : Prop :=
  PyStr.contains (py_lower E (description f)) (py_lower E reply) = true.

(** [votes[key] += 1] on a [defaultdict(int)] *)
Definition increment (key : string) (votes : gmap string Z) : gmap string Z :=
  <[key := default 0 (votes !! key) + 1]> votes.

(** ** The simulation with the tally left out

    [simulate_board] with the statements that touch [priority_votes] in
    the loop removed, for comparison with the function as it is: the
    mapping stays as it was created. *)

Section Untallied.

Context (E : Env).

Definition persona_turn_untallied (fac : string) (st : SimState) (p : Persona)
  : M SimState :=
  chain ← lookup_chain (chains st) (name p);
  '(reply, chain') ←
    try_except
      ('(output, chain') ← predict E chain fac; ret (PyStr.strip output, chain'))
      (fun _ => ret (error_reply, chain));
  ret {| chains := <[name p := chain']> (chains st);
         transcript := transcript st
                       ++ [PyStr.nl +:+ "#### 👤 " +:+ name p; reply];
         global_history := global_history st ++ [AIMessage reply];
         priority_votes := priority_votes st |}.

Definition discussion_round_untallied (personas : list Persona)
  (features : list FeatureProposal) (st : SimState) (r : Z) : M SimState :=
  let fac := fac_input features r in
  let st1 :=
    {| chains := chains st;
       transcript := transcript st
                     ++ [PyStr.nl +:+ "### 🎤 Facilitator – Round " +:+ pretty r; fac];
       global_history := global_history st ++ [HumanMessage fac];
       priority_votes := priority_votes st |} in
  order ← shuffle E personas;
  for_each (persona_turn_untallied fac) order st1.

Definition simulate_board_untallied (personas : list Persona)
  (features : list FeatureProposal) (rounds : Z)
  : M (string * list BaseMessage) :=
  match personas, features with
  | [], _ | _, [] => ret ("", [])
  | _, _ =>
      st ← for_each (discussion_round_untallied personas features)
             (seqZ 1 rounds)
             {| chains := init_chains personas;
                transcript := [];
                global_history := [];
                priority_votes := ∅ |};
      ret (PyStr.join PyStr.nl (transcript st), global_history st)
  end.

End Untallied.

(** Two states of the loop that differ at most in the tally *)
Definition same_but_votes (s1 s2 : SimState) : Prop :=
  chains s1 = chains s2
  ∧ transcript s1 = transcript s2
  ∧ global_history s1 = global_history s2.

Definition same_outcome {A B} (R : A -> B -> Prop)
  (o1 : World * result A) (o2 : World * result B) : Prop :=
  o1.1 = o2.1 ∧
  match o1.2, o2.2 with
  | Ok a, Ok b => R a b
  | Raise e1, Raise e2 => e1 = e2
  | _, _ => False
  end.


(** The personas that [generate_personas] makes of the reply to its
    prompt: none when the cleaned reply is not bracketed, is not JSON, or
    makes the validation raise. *)
Definition personas_of_reply (E : Env) (raw : string) (count : Z)
  : list Persona :=
  let cleaned := clean_response raw in
  if negb (PyStr.startswith cleaned "[") || negb (PyStr.endswith cleaned "]")
  then []
  else
    match json_loads E cleaned with
    | None => []
    | Some parsed =>
        match validated_personas E parsed count with
        | Ok ps => ps
        | Raise _ => []
        end
    end.

(** How [generate_personas] ends, given how its completion request ended *)
Definition persona_stage_result (E : Env) (reply : result string) (count : Z)
  : result (list Persona) :=
  match reply with
  | Ok raw => Ok (personas_of_reply E raw count)
  | Raise e =>
      if is_json_decode_error e then Raise unbound_cleaned_response else Ok []
  end.


(** ** Sample inputs *)

Module Sample.

(** A chat model that answers every prompt, numbering its replies. *)
Definition talkative (log : list string) (prompt : string) : result string :=
  Ok ("  Reply " +:+ pretty (length log)
      +:+ ": ship the SLEEP TIMER, then Dark Mode.  ").

(** A chat model that is down. *)
Definition unreachable (log : list string) (prompt : string) : result string :=
  Raise (PyExc "APIError" "service unavailable").

(** A rendering of a cluster that needs a list under [keywords], as
    [', '.join] does. *)
Definition line_of_cluster (cid : string) (fields : list (string * json))
  : result string :=
  match dict_get "keywords" fields with
  | Some (JArr _) | None => Ok ("- Cluster " +:+ cid)
  | Some _ => Raise (PyExc "TypeError" "can only join an iterable")
  end.

(** A stand-in for the loop of the report over the clusters, which
    keeps of each cluster its heading alone: the heading is written
    first, and [cluster_data.get] then raises when the cluster is not a
    dictionary. *)
Fixpoint cluster_headings (clusters : list (string * json))
  : list string * option exn :=
  match clusters with
  | [] => ([], None)
  | (cid, data) :: rest =>
      let heading := "### Cluster " +:+ cid +:+ PyStr.nl +:+ PyStr.nl in
      match data with
      | JObj _ =>
          let '(written, raised) := cluster_headings rest in
          (heading :: written, raised)
      | _ => ([heading], Some (PyExc "AttributeError" "object has no attribute 'get'"))
      end
  end.

(** Lower case for the two texts with an accent that the samples use *)
Definition fold_accents (s : string) : string :=
  if String.eqb s "Café mode" then "café mode"
  else if String.eqb s "I want CAFÉ MODE now" then "i want café mode now"
  else s.

Definition env (llm : list string -> string -> result string) : Env :=
  {| llm_reply := llm;
     shuffled := fun _ l => reverse l;
     json_loads := fun _ => None;
     py_repr := fun _ => "?";
     ideation_cluster_line := line_of_cluster;
     ideation_prompt := fun _ lines => lines;
     persona_cluster_line := line_of_cluster;
     persona_prompt := fun _ lines => lines;
     unicode_lower := fold_accents;
     unicode_capitalize := fun s => s;
     report_timestamp := "2025-05-04 10:00 UTC";
     report_cluster_section := cluster_headings |}.

Definition world : World := mkWorld [] 0 [].

Definition alex : Persona :=
  mkPersona "Alex" "Commuter on the free tier" "Too many ads." "negative"
    ["ads"; "discovery"] (Some "0").

Definition maria : Persona :=
  mkPersona "Maria" "Parent on a family plan" "Profiles get mixed up."
    "positive" ["profiles"] (Some "1").

(** A second persona that the model named Alex as well. *)
Definition alex_too : Persona :=
  mkPersona "Alex" "Student who listens offline" "Downloads vanish."
    "neutral" ["downloads"] (Some "1").

Definition board : list Persona := [alex; maria].

Definition proposals : list FeatureProposal :=
  [mkFeature 1 "Dark mode"; mkFeature 2 "Sleep timer"].

Definition cluster : string * json :=
  ("0", JObj [("keywords", JArr [JStr "ads"]);
              ("sentiment_dist", JObj [("negative", JInt 7)]);
              ("samples", JArr [JStr "too many ads"])]).

(** A cluster whose keywords are a number. *)
Definition odd_cluster : string * json :=
  ("0", JObj [("keywords", JInt 5)]).

Definition config : Config := mkConfig 5 3 3.

(** An element of the reply that has all six fields *)
Definition complete_item : json :=
  JObj [("name", JStr "Alex Chen");
        ("background", JStr "Commuter on the free tier");
        ("quote", JStr "Too many ads.");
        ("sentiment", JStr "Negative");
        ("pain_points", JArr [JStr "ads"; JStr "discovery"]);
        ("inspired_by_cluster_id", JInt 3)].

(** An element of the reply without a quote *)
Definition incomplete_fields : list (string * json) :=
  [("name", JStr "Sam");
   ("background", JStr "Podcast listener");
   ("sentiment", JStr "neutral");
   ("pain_points", JArr []);
   ("inspired_by_cluster_id", JNull)].

(** A chat model that fails with a given message. *)
Definition failing (message : string) (log : list string) (prompt : string)
  : result string :=
  Raise (PyExc "APIError" message).

End Sample.

(** The memories after some turns under the facilitator message [fac], as
    they follow from the memories before: under every key, the exchanges
    of the turns of the personas of that name have been appended. *)
Definition memories_extended (st st' : SimState) (added : string -> list BaseMessage)
  : Prop :=
  ∀ key chain, chains st !! key = Some chain →
    ∃ chain', chains st' !! key = Some chain'
              ∧ memory chain' = memory chain ++ added key.

(** What a round adds to the memory kept under [key] *)
Definition round_exchanges_named (features : list FeatureProposal) (key : string)
  (rl : RoundLog) : list BaseMessage :=
  exchanges_named key (fac_input features (round_no rl)) (round_turns rl).


(** ** Further notions used in the statements *)

(** The reply of the chat model to the [i]-th consecutive attempt at
    [prompt], counted from 0, from world [w] on *)
Definition attempt (E : Env) (w : World) (prompt : string) (i : nat)
  : result string :=
  llm_reply E (replicate i prompt ++ llm_calls w) prompt.

(** The world after [k] calls with [prompt] *)
Definition after_attempts (k : nat) (prompt : string) (w : World) : World :=
  {| llm_calls := replicate k prompt ++ llm_calls w;
     shuffles := shuffles w;
     reports := reports w |}.

(** [strip] over a result *)
Definition stripped (r : result string) : result string :=
  match r with
  | Ok text => Ok (PyStr.strip text)
  | Raise e => Raise e
  end.

Definition failed {A} (r : result A) : Prop :=
  match r with Ok _ => False | Raise _ => True end.

(** The count of negative reviews of a cluster whose sort key is an
    integer *)
Definition count_of (kv : string * json) : Z :=
  match negative_count kv.2 with
  | Ok (JInt n) => n
  | _ => 0
  end.

(** The sort key of every cluster is an integer. *)
Definition integer_counts (clusters : list (string * json)) : Prop :=
  Forall (fun kv => ∃ n, negative_count kv.2 = Ok (JInt n)) clusters.

(** [py_lt] orders integers as [<] does. *)
Definition orders_integers (py_lt : json -> json -> result bool) : Prop :=
  ∀ a b, py_lt (JInt a) (JInt b) = Ok (a <? b).

(** By decreasing count *)
Definition by_decreasing_count (a b : string * json) : Prop :=
  count_of b ≤ count_of a.

(** A keyed item whose key is the integer count of its cluster *)
Definition keyed_by_count (x : json * (string * json)) : Prop :=
  x.1 = JInt (count_of x.2).

Definition keyed_decreasing (a b : json * (string * json)) : Prop :=
  count_of b.2 ≤ count_of a.2.

(** From world [w] to world [w'], [calls] prompts were sent to the chat
    model and [draws] shuffles were drawn; no report was written. *)
Definition grown (w w' : World) (calls draws : nat) : Prop :=
  (∃ prompts, length prompts = calls ∧ llm_calls w' = prompts ++ llm_calls w)
  ∧ shuffles w' = (shuffles w + draws)%nat
  ∧ reports w' = reports w.


(** What the validation loop keeps of an element of the array *)
Definition accepted (E : Env) (item : json) : option Persona :=
  match validate_item E item with
  | Ok (Some p) => Some p
  | _ => None
  end.

(** The place-holders that [write_report] writes for a missing
    transcript and for a summary that is none *)
Definition transcript_placeholder : list string :=
  ["## 💬 Discussion Transcript" +:+ PyStr.nl +:+ PyStr.nl;
   "*No discussion transcript was generated.*" +:+ PyStr.nl +:+ PyStr.nl].

Definition summary_placeholder (details : string) : list string :=
  ["## 📝 Meeting Summary" +:+ PyStr.nl +:+ PyStr.nl;
   "*Summary could not be generated. Details: " +:+ details +:+ "*" +:+ PyStr.nl].

(** The report that [main] writes at the end of a run *)
Definition report_of (final : AgentState) : Report :=
  mkReport (selected_clusters final) (features final) (personas final)
    (state_transcript final) (summary final).

(** The number of votes in a tally *)
Definition total_votes (votes : gmap string Z) : Z :=
  map_fold (fun _ n acc => n + acc) 0 votes.

(** Every entry of the tally is positive and belongs to a feature. *)
Definition tally_of (features : list FeatureProposal) (votes : gmap string Z)
  : Prop :=
  ∀ key n, votes !! key = Some n →
    1 ≤ n ∧ ∃ f, f ∈ features ∧ description f = key.

(** ** Further sample inputs *)

Module Inputs.

(** [<] on integers; other keys have no order here. *)
Definition int_lt (a b : json) : result bool :=
  match a, b with
  | JInt x, JInt y => Ok (x <? y)
  | _, _ => Raise (PyExc "TypeError" "'<' not supported")
  end.

Definition cluster_with (cid : string) (negative : Z) : string * json :=
  (cid, JObj [("keywords", JArr [JStr "ads"]);
              ("sentiment_dist", JObj [("positive", JInt 1);
                                       ("negative", JInt negative)]);
              ("samples", JArr [JStr "too many ads"])]).

(** Four clusters with 3, 7, 7 and 1 negative reviews *)
Definition clusters : list (string * json) :=
  [cluster_with "a" 3; cluster_with "b" 7; cluster_with "c" 7; cluster_with "d" 1].

(** A parser that knows one file: an array of two clusters. *)
Definition parse (text : string) : option json :=
  if String.eqb text "two clusters"
  then Some (JArr [(cluster_with "x" 2).2; (cluster_with "y" 5).2])
  else if String.eqb text "[]" then Some (JArr [])
  else None.

Definition env (llm : list string -> string -> result string) : Env :=
  {| llm_reply := llm;
     shuffled := fun _ l => reverse l;
     json_loads := parse;
     py_repr := fun _ => "?";
     ideation_cluster_line := Sample.line_of_cluster;
     ideation_prompt := fun _ lines => lines;
     persona_cluster_line := Sample.line_of_cluster;
     persona_prompt := fun _ lines => lines;
     unicode_lower := Sample.fold_accents;
     unicode_capitalize := fun s => s;
     report_timestamp := "2025-05-04 10:00 UTC";
     report_cluster_section := Sample.cluster_headings |}.

(** A chat model whose reply is a fenced array, and a parser that knows
    the body of that reply: an array of a complete item, an item without
    quote, something that is no object, and the complete item again. *)
Definition fenced_reply (log : list string) (prompt : string) : result string :=
  Ok "```json[personas]```".

Definition parse_personas (text : string) : option json :=
  if String.eqb text "[personas]"
  then Some (JArr [Sample.complete_item; JObj Sample.incomplete_fields;
                   JInt 3; Sample.complete_item])
  else None.

Definition persona_env : Env :=
  {| llm_reply := fenced_reply;
     shuffled := fun _ l => reverse l;
     json_loads := parse_personas;
     py_repr := fun _ => "3";
     ideation_cluster_line := Sample.line_of_cluster;
     ideation_prompt := fun _ lines => lines;
     persona_cluster_line := Sample.line_of_cluster;
     persona_prompt := fun _ lines => lines;
     unicode_lower := Sample.fold_accents;
     unicode_capitalize := fun s => s;
     report_timestamp := "2025-05-04 10:00 UTC";
     report_cluster_section := Sample.cluster_headings |}.

(** A chat model whose every call fails with a [json.JSONDecodeError]. *)
Definition undecodable (log : list string) (prompt : string) : result string :=
  Raise (PyExc "JSONDecodeError" "Expecting value: line 1 column 1 (char 0)").

(** NO-BREAK SPACE, EM SPACE and IDEOGRAPHIC SPACE in UTF-8 *)
Definition nbsp : string :=
  String (Ascii.ascii_of_nat 194) (String (Ascii.ascii_of_nat 160) "").

Definition em_space : string :=
  String (Ascii.ascii_of_nat 226)
    (String (Ascii.ascii_of_nat 128) (String (Ascii.ascii_of_nat 131) "")).

Definition ideographic_space : string :=
  String (Ascii.ascii_of_nat 227)
    (String (Ascii.ascii_of_nat 128) (String (Ascii.ascii_of_nat 128) "")).

(** A chat model that fails on its second call only. *)
Definition fails_second (log : list string) (prompt : string) : result string :=
  if (length log =? 1)%nat then Raise (PyExc "APIError" "rate limit")
  else Ok ("  Reply " +:+ pretty (length log) +:+ ": Dark mode, please.  ").

End Inputs.
(** * Proofs *)

(** Unfolds the operations of the monad [M]. *)
Ltac unfold_M :=
  unfold mbind, M_bind, bind, mret, M_ret, ret, try_except, raise.

Section SimulationFacts.

Context (E : Env).

Lemma persona_turn_eq features rounds r fac st p chain w :
  chains st !! name p = Some chain →
  persona_turn E features rounds r fac st p w =
    (after_call w chain fac,
     Ok {| chains := <[name p := remember chain fac (turn_output E w chain fac)]>
                       (chains st);
           transcript := transcript st
                         ++ turn_lines (p, recorded (turn_output E w chain fac));
           global_history := global_history st
                             ++ [AIMessage (recorded (turn_output E w chain fac))];
           priority_votes :=
             if r =? rounds
             then tally_vote E features (recorded (turn_output E w chain fac))
                    (priority_votes st)
             else priority_votes st |}).
Proof.
  intros Hc.
  unfold persona_turn, turn_output, after_call, lookup_chain, predict,
    llm_invoke. unfold_M.
  rewrite Hc. simpl.
  destruct (llm_reply E (llm_calls w) _); reflexivity.
Qed.

Lemma memory_remember chain fac output :
  memory (remember chain fac output) = memory chain ++ exchange fac output.
Proof. destruct output; simpl; [reflexivity|by rewrite app_nil_r]. Qed.

Lemma persona_turns_log features rounds r fac order :
  ∀ st w,
    Forall (fun p => is_Some (chains st !! name p)) order →
    ∃ w' st' outs,
      for_each (persona_turn E features rounds r fac) order st w = (w', Ok st')
      ∧ length outs = length order
      ∧ dom (chains st') = dom (chains st)
      ∧ transcript st' =
          transcript st ++ (zip order (recorded <$> outs) ≫= turn_lines)
      ∧ global_history st' =
          global_history st ++ (AIMessage <$> (recorded <$> outs))
      ∧ priority_votes st' =
          (if r =? rounds
           then tally_votes E features (recorded <$> outs) (priority_votes st)
           else priority_votes st)
      ∧ memories_extended st st'
          (fun key => exchanges_named key fac (zip order outs)).
Proof.
  induction order as [|p order IH]; intros st w Hdom.
  - exists w, st, []. simpl. rewrite !app_nil_r.
    repeat split; try reflexivity; [by destruct (r =? rounds)|].
    intros key chain Hk. exists chain. by rewrite app_nil_r.
  - apply Forall_cons in Hdom as [[chain Hc] Hrest].
    pose proof (persona_turn_eq features rounds r fac st p chain w Hc) as Hturn.
    set (out := turn_output E w chain fac) in *.
    set (st1 := {| chains := <[name p := remember chain fac out]> (chains st);
                  transcript := transcript st ++ turn_lines (p, recorded out);
                  global_history := global_history st ++ [AIMessage (recorded out)];
                  priority_votes :=
                    if r =? rounds
                    then tally_vote E features (recorded out) (priority_votes st)
                    else priority_votes st |}) in *.
    assert (Hdom1 : dom (chains st1) = dom (chains st)).
    { simpl. apply dom_insert_lookup_L. eauto. }
    destruct (IH st1 (after_call w chain fac))
      as (w' & st' & outs & Hrun & Hlen & Hd & Ht & Hh & Hv & Hm).
    { eapply Forall_impl; [exact Hrest|]. intros q Hq. simpl in Hq.
      apply elem_of_dom. rewrite Hdom1. by apply elem_of_dom. }
    exists w', st', (out :: outs).
    split.
    { simpl. unfold mbind, M_bind, bind. rewrite Hturn. exact Hrun. }
    split; [simpl; by rewrite Hlen|].
    split; [by rewrite Hd|].
    split; [rewrite Ht; simpl; by rewrite <- app_assoc|].
    split; [rewrite Hh; simpl; by rewrite <- app_assoc|].
    split; [rewrite Hv; simpl; by destruct (r =? rounds)|].
    intros key c Hk. unfold exchanges_named. simpl zip. rewrite bind_cons. simpl.
    destruct (decide (name p = key)) as [<-|Hne].
    + rewrite Hc in Hk. injection Hk as <-.
      destruct (Hm (name p) (remember chain fac out)) as (c' & Hc' & Hmem).
      { simpl. apply lookup_insert_eq. }
      exists c'. split; [exact Hc'|].
      rewrite Hmem, memory_remember. by rewrite <- app_assoc.
    + destruct (Hm key c) as (c' & Hc' & Hmem).
      { simpl. by rewrite lookup_insert_ne. }
      exists c'. split; [exact Hc'|]. exact Hmem.
Qed.

Lemma discussion_round_log personas features rounds st r w :
  fair_shuffle E →
  (∀ p, p ∈ personas → name p ∈ dom (chains st)) →
  ∃ w' st' rl,
    discussion_round E personas features rounds st r w = (w', Ok st')
    ∧ round_no rl = r
    ∧ well_formed_round personas rl
    ∧ dom (chains st') = dom (chains st)
    ∧ transcript st' = transcript st ++ round_transcript features rl
    ∧ global_history st' = global_history st ++ round_history features rl
    ∧ priority_votes st' = round_votes E features rounds (priority_votes st) rl
    ∧ memories_extended st st' (fun key => round_exchanges_named features key rl).
Proof.
  intros Hfair Hdom.
  unfold discussion_round, shuffle, mbind, M_bind, bind.
  set (order := shuffled E (shuffles w) personas).
  set (st1 := mkSim _ _ _ _).
  destruct (persona_turns_log features rounds r (fac_input features r) order st1
              (count_shuffle w))
    as (w' & st' & outs & Hrun & Hlen & Hd & Ht & Hh & Hv & Hm).
  { apply Forall_forall. intros p Hp. apply elem_of_dom. simpl.
    apply Hdom. by rewrite <- (Hfair (shuffles w) personas). }
  exists w', st', (mkRound r order outs).
  split; [exact Hrun|].
  split; [reflexivity|].
  split.
  { split; simpl; [apply Hfair|].
    rewrite Hlen. unfold order. by rewrite (Hfair (shuffles w) personas). }
  split; [by rewrite Hd|].
  split.
  { rewrite Ht. unfold round_transcript. simpl. by rewrite <- app_assoc. }
  split.
  { rewrite Hh. unfold round_history. simpl. by rewrite <- app_assoc. }
  split; [rewrite Hv; reflexivity|].
  exact Hm.
Qed.

Lemma discussion_rounds_log personas features rounds rs :
  fair_shuffle E →
  ∀ st w,
    (∀ p, p ∈ personas → name p ∈ dom (chains st)) →
    ∃ w' st' log,
      for_each (discussion_round E personas features rounds) rs st w = (w', Ok st')
      ∧ round_no <$> log = rs
      ∧ Forall (well_formed_round personas) log
      ∧ transcript st' = transcript st ++ (log ≫= round_transcript features)
      ∧ global_history st' = global_history st ++ (log ≫= round_history features)
      ∧ priority_votes st' =
          foldl (round_votes E features rounds) (priority_votes st) log
      ∧ memories_extended st st'
          (fun key => log ≫= round_exchanges_named features key).
Proof.
  intros Hfair. induction rs as [|r rs IH]; intros st w Hdom.
  - exists w, st, []. simpl. rewrite !app_nil_r.
    repeat split; try done.
    intros key chain Hk. exists chain. by rewrite app_nil_r.
  - destruct (discussion_round_log personas features rounds st r w Hfair Hdom)
      as (w1 & st1 & rl & Hrun1 & Hr & Hwf & Hd & Ht & Hh & Hv & Hm).
    destruct (IH st1 w1)
      as (w' & st' & log & Hrun & Hrs & Hall & Ht' & Hh' & Hv' & Hm').
    { intros p Hp. rewrite Hd. by apply Hdom. }
    exists w', st', (rl :: log).
    split.
    { simpl. unfold mbind, M_bind, bind. rewrite Hrun1. exact Hrun. }
    split; [rewrite fmap_cons; by rewrite Hr, Hrs|].
    split; [by constructor|].
    split; [rewrite Ht', Ht; simpl; by rewrite <- app_assoc|].
    split; [rewrite Hh', Hh; simpl; by rewrite <- app_assoc|].
    split; [rewrite Hv', Hv; reflexivity|].
    intros key chain Hk.
    destruct (Hm key chain Hk) as (c1 & Hc1 & Hmem1).
    destruct (Hm' key c1 Hc1) as (c' & Hc' & Hmem').
    exists c'. split; [exact Hc'|].
    rewrite Hmem', Hmem1, bind_cons. by rewrite <- app_assoc.
Qed.

Lemma init_chains_dom personas :
  ∀ p, p ∈ personas → name p ∈ dom (init_chains personas).
Proof.
  unfold init_chains.
  assert (Hgen : ∀ ps (cs : gmap string ConversationChain) k,
    (k ∈ dom cs ∨ k ∈ name <$> ps) →
    k ∈ dom (foldl (fun cs p =>
               <[name p := mkChain (name p) (background p) (sentiment p)
                                   (PyStr.join "; " (pain_points p)) []]> cs)
             cs ps)).
  { induction ps as [|q ps IH]; intros cs k Hk; simpl.
    - destruct Hk as [Hk|Hk]; [exact Hk|]. by apply elem_of_nil in Hk.
    - apply IH. rewrite dom_insert_L. simpl in Hk.
      destruct Hk as [Hk|Hk]; [left; set_solver|].
      apply elem_of_cons in Hk as [->|Hk]; [left; set_solver|by right]. }
  intros p Hp. apply Hgen. right. by apply list_elem_of_fmap_2.
Qed.

Lemma init_chains_memory personas :
  ∀ key chain, init_chains personas !! key = Some chain → memory chain = [].
Proof.
  unfold init_chains.
  assert (Hgen : ∀ ps (cs : gmap string ConversationChain),
    (∀ key chain, cs !! key = Some chain → memory chain = []) →
    ∀ key chain,
      foldl (fun cs p =>
               <[name p := mkChain (name p) (background p) (sentiment p)
                                   (PyStr.join "; " (pain_points p)) []]> cs)
            cs ps !! key = Some chain →
      memory chain = []).
  { induction ps as [|q ps IH]; intros cs Hcs key chain; simpl; [apply Hcs|].
    apply IH. intros k c. rewrite lookup_insert.
    case_decide; [by intros [= <-]|apply Hcs]. }
  apply Hgen. intros key chain. by rewrite lookup_empty.
Qed.

(** Every run of the simulation loop completes, and leaves exactly what
    its rounds recorded. *)
Lemma run_discussion_log personas features rounds w :
  fair_shuffle E →
  ∃ w' st log,
    run_discussion E personas features rounds w = (w', Ok st)
    ∧ round_no <$> log = seqZ 1 rounds
    ∧ Forall (well_formed_round personas) log
    ∧ transcript st = log ≫= round_transcript features
    ∧ global_history st = log ≫= round_history features
    ∧ priority_votes st = foldl (round_votes E features rounds) ∅ log
    ∧ (∀ p, p ∈ personas →
         ∃ chain, chains st !! name p = Some chain
                  ∧ memory chain =
                      log ≫= round_exchanges_named features (name p)).
Proof.
  intros Hfair. unfold run_discussion.
  destruct (discussion_rounds_log personas features rounds (seqZ 1 rounds) Hfair
              (mkSim (init_chains personas) [] [] ∅) w)
    as (w' & st & log & Hrun & Hrs & Hall & Ht & Hh & Hv & Hm).
  { intros p Hp. simpl. by apply init_chains_dom. }
  exists w', st, log. repeat split; try done.
  intros p Hp.
  pose proof (init_chains_dom personas p Hp) as Hin.
  apply elem_of_dom in Hin as [c0 Hc0].
  destruct (Hm (name p) c0 Hc0) as (c & Hc & Hmem).
  exists c. split; [exact Hc|].
  by rewrite Hmem, (init_chains_memory personas _ _ Hc0).
Qed.

End SimulationFacts.

(** ** Facts about the primitives *)

Lemma seqZ_of_to_nat m len : seqZ m len = seqZ m (Z.of_nat (Z.to_nat len)).
Proof. unfold seqZ. by rewrite Nat2Z.id. Qed.

Lemma later_rounds_prioritise features k :
  ∀ m, 3 ≤ m →
    fac_input features <$> seqZ m (Z.of_nat k) = replicate k prioritise_prompt.
Proof.
  induction k as [|k IH]; intros m Hm; [reflexivity|].
  rewrite seqZ_cons by lia. rewrite fmap_cons.
  replace (Z.pred (Z.of_nat (S k))) with (Z.of_nat k) by lia.
  rewrite IH by lia. simpl. f_equal.
  unfold fac_input.
  destruct (Z.eqb_spec m 1); [lia|]. destruct (Z.eqb_spec m 2); [lia|]. reflexivity.
Qed.

Lemma fac_inputs_by_round features rounds :
  fac_input features <$> seqZ 1 rounds =
    take (Z.to_nat rounds)
      (welcome_prompt features :: dig_deeper_prompt
         :: replicate (Z.to_nat rounds - 2) prioritise_prompt).
Proof.
  rewrite seqZ_of_to_nat.
  destruct (Z.to_nat rounds) as [|[|k]]; [reflexivity..|].
  rewrite seqZ_cons by lia. rewrite fmap_cons.
  rewrite seqZ_cons by lia. rewrite fmap_cons.
  replace (Z.pred (Z.pred (Z.of_nat (S (S k))))) with (Z.of_nat k) by lia.
  rewrite later_rounds_prioritise by lia.
  replace (S (S k) - 2)%nat with k by lia.
  simpl. rewrite take_ge by (rewrite length_replicate; lia). reflexivity.
Qed.

Lemma humans_of_round features rl :
  filter is_human (round_history features rl) =
    [HumanMessage (fac_input features (round_no rl))].
Proof.
  unfold round_history. rewrite filter_cons. simpl.
  destruct (decide (Is_true true)) as [_|n]; [|by destruct n].
  f_equal. induction (replies rl) as [|x l IH]; [reflexivity|].
  rewrite fmap_cons, filter_cons. simpl.
  destruct (decide (Is_true false)) as [f|_]; [by destruct f|]. exact IH.
Qed.

Lemma ais_of_round features rl :
  filter is_ai (round_history features rl) = AIMessage <$> replies rl.
Proof.
  unfold round_history. rewrite filter_cons. simpl.
  destruct (decide (Is_true false)) as [f|_]; [by destruct f|].
  induction (replies rl) as [|x l IH]; [reflexivity|].
  rewrite fmap_cons, filter_cons. simpl.
  destruct (decide (Is_true true)) as [_|n]; [|by destruct n].
  by rewrite IH.
Qed.

Lemma humans_of_log features log :
  filter is_human (log ≫= round_history features) =
    (fun rl => HumanMessage (fac_input features (round_no rl))) <$> log.
Proof.
  induction log as [|rl log IH]; [reflexivity|].
  rewrite bind_cons, filter_app, humans_of_round, IH. reflexivity.
Qed.

Lemma ai_count_of_log features personas log :
  Forall (well_formed_round personas) log →
  length (filter is_ai (log ≫= round_history features)) =
    (length log * length personas)%nat.
Proof.
  induction 1 as [|rl log [_ Hlen] _ IH]; [reflexivity|].
  unfold replies in *.
  rewrite bind_cons, filter_app, length_app, ais_of_round.
  unfold replies. rewrite !length_fmap, Hlen, IH.
  simpl. lia.
Qed.

Lemma prefix_iff_append a :
  ∀ b, String.prefix a b = true ↔ ∃ post, b = a +:+ post.
Proof.
  induction a as [|c a IH]; intros b.
  - split; [intros _; by exists b|intros _; by destruct b].
  - destruct b as [|d b]; simpl.
    + split; [done|intros [post Hpost]; discriminate].
    + destruct (Ascii.ascii_dec c d) as [->|Hne].
      * rewrite IH. split; intros [post Hpost]; exists post.
        -- by rewrite Hpost.
        -- change (String d b = String d (a +:+ post)) in Hpost. by injection Hpost.
      * split; [done|]. intros [post Hpost].
        change (String d b = String c (a +:+ post)) in Hpost. congruence.
Qed.

(** [needle in hay] holds exactly when [needle] is a substring of [hay]. *)
Lemma contains_iff_substring needle hay :
  PyStr.contains needle hay = true ↔ ∃ pre post, hay = pre +:+ needle +:+ post.
Proof.
  induction hay as [|c hay IH].
  - change (PyStr.contains needle "") with (String.prefix needle "" || false).
    rewrite orb_false_r, prefix_iff_append. split.
    + intros [post Hpost]. by exists "", post.
    + intros (pre & post & Hhay). destruct pre; [by exists post|discriminate].
  - change (PyStr.contains needle (String c hay))
      with (String.prefix needle (String c hay) || PyStr.contains needle hay).
    rewrite orb_true_iff, IH, prefix_iff_append. split.
    + intros [[post Hpost]|(pre & post & Hhay)].
      * by exists "", post.
      * exists (String c pre), post. by rewrite Hhay.
    + intros (pre & post & Hhay). destruct pre as [|d pre].
      * left. by exists post.
      * right. exists pre, post.
        change (String c hay = String d (pre +:+ needle +:+ post)) in Hhay.
        congruence.
Qed.

(** ** The simulation as a whole *)

Section BoardFacts.

Context (E : Env).

Lemma simulate_board_log personas features rounds w :
  fair_shuffle E → personas ≠ [] → features ≠ [] →
  ∃ w' log,
    simulate_board E personas features rounds w =
      (w', Ok (PyStr.join PyStr.nl (log ≫= round_transcript features),
               log ≫= round_history features))
    ∧ round_no <$> log = seqZ 1 rounds
    ∧ Forall (well_formed_round personas) log.
Proof.
  intros Hfair Hp Hf.
  destruct (run_discussion_log E personas features rounds w Hfair)
    as (w' & st & log & Hrun & Hrs & Hall & Ht & Hh & _ & _).
  exists w', log. split; [|by split].
  destruct personas as [|p ps]; [done|]. destruct features as [|f fs]; [done|].
  unfold simulate_board, mbind, M_bind, bind. rewrite Hrun.
  unfold mret, M_ret, ret. by rewrite Ht, Hh.
Qed.

Lemma earlier_rounds_no_votes features rounds earlier votes :
  Forall (fun rl => round_no rl < rounds) earlier →
  foldl (round_votes E features rounds) votes earlier = votes.
Proof.
  induction 1 as [|rl l Hlt _ IH]; [reflexivity|].
  simpl. unfold round_votes at 2.
  destruct (Z.eqb_spec (round_no rl) rounds); [lia|]. exact IH.
Qed.

Lemma tally_vote_first_match features reply votes before f after :
  features = before ++ f :: after →
  Forall (fun g => ¬ mentions E reply g) before →
  mentions E reply f →
  tally_vote E features reply votes = increment (description f) votes.
Proof.
  intros -> Hbefore Hf. induction Hbefore as [|g l Hg _ IH]; simpl.
  - unfold mentions in Hf. by rewrite Hf.
  - unfold mentions in Hg. destruct (PyStr.contains _ _); [done|]. exact IH.
Qed.

Lemma tally_vote_no_match features reply votes :
  Forall (fun g => ¬ mentions E reply g) features →
  tally_vote E features reply votes = votes.
Proof.
  induction 1 as [|g l Hg _ IH]; simpl; [reflexivity|].
  unfold mentions in Hg. destruct (PyStr.contains _ _); [done|]. exact IH.
Qed.

Lemma for_each_same_outcome {A S} (R : S → S → Prop)
  (body1 body2 : S → A → M S) :
  (∀ s1 s2 a w, R s1 s2 → same_outcome R (body1 s1 a w) (body2 s2 a w)) →
  ∀ l s1 s2 w,
    R s1 s2 → same_outcome R (for_each body1 l s1 w) (for_each body2 l s2 w).
Proof.
  intros Hbody. induction l as [|a l IH]; intros s1 s2 w HR.
  - by split.
  - simpl. unfold mbind, M_bind, bind.
    destruct (Hbody s1 s2 a w HR) as [Hw Hres].
    destruct (body1 s1 a w) as [w1 [t1|e1]], (body2 s2 a w) as [w2 [t2|e2]];
      simpl in *; subst; try done.
    by apply IH.
Qed.

Lemma persona_turn_same_outcome features rounds r fac s1 s2 p w :
  same_but_votes s1 s2 →
  same_outcome same_but_votes
    (persona_turn E features rounds r fac s1 p w)
    (persona_turn_untallied E fac s2 p w).
Proof.
  intros (Hc & Ht & Hh).
  unfold persona_turn, persona_turn_untallied, lookup_chain, predict,
    llm_invoke. unfold_M.
  rewrite Hc, Ht, Hh.
  destruct (chains s2 !! name p) as [chain|]; simpl; [|by split].
  destruct (llm_reply E (llm_calls w) _); by repeat split.
Qed.

Lemma discussion_round_same_outcome personas features rounds s1 s2 r w :
  same_but_votes s1 s2 →
  same_outcome same_but_votes
    (discussion_round E personas features rounds s1 r w)
    (discussion_round_untallied E personas features s2 r w).
Proof.
  intros (Hc & Ht & Hh).
  unfold discussion_round, discussion_round_untallied, shuffle,
    mbind, M_bind, bind.
  apply for_each_same_outcome.
  - intros. by apply persona_turn_same_outcome.
  - repeat split; simpl; congruence.
Qed.

End BoardFacts.

(** ** Properties of the discussion simulation *)

(** The facilitator message of a round is chosen by the round index
    alone, never by the round count: in every run, the facilitator
    entries of the global history are, in order, the welcome prompt that
    lists all features (round 1), the risk-or-success-metric prompt
    (round 2) and, for every round from the third on, the
    pick-one-feature-and-name-a-trade-off prompt. *)
Theorem facilitator_prompt_by_round_index E personas features rounds w :
  fair_shuffle E → personas ≠ [] → features ≠ [] →
  ∃ w' transcript_md history,
    simulate_board E personas features rounds w = (w', Ok (transcript_md, history))
    ∧ filter is_human history =
        HumanMessage <$>
          take (Z.to_nat rounds)
            (welcome_prompt features :: dig_deeper_prompt
               :: replicate (Z.to_nat rounds - 2) prioritise_prompt).
Proof.
  intros Hfair Hp Hf.
  destruct (simulate_board_log E personas features rounds w Hfair Hp Hf)
    as (w' & log & Hrun & Hrs & _).
  eexists _, _, _. split; [exact Hrun|].
  rewrite humans_of_log, <- fac_inputs_by_round, <- Hrs, <- !list_fmap_compose.
  reflexivity.
Qed.

(** C2. With P personas, at least one feature and R >= 1 rounds, the
    global history consists of R blocks, one per round and in round order,
    each made of one facilitator (human) entry followed by P persona
    (assistant) entries, spoken by the personas in some order; so it holds
    exactly R human and R * P assistant entries. The transcript has the
    same shape. *)
Theorem history_one_block_per_round E personas features rounds w :
  fair_shuffle E → personas ≠ [] → features ≠ [] → 1 ≤ rounds →
  ∃ w' transcript_md history log,
    simulate_board E personas features rounds w = (w', Ok (transcript_md, history))
    ∧ round_no <$> log = seqZ 1 rounds
    ∧ length log = Z.to_nat rounds
    ∧ Forall (fun rl => speakers rl ≡ₚ personas
                        ∧ length (replies rl) = length personas) log
    ∧ history =
        log ≫= (fun rl => HumanMessage (fac_input features (round_no rl))
                          :: (AIMessage <$> replies rl))
    ∧ transcript_md =
        PyStr.join PyStr.nl
          (log ≫= (fun rl =>
                     [facilitator_header (round_no rl);
                      fac_input features (round_no rl)]
                     ++ (zip (speakers rl) (replies rl) ≫=
                           (fun turn => [persona_header turn.1; turn.2]))))
    ∧ length (filter is_human history) = Z.to_nat rounds
    ∧ length (filter is_ai history) = (Z.to_nat rounds * length personas)%nat.
Proof.
  intros Hfair Hp Hf Hr.
  destruct (simulate_board_log E personas features rounds w Hfair Hp Hf)
    as (w' & log & Hrun & Hrs & Hall).
  assert (Hlen : length log = Z.to_nat rounds).
  { rewrite <- (length_fmap round_no), Hrs. apply length_seqZ. }
  exists w', (PyStr.join PyStr.nl (log ≫= round_transcript features)),
    (log ≫= round_history features), log.
  split; [exact Hrun|].
  split; [exact Hrs|].
  split; [exact Hlen|].
  split.
  { eapply Forall_impl; [exact Hall|]. intros rl [Hperm Hout].
    split; [exact Hperm|]. unfold replies. by rewrite length_fmap. }
  split; [reflexivity|].
  split; [reflexivity|].
  split.
  - by rewrite humans_of_log, length_fmap.
  - by rewrite (ai_count_of_log features personas log Hall), Hlen.
Qed.

(** C3. Votes are tallied in the final round only: at the end of the
    simulation loop the tally is the one obtained from the replies of
    round R alone, taken in the order they were given, every earlier
    round having left it empty. A reply votes for the first feature, in
    list order, whose lower-cased description occurs in the lower-cased
    reply, and for no other: that feature's entry grows by one, every
    other entry is unchanged, and a reply that mentions no feature changes
    nothing. *)
Theorem votes_tallied_in_final_round E personas features rounds w :
  fair_shuffle E → 1 ≤ rounds →
  ∃ w' st earlier final,
    run_discussion E personas features rounds w = (w', Ok st)
    ∧ global_history st =
        (earlier ≫= round_history features) ++ round_history features final
    ∧ Forall (fun rl => round_no rl < rounds) earlier
    ∧ round_no final = rounds
    ∧ length (replies final) = length personas
    ∧ foldl (round_votes E features rounds) ∅ earlier = ∅
    ∧ priority_votes st =
        foldl (fun votes reply => tally_vote E features reply votes) ∅ (replies final)
    ∧ (∀ reply votes before f after,
         features = before ++ f :: after →
         Forall (fun g => ¬ mentions E reply g) before →
         mentions E reply f →
         tally_vote E features reply votes =
           <[description f := default 0 (votes !! description f) + 1]> votes
         ∧ ∀ key, key ≠ description f →
             tally_vote E features reply votes !! key = votes !! key)
    ∧ (∀ reply votes,
         Forall (fun g => ¬ mentions E reply g) features →
         tally_vote E features reply votes = votes)
    ∧ (∀ reply f,
         mentions E reply f ↔
         ∃ pre post,
           py_lower E reply = pre +:+ py_lower E (description f) +:+ post).
Proof.
  intros Hfair Hr.
  destruct (run_discussion_log E personas features rounds w Hfair)
    as (w' & st & log & Hrun & Hrs & Hall & _ & Hh & Hv & _).
  replace rounds with ((rounds - 1) + 1) in Hrs at 1 by lia.
  rewrite seqZ_app in Hrs by lia.
  apply fmap_app_inv in Hrs as (earlier & last & Hearlier & Hlast & ->).
  replace (seqZ (1 + (rounds - 1)) 1) with [rounds] in Hlast
    by (replace (1 + (rounds - 1)) with rounds by lia; reflexivity).
  destruct last as [|final [|]]; try done.
  injection Hlast as Hfinal.
  assert (Hlt : Forall (fun rl => round_no rl < rounds) earlier).
  { apply Forall_forall. intros rl Hrl.
    assert (Hin : round_no rl ∈ seqZ 1 (rounds - 1))
      by (rewrite Hearlier; by apply list_elem_of_fmap_2).
    apply elem_of_seqZ in Hin. lia. }
  apply Forall_app in Hall as [_ Hwf].
  apply Forall_singleton in Hwf as [_ Hlen].
  assert (Hreplies : length (replies final) = length personas)
    by (unfold replies; by rewrite length_fmap).
  exists w', st, earlier, final.
  split; [exact Hrun|].
  split; [rewrite Hh, bind_app; simpl; by rewrite app_nil_r|].
  split; [exact Hlt|].
  split; [by symmetry|].
  split; [exact Hreplies|].
  split; [by apply earlier_rounds_no_votes|].
  split.
  { rewrite Hv, foldl_app.
    rewrite (earlier_rounds_no_votes E features rounds earlier ∅ Hlt).
    simpl. unfold round_votes. rewrite <- Hfinal, Z.eqb_refl. reflexivity. }
  split.
  { intros reply votes before f after Hsplit Hbefore Hf.
    rewrite (tally_vote_first_match E features reply votes before f after) by done.
    split; [reflexivity|].
    intros key Hkey. unfold increment. by rewrite lookup_insert_ne. }
  split.
  - intros reply votes. apply tally_vote_no_match.
  - intros reply f. apply contains_iff_substring.
Qed.

(** C7. With no persona or with no feature, [simulate_board] returns the
    empty transcript and the empty history at once: the chat model is not
    called and nothing is shuffled, the world being left as it was. *)
Theorem simulate_board_without_inputs E personas features rounds w :
  simulate_board E [] features rounds w = (w, Ok ("", []))
  ∧ simulate_board E personas [] rounds w = (w, Ok ("", [])).
Proof.
  split; [reflexivity|]. by destruct personas.
Qed.

(** C9. The tally has no bearing on what [simulate_board] returns: the
    transcript and the history, and also the calls made to the chat model
    and to the random generator, are those of the same function with the
    tallying statements removed; the returned pair has no component that
    holds the tally. *)
Theorem tally_does_not_reach_result E personas features rounds w :
  simulate_board E personas features rounds w =
    simulate_board_untallied E personas features rounds w.
Proof.
  destruct personas as [|p ps]; [reflexivity|].
  destruct features as [|f fs]; [reflexivity|].
  unfold simulate_board, simulate_board_untallied, run_discussion,
    mbind, M_bind, bind.
  pose proof (for_each_same_outcome same_but_votes
    (discussion_round E (p :: ps) (f :: fs) rounds)
    (discussion_round_untallied E (p :: ps) (f :: fs))
    (fun s1 s2 r w0 H => discussion_round_same_outcome E (p :: ps) (f :: fs) rounds s1 s2 r w0 H)
    (seqZ 1 rounds)
    (mkSim (init_chains (p :: ps)) [] [] ∅)
    (mkSim (init_chains (p :: ps)) [] [] ∅) w) as Hsame.
  destruct Hsame as [Hw Hres]; [by repeat split|].
  destruct (for_each (discussion_round E _ _ _) _ _ w) as [w1 [s1|e1]],
    (for_each (discussion_round_untallied E _ _) _ _ w) as [w2 [s2|e2]];
    simpl in *; subst; try done.
  destruct Hres as (_ & Ht & Hh). unfold mret, M_ret, ret. by rewrite Ht, Hh.
Qed.

(** ** The memories of the personas *)





(** C4, at two personas of the same name. The chains are kept in a
    dictionary under the persona's name, so that the two personas are
    served by one chain and one memory: when the second of them speaks,
    the memory of its chain already holds the reply given for the first,
    and the prompt sent to the chat model quotes it. *)
Theorem same_name_personas_share_memory :
  let E := Sample.env Sample.talkative in
  let first_reply := "  Reply 0: ship the SLEEP TIMER, then Dark Mode.  " in
  let second_reply := "  Reply 1: ship the SLEEP TIMER, then Dark Mode.  " in
  let welcome := welcome_prompt Sample.proposals in
  ∃ w' st chain last_prompt earlier_prompts,
    run_discussion E [Sample.alex_too; Sample.alex] Sample.proposals 1 Sample.world
      = (w', Ok st)
    ∧ shuffled E 0 [Sample.alex_too; Sample.alex] = [Sample.alex; Sample.alex_too]
    ∧ global_history st =
        [HumanMessage welcome; AIMessage (PyStr.strip first_reply);
         AIMessage (PyStr.strip second_reply)]
    ∧ chains st !! name Sample.alex_too = Some chain
    ∧ chains st !! name Sample.alex = Some chain
    ∧ memory chain =
        [HumanMessage welcome; AIMessage first_reply;
         HumanMessage welcome; AIMessage second_reply]
    ∧ llm_calls w' = last_prompt :: earlier_prompts
    ∧ PyStr.contains ("AI: " +:+ first_reply) last_prompt = true.
Proof.
  intros E first_reply second_reply welcome.
  eexists _, _, _, _, _.
  split; [vm_compute; reflexivity|].
  repeat split; vm_compute; reflexivity.
Qed.

(** ** The meeting summary *)

Lemma is_empty_spec s : PyStr.is_empty s = true ↔ s = "".
Proof. destruct s; simpl; split; intros H; try done. Qed.

(** C6 (as amended). On a transcript that is empty or all white space,
    [summarise_meeting] returns the fixed string "Error: Transcript was
    empty." and does not call the completion service. On any other
    transcript it returns what the service returned or, when the call
    failed, the fixed prefix "Error: Failed to generate meeting summary due
    to: " followed by the message of the exception; in no case does an
    exception reach the caller. *)
Theorem summarise_meeting_catches_failures E transcript_md history w :
  (PyStr.strip transcript_md = "" →
     summarise_meeting E transcript_md history w = (w, Ok empty_transcript_error))
  ∧ (PyStr.strip transcript_md ≠ "" →
     ∀ w' reply,
       ask_llm E (summary_prompt transcript_md) w = (w', Ok reply) →
       summarise_meeting E transcript_md history w = (w', Ok reply))
  ∧ (PyStr.strip transcript_md ≠ "" →
     ∀ w' e,
       ask_llm E (summary_prompt transcript_md) w = (w', Raise e) →
       summarise_meeting E transcript_md history w =
         (w', Ok (summary_failure_prefix +:+ exn_str e)))
  ∧ ∃ w' text, summarise_meeting E transcript_md history w = (w', Ok text).
Proof.
  unfold summarise_meeting, try_except.
  destruct (PyStr.is_empty (PyStr.strip transcript_md)) eqn:Hempty.
  - apply is_empty_spec in Hempty.
    repeat split; try done. by eexists _, _.
  - assert (Hne : PyStr.strip transcript_md ≠ "").
    { intros Heq. apply is_empty_spec in Heq. congruence. }
    split; [done|].
    split; [intros _ w' reply ->; reflexivity|].
    split; [intros _ w' e ->; reflexivity|].
    destruct (ask_llm E (summary_prompt transcript_md) w) as [w' [reply|e]];
      by eexists _, _.
Qed.

(** ** Persona generation *)

Section PersonaFacts.

Context (E : Env).

Lemma missing_key_not_required key fields :
  key ∈ required_keys → dict_get key fields = None →
  has_required_keys fields = false.
Proof.
  intros Hkey Hget. unfold has_required_keys.
  apply not_true_iff_false. intros Hall.
  rewrite forallb_forall in Hall.
  specialize (Hall key). rewrite <- list_elem_of_In in Hall.
  specialize (Hall Hkey). unfold has_key in Hall. by rewrite Hget in Hall.
Qed.

Lemma validate_items_skip before item after :
  validate_item E item = Ok None →
  validate_items E (before ++ item :: after) = validate_items E (before ++ after).
Proof.
  intros Hitem. induction before as [|x l IH]; simpl.
  - rewrite Hitem. by destruct (validate_items E after).
  - by rewrite IH.
Qed.

Lemma slice_upto_length {A} (n : Z) (l : list A) :
  0 ≤ n → Z.of_nat (length (slice_upto n l)) ≤ n.
Proof.
  intros Hn. unfold slice_upto.
  destruct (Z.leb_spec 0 n); [|lia]. rewrite length_take. lia.
Qed.

Lemma validated_personas_length parsed count ps :
  0 ≤ count → validated_personas E parsed count = Ok ps →
  Z.of_nat (length ps) ≤ count.
Proof.
  intros Hcount. unfold validated_personas.
  destruct parsed; try discriminate; try (intros [= <-]; simpl; lia).
  destruct (validate_items E items) as [l|e]; [|discriminate].
  destruct (Z.gtb_spec (Z.of_nat (length l)) count) as [Hgt|Hle].
  - intros [= <-]. by apply slice_upto_length.
  - intros [= <-]. exact Hle.
Qed.

Lemma generate_personas_eq clusters count w :
  clusters ≠ [] → 0 < count →
  generate_personas E clusters count w =
    match cluster_lines (persona_cluster_line E)
            (take (Z.to_nat (Z.min count (Z.of_nat (length clusters)))) clusters) w
    with
    | (w1, Raise e) => (w1, Raise e)
    | (w1, Ok []) => (w1, Ok [])
    | (w1, Ok lines) =>
        ((ask_llm E (persona_prompt E count (PyStr.join "\n" lines)) w1).1,
         persona_stage_result E
           (ask_llm E (persona_prompt E count (PyStr.join "\n" lines)) w1).2 count)
    end.
Proof.
  intros Hclusters Hcount. unfold generate_personas.
  destruct clusters as [|c cs]; [done|].
  destruct (Z.leb_spec count 0) as [Hle|_]; [lia|].
  set (num := Z.min count (Z.of_nat (length (c :: cs)))).
  assert (Hnum : (num =? 0) = false).
  { apply Z.eqb_neq. unfold num. simpl length. lia. }
  rewrite Hnum, andb_false_r. simpl negb at 1. cbv iota.
  unfold mbind, M_bind, bind at 1.
  destruct (cluster_lines _ _ w) as [w1 [lines|e]]; [|done].
  destruct lines as [|l ls]; [done|].
  unfold bind, observed.
  destruct (ask_llm E _ w1) as [w2 [raw|e]]; simpl.
  - unfold try_except, personas_of_reply.
    destruct (_ || _); [done|].
    destruct (json_loads E _) as [parsed|]; [|done].
    unfold lift_result.
    destruct (validated_personas E parsed count) as [ps|e]; [done|].
    unfold raise, persona_failure. by destruct (is_json_decode_error e).
  - unfold persona_failure. by destruct (is_json_decode_error e).
Qed.

Lemma personas_of_reply_length raw count :
  0 ≤ count → Z.of_nat (length (personas_of_reply E raw count)) ≤ count.
Proof.
  intros Hcount. unfold personas_of_reply.
  destruct (_ || _); [simpl; lia|].
  destruct (json_loads E _) as [parsed|]; [|simpl; lia].
  destruct (validated_personas E parsed count) as [ps|e] eqn:Hval; [|simpl; lia].
  by apply (validated_personas_length parsed count).
Qed.

Lemma generate_personas_length clusters count w w' ps :
  generate_personas E clusters count w = (w', Ok ps) →
  Z.of_nat (length ps) ≤ Z.max 0 count.
Proof.
  destruct clusters as [|c cs]; [intros [= <- <-]; simpl; lia|].
  destruct (Z.leb_spec count 0) as [Hle|Hgt].
  { unfold generate_personas. destruct (Z.leb_spec count 0); [|lia].
    intros [= <- <-]; simpl; lia. }
  rewrite generate_personas_eq by done.
  destruct (cluster_lines _ _ w) as [w1 [lines|e]]; [|discriminate].
  destruct lines as [|l ls]; [intros [= <- <-]; simpl; lia|].
  destruct (ask_llm E _ w1) as [w2 [raw|e]]; simpl.
  - intros [= <- <-]. pose proof (personas_of_reply_length raw count). lia.
  - destruct (is_json_decode_error e); [discriminate|].
    intros [= <- <-]. simpl. lia.
Qed.

End PersonaFacts.

(** C8. In the validation of the parsed array, an element that lacks one
    of the six required fields is passed over without an exception and
    without any effect on the outcome of the stage, which is the one the
    array without that element would have had (the same goes for an
    element that is not an object at all); and [generate_personas] never
    returns more personas than were requested. *)
Theorem incomplete_personas_dropped_and_count_capped E :
  (∀ before fields after count key,
     key ∈ required_keys → dict_get key fields = None →
     validate_item E (JObj fields) = Ok None
     ∧ validated_personas E (JArr (before ++ JObj fields :: after)) count =
         validated_personas E (JArr (before ++ after)) count)
  ∧ (∀ before item after count,
       (∀ fields, item ≠ JObj fields) →
       validated_personas E (JArr (before ++ item :: after)) count =
         validated_personas E (JArr (before ++ after)) count)
  ∧ (∀ items count ps,
       0 ≤ count → validated_personas E (JArr items) count = Ok ps →
       Z.of_nat (length ps) ≤ count)
  ∧ (∀ clusters count w w' ps,
       generate_personas E clusters count w = (w', Ok ps) →
       Z.of_nat (length ps) ≤ Z.max 0 count).
Proof.
  split; [|split; [|split]].
  - intros before fields after count key Hkey Hget.
    assert (Hitem : validate_item E (JObj fields) = Ok None).
    { simpl. by rewrite (missing_key_not_required key fields Hkey Hget). }
    split; [exact Hitem|].
    unfold validated_personas. by rewrite (validate_items_skip E before _ after Hitem).
  - intros before item after count Hitem.
    unfold validated_personas. rewrite (validate_items_skip E before item after); [done|].
    destruct item; try reflexivity. by destruct (Hitem fields).
  - intros items count ps. apply validated_personas_length.
  - apply generate_personas_length.
Qed.

(** C10. When the requested count is zero or negative, [generate_personas]
    returns the empty list whatever the clusters are, and the completion
    service is not called: the world is left as it was. *)
Theorem generate_personas_nonpositive_count E clusters count w :
  count ≤ 0 → generate_personas E clusters count w = (w, Ok []).
Proof.
  intros Hcount. unfold generate_personas.
  destruct clusters; [reflexivity|].
  destruct (Z.leb_spec count 0); [reflexivity|lia].
Qed.

(** ** The nodes of the graph *)

Section PipelineFacts.

Context (E : Env) (CFG : Config).

Lemma apply_no_update st : apply_update st no_update = st.
Proof. by destruct st. Qed.

Lemma try_except_total {A} (m : M A) (h : exn → A) w :
  ∃ w' a, try_except m (fun e => ret (h e)) w = (w', Ok a).
Proof.
  unfold try_except, ret. destruct (m w) as [w' [a|e]]; by eexists _, _.
Qed.

Lemma run_feature_ideation_total st w :
  ∃ w' u, run_feature_ideation E CFG st w = (w', Ok u).
Proof. apply try_except_total. Qed.

Lemma run_persona_generation_total st w :
  ∃ w' u, run_persona_generation E CFG st w = (w', Ok u).
Proof.
  unfold run_persona_generation.
  destruct (error_flag st); [by eexists _, _|apply try_except_total].
Qed.

Lemma run_board_simulation_total st w :
  ∃ w' u, run_board_simulation E CFG st w = (w', Ok u).
Proof.
  unfold run_board_simulation.
  destruct (error_flag st); [by eexists _, _|apply try_except_total].
Qed.

Lemma run_summary_generation_total st w :
  ∃ w' u, run_summary_generation E st w = (w', Ok u).
Proof.
  unfold run_summary_generation.
  destruct (error_flag st); [by eexists _, _|apply try_except_total].
Qed.

Lemma step_total node st w :
  (∃ w' u, node st w = (w', Ok u)) →
  ∃ w' st', step node st w = (w', Ok st').
Proof.
  intros (w' & u & Hnode). unfold step, mbind, M_bind, bind.
  rewrite Hnode. by eexists _, _.
Qed.

Lemma invoke_pipeline_total st w :
  ∃ w' final, invoke_pipeline E CFG st w = (w', Ok final).
Proof.
  unfold invoke_pipeline, mbind, M_bind, bind.
  destruct (step_total (run_feature_ideation E CFG) st w
              (run_feature_ideation_total st w)) as (w1 & s1 & ->).
  destruct (step_total (run_persona_generation E CFG) s1 w1
              (run_persona_generation_total s1 w1)) as (w2 & s2 & ->).
  destruct (step_total (run_board_simulation E CFG) s2 w2
              (run_board_simulation_total s2 w2)) as (w3 & s3 & ->).
  apply step_total, run_summary_generation_total.
Qed.

Lemma flagged_state_skips st w :
  error_flag st = true →
  step (run_persona_generation E CFG) st w = (w, Ok st)
  ∧ step (run_board_simulation E CFG) st w = (w, Ok st)
  ∧ step (run_summary_generation E) st w = (w, Ok st).
Proof.
  intros Hflag.
  unfold step, run_persona_generation, run_board_simulation,
    run_summary_generation, mbind, M_bind, bind.
  rewrite Hflag. unfold ret, mret, M_ret, ret. by rewrite apply_no_update.
Qed.

Lemma flagged_after_error st prefix c message :
  error_flag (apply_update st (error_update (String c prefix +:+ message))) = true.
Proof. reflexivity. Qed.

End PipelineFacts.

(** C5 (as amended). An exception that escapes a stage function is
    recorded by the node of the stage as a non-empty error message in the
    state. A node that finds the flag set returns the empty update without
    calling its stage, the state and the world staying as they are; so
    after an exception in the first stage the run ends in the initial
    state with the flag set. Whatever happened, [main] then calls the
    report writer with the artifacts of the final state, and exits with
    status 1 exactly when the flag is set. (A failure inside a stage that
    the stage itself catches, such as a failed completion call, does not
    raise and so sets no flag.) *)
Theorem raised_error_flags_and_skips E CFG :
  (∀ state w w' e,
     ideate_features E (selected_clusters state) (feature_count CFG) w = (w', Raise e) →
     run_feature_ideation E CFG state w =
       (w', Ok (error_update ("Feature Ideation Failed: " +:+ exn_str e))))
  ∧ (∀ state w w' e,
     error_flag state = false →
     generate_personas E (selected_clusters state) (persona_count CFG) w = (w', Raise e) →
     run_persona_generation E CFG state w =
       (w', Ok (error_update ("Persona Generation Failed: " +:+ exn_str e))))
  ∧ (∀ state w w' e,
     error_flag state = false →
     simulate_board E (personas state) (features state) (discussion_rounds CFG) w
       = (w', Raise e) →
     run_board_simulation E CFG state w =
       (w', Ok (error_update ("Board Simulation Failed: " +:+ exn_str e))))
  ∧ (∀ state stage message,
     error_flag
       (apply_update state (error_update (stage +:+ " Failed: " +:+ message))) = true)
  ∧ (∀ state w,
     error_flag state = true →
     run_persona_generation E CFG state w = (w, Ok no_update)
     ∧ run_board_simulation E CFG state w = (w, Ok no_update)
     ∧ run_summary_generation E state w = (w, Ok no_update)
     ∧ apply_update state no_update = state)
  ∧ (∀ selected w w' e,
     ideate_features E selected (feature_count CFG) w = (w', Raise e) →
     invoke_pipeline E CFG (initial_state selected) w =
       (w', Ok (mkState selected [] [] "" [] ""
                  (Some ("Feature Ideation Failed: " +:+ exn_str e)))))
  ∧ (∀ selected w,
     selected ≠ [] →
     ∃ w' final,
       invoke_pipeline E CFG (initial_state selected) w = (w', Ok final)
       ∧ main_after_selection E CFG selected w =
           (file_report
              (mkReport (selected_clusters final) (features final) (personas final)
                 (state_transcript final) (summary final)) w',
            Ok (if error_flag final then 1 else 0))).
Proof.
  split.
  { intros state w w' e Hraise.
    unfold run_feature_ideation. unfold_M.
    by rewrite Hraise. }
  split.
  { intros state w w' e Hflag Hraise.
    unfold run_persona_generation. unfold_M.
    by rewrite Hflag, Hraise. }
  split.
  { intros state w w' e Hflag Hraise.
    unfold run_board_simulation. unfold_M.
    by rewrite Hflag, Hraise. }
  split.
  { intros state stage message. unfold error_flag. simpl.
    destruct stage; reflexivity. }
  split.
  { intros state w Hflag.
    unfold run_persona_generation, run_board_simulation, run_summary_generation.
    rewrite Hflag. repeat split. apply apply_no_update. }
  split.
  { intros selected w w' e Hraise.
    unfold invoke_pipeline, mbind, M_bind, bind.
    assert (Hfirst : step (run_feature_ideation E CFG) (initial_state selected) w =
              (w', Ok (mkState selected [] [] "" [] ""
                         (Some ("Feature Ideation Failed: " +:+ exn_str e))))).
    { unfold step, run_feature_ideation. unfold_M.
      simpl. by rewrite Hraise. }
    rewrite Hfirst.
    destruct (flagged_state_skips E CFG
                (mkState selected [] [] "" [] ""
                   (Some ("Feature Ideation Failed: " +:+ exn_str e))) w')
      as (Hp & Hb & Hs); [reflexivity|].
    by rewrite Hp, Hb, Hs. }
  intros selected w Hsel.
  destruct (invoke_pipeline_total E CFG (initial_state selected) w)
    as (w' & final & Hrun).
  exists w', final. split; [exact Hrun|].
  destruct selected as [|c cs]; [done|].
  unfold main_after_selection, write_report. unfold_M.
  rewrite Hrun. by destruct (error_flag final).
Qed.

(** ** Failures that the stages catch *)

Section CaughtFailures.

Context (E : Env) (CFG : Config).











End CaughtFailures.


(** ** The properties at sample inputs *)

Lemma sample_shuffle_fair llm : fair_shuffle (Sample.env llm).
Proof. intros n l. simpl. apply reverse_Permutation. Qed.

(** C1. The code departs from the claim. The prompt is chosen by
    [if r == 1 / elif r == 2 / else], and the last branch, which the code
    marks as the one of the final round, is taken by every round from the
    third on: in a run of four rounds, round 3 lies strictly between the
    first and the last round and receives the pick-one-feature prompt,
    not the one of round 2 (the third facilitator entry of the history
    is that prompt); and in a run of two rounds the final round receives
    the prompt of round 2, not the one that asks for the pick. *)
Lemma middle_round_gets_final_prompt :
  (2 ≤ 3 ≤ 4 - 1
   ∧ fac_input Sample.proposals 3 = prioritise_prompt
   ∧ fac_input Sample.proposals 3 ≠ dig_deeper_prompt)
  ∧ (fac_input Sample.proposals 2 = dig_deeper_prompt
     ∧ fac_input Sample.proposals 2 ≠ prioritise_prompt)
  ∧ ∃ w' transcript_md history,
      simulate_board (Sample.env Sample.talkative) Sample.board Sample.proposals 4
        Sample.world = (w', Ok (transcript_md, history))
      ∧ filter is_human history !! 2%nat = Some (HumanMessage prioritise_prompt).
Proof.
  split; [|split].
  - split; [lia|]. split; [reflexivity|discriminate].
  - split; [reflexivity|discriminate].
  - eexists _, _, _. split; vm_compute; reflexivity.
Qed.

Lemma facilitator_prompt_by_round_index_witness :
  fair_shuffle (Sample.env Sample.talkative)
  ∧ Sample.board ≠ [] ∧ Sample.proposals ≠ []
  ∧ ∃ w' transcript_md history,
      simulate_board (Sample.env Sample.talkative) Sample.board Sample.proposals 4
        Sample.world = (w', Ok (transcript_md, history))
      ∧ filter is_human history =
          HumanMessage <$>
            [welcome_prompt Sample.proposals; dig_deeper_prompt;
             prioritise_prompt; prioritise_prompt].
Proof.
  split; [apply sample_shuffle_fair|].
  split; [discriminate|]. split; [discriminate|].
  apply (facilitator_prompt_by_round_index (Sample.env Sample.talkative)
           Sample.board Sample.proposals 4 Sample.world);
    [apply sample_shuffle_fair|discriminate|discriminate].
Defined.

Lemma history_one_block_per_round_witness :
  fair_shuffle (Sample.env Sample.talkative)
  ∧ Sample.board ≠ [] ∧ Sample.proposals ≠ [] ∧ 1 ≤ 3
  ∧ ∃ w' transcript_md history,
      simulate_board (Sample.env Sample.talkative) Sample.board Sample.proposals 3
        Sample.world = (w', Ok (transcript_md, history))
      ∧ length (filter is_human history) = 3%nat
      ∧ length (filter is_ai history) = 6%nat.
Proof.
  split; [apply sample_shuffle_fair|].
  split; [discriminate|]. split; [discriminate|]. split; [lia|].
  destruct (history_one_block_per_round (Sample.env Sample.talkative)
              Sample.board Sample.proposals 3 Sample.world)
    as (w' & t & h & log & Hrun & _ & _ & _ & _ & _ & Hhuman & Hai);
    [apply sample_shuffle_fair|discriminate|discriminate|lia|].
  exists w', t, h. split; [exact Hrun|]. split; [exact Hhuman|exact Hai].
Defined.

Lemma votes_tallied_in_final_round_witness :
  fair_shuffle (Sample.env Sample.talkative) ∧ 1 ≤ 2
  ∧ ∃ w' st final,
      run_discussion (Sample.env Sample.talkative) Sample.board Sample.proposals 2
        Sample.world = (w', Ok st)
      ∧ round_no final = 2
      ∧ priority_votes st =
          foldl (fun votes reply => tally_vote (Sample.env Sample.talkative) Sample.proposals reply votes) ∅
            (replies final).
Proof.
  split; [apply sample_shuffle_fair|]. split; [lia|].
  destruct (votes_tallied_in_final_round (Sample.env Sample.talkative)
              Sample.board Sample.proposals 2 Sample.world)
    as (w' & st & earlier & final & Hrun & _ & _ & Hno & _ & _ & Hvotes & _);
    [apply sample_shuffle_fair|lia|].
  exists w', st, final. split; [exact Hrun|]. split; [exact Hno|exact Hvotes].
Defined.

(** The replies of the sample model name both features; each of the two
    final replies votes for "Dark mode", the first of them in the list. *)
Example sample_votes :
  ∃ w' st,
    run_discussion (Sample.env Sample.talkative) Sample.board Sample.proposals 2
      Sample.world = (w', Ok st)
    ∧ map_to_list (priority_votes st) = [("Dark mode", 2)].
Proof. eexists _, _. split; vm_compute; reflexivity. Qed.

(** C5, as it was stated, fails: with the completion service down, feature
    ideation fails after three attempts and returns no feature, yet the
    flag stays unset; persona generation is not skipped and calls the
    service three more times; the run ends with the flag unset and [main]
    exits with status 0. *)
Lemma failed_stages_leave_flag_unset :
  let E := Sample.env Sample.unreachable in
  ∃ w1 w2 final,
    ideate_features E [Sample.cluster] 3 Sample.world = (w1, Ok [])
    ∧ length (llm_calls w1) = 3%nat
    ∧ invoke_pipeline E Sample.config (initial_state [Sample.cluster]) Sample.world
        = (w2, Ok final)
    ∧ error final = None
    ∧ length (llm_calls w2) = 6%nat
    ∧ features final = [] ∧ personas final = []
    ∧ summary final = empty_transcript_error
    ∧ (main_after_selection E Sample.config [Sample.cluster] Sample.world).2 = Ok 0.
Proof.
  intros E. eexists _, _, _.
  split; [vm_compute; reflexivity|].
  split; [vm_compute; reflexivity|].
  split; [vm_compute; reflexivity|].
  repeat split; vm_compute; reflexivity.
Qed.

Lemma raised_error_flags_and_skips_witness :
  let E := Sample.env Sample.talkative in
  let e := PyExc "TypeError" "can only join an iterable" in
  ideate_features E [Sample.odd_cluster] (feature_count Sample.config) Sample.world
    = (Sample.world, Raise e)
  ∧ invoke_pipeline E Sample.config (initial_state [Sample.odd_cluster]) Sample.world
      = (Sample.world,
         Ok (mkState [Sample.odd_cluster] [] [] "" [] ""
               (Some "Feature Ideation Failed: can only join an iterable"))).
Proof.
  intros E e.
  assert (Hraise : ideate_features E [Sample.odd_cluster]
                     (feature_count Sample.config) Sample.world
                   = (Sample.world, Raise e)) by reflexivity.
  split; [exact Hraise|].
  destruct (raised_error_flags_and_skips E Sample.config)
    as (_ & _ & _ & _ & _ & Hpipeline & _).
  exact (Hpipeline [Sample.odd_cluster] Sample.world Sample.world e Hraise).
Defined.

(** C6, as it was stated, fails in one word: the string returned after a
    failed call is not fixed, it ends with the message of the exception. *)
Lemma summary_error_text_varies :
  (summarise_meeting (Sample.env (Sample.failing "rate limit")) "notes" []
     Sample.world).2
    = Ok "Error: Failed to generate meeting summary due to: rate limit"
  ∧ (summarise_meeting (Sample.env (Sample.failing "timed out")) "notes" []
       Sample.world).2
    = Ok "Error: Failed to generate meeting summary due to: timed out"
  ∧ (summarise_meeting (Sample.env (Sample.failing "rate limit")) "notes" []
       Sample.world).2
    ≠ (summarise_meeting (Sample.env (Sample.failing "timed out")) "notes" []
         Sample.world).2.
Proof.
  split; [reflexivity|]. split; [reflexivity|]. discriminate.
Qed.

Lemma summarise_meeting_catches_failures_witness :
  let E := Sample.env (Sample.failing "rate limit") in
  (PyStr.strip "   " = ""
   ∧ summarise_meeting E "   " [] Sample.world
     = (Sample.world, Ok empty_transcript_error))
  ∧ (PyStr.strip "notes" ≠ ""
     ∧ ∃ w',
         ask_llm E (summary_prompt "notes") Sample.world
           = (w', Raise (PyExc "APIError" "rate limit"))
         ∧ length (llm_calls w') = 3%nat
         ∧ summarise_meeting E "notes" [] Sample.world
           = (w', Ok "Error: Failed to generate meeting summary due to: rate limit")).
Proof.
  intros E.
  destruct (summarise_meeting_catches_failures E "   " [] Sample.world)
    as (Hblank & _).
  destruct (summarise_meeting_catches_failures E "notes" [] Sample.world)
    as (_ & _ & Hfail & _).
  split.
  - split; [reflexivity|]. apply Hblank. reflexivity.
  - split; [discriminate|].
    eexists. split; [reflexivity|]. split; [reflexivity|].
    apply (Hfail ltac:(discriminate) _ (PyExc "APIError" "rate limit")).
    reflexivity.
Defined.

Lemma incomplete_personas_dropped_and_count_capped_witness :
  let E := Sample.env Sample.talkative in
  "quote" ∈ required_keys
  ∧ dict_get "quote" Sample.incomplete_fields = None
  ∧ validated_personas E
      (JArr ([Sample.complete_item] ++ JObj Sample.incomplete_fields
               :: [Sample.complete_item])) 5
    = validated_personas E (JArr ([Sample.complete_item] ++ [Sample.complete_item])) 5
  ∧ ∃ p, validated_personas E (JArr [Sample.complete_item; Sample.complete_item]) 1
         = Ok [p]
         ∧ Z.of_nat (length [p]) ≤ 1.
Proof.
  intros E.
  assert (Hkey : "quote" ∈ required_keys)
    by (rewrite list_elem_of_In; simpl; tauto).
  destruct (incomplete_personas_dropped_and_count_capped E) as (Hdrop & _ & Hcap & _).
  split; [exact Hkey|]. split; [reflexivity|].
  split.
  - apply (Hdrop [Sample.complete_item] Sample.incomplete_fields
             [Sample.complete_item] 5 "quote" Hkey eq_refl).
  - eexists. split; [reflexivity|].
    apply (Hcap [Sample.complete_item; Sample.complete_item] 1); [lia|reflexivity].
Defined.

Lemma generate_personas_nonpositive_count_witness :
  -2 ≤ 0
  ∧ generate_personas (Sample.env Sample.talkative) [Sample.cluster] (-2) Sample.world
    = (Sample.world, Ok []).
Proof.
  split; [lia|].
  apply (generate_personas_nonpositive_count (Sample.env Sample.talkative)
           [Sample.cluster] (-2) Sample.world).
  lia.
Defined.




(** * Further properties of the pipeline *)

(** ** The completion service *)

Lemma invoke_once_eq E prompt w :
  invoke_once E prompt w =
    (log_prompt prompt w, stripped (llm_reply E (llm_calls w) prompt)).
Proof.
  unfold invoke_once, llm_invoke. unfold_M.
  by destruct (llm_reply E (llm_calls w) prompt).
Qed.

(** X1. One request to the completion service costs between one and three
    calls, all with the same prompt: the calls stop at the first one that
    succeeds, whose stripped reply is the result; only when three calls in
    a row have failed does the request fail, with the exception of the
    third. Nothing else in the world changes. *)
Theorem ask_llm_attempts E prompt w :
  ∃ k,
    (1 ≤ k ≤ 3)%nat
    ∧ (ask_llm E prompt w).1 = after_attempts k prompt w
    ∧ (ask_llm E prompt w).2 = stripped (attempt E w prompt (k - 1))
    ∧ (∀ i, (i < k - 1)%nat → failed (attempt E w prompt i))
    ∧ (failed (ask_llm E prompt w).2 → k = 3%nat).
Proof.
  unfold ask_llm, invoke_llm_with_retry, try_except.
  rewrite invoke_once_eq.
  destruct (llm_reply E (llm_calls w) prompt) as [t1|e1] eqn:H1; simpl.
  { exists 1%nat. split; [lia|]. split; [reflexivity|].
    split; [unfold attempt; simpl; by rewrite H1|].
    split; [intros i Hi; lia|done]. }
  rewrite invoke_once_eq. simpl.
  destruct (llm_reply E (prompt :: llm_calls w) prompt) as [t2|e2] eqn:H2; simpl.
  { exists 2%nat. split; [lia|]. split; [reflexivity|].
    split; [unfold attempt; simpl; by rewrite H2|].
    split; [|done].
    intros i Hi. assert (i = 0)%nat as -> by lia.
    unfold attempt. simpl. by rewrite H1. }
  rewrite invoke_once_eq. simpl.
  exists 3%nat. split; [lia|]. split; [reflexivity|].
  split; [reflexivity|]. split; [|done].
  intros i Hi. unfold attempt.
  destruct i as [|[|i]]; simpl; [by rewrite H1|by rewrite H2|lia].
Qed.

(** ** Loading the clusters *)

Lemma keyed_by_index_keys items :
  (keyed_by_index items).*1 = pretty <$> seq 0 (length items).
Proof.
  apply list_eq. intros i. unfold keyed_by_index.
  rewrite !list_lookup_fmap, list_lookup_imap.
  destruct (items !! i) as [item|] eqn:Hi; simpl.
  - rewrite lookup_seq_lt; [done|]. by eapply lookup_lt_Some.
  - rewrite lookup_seq_ge; [done|]. by apply lookup_ge_None.
Qed.

Lemma keyed_by_index_values items : (keyed_by_index items).*2 = items.
Proof.
  apply list_eq. intros i. unfold keyed_by_index.
  rewrite list_lookup_fmap, list_lookup_imap.
  by destruct (items !! i).
Qed.

Lemma dict_get_lookup (fields : list (string * json)) i key value :
  NoDup fields.*1 → fields !! i = Some (key, value) →
  dict_get key fields = Some value.
Proof.
  revert i. induction fields as [|[k v] rest IH]; intros i Hnd Hi; [done|].
  rewrite fmap_cons in Hnd. apply NoDup_cons in Hnd as [Hk Hnd]. simpl.
  destruct i as [|i]; simpl in Hi.
  - injection Hi as -> ->. by rewrite String.eqb_refl.
  - destruct (String.eqb_spec k key) as [->|_]; [|by eapply IH].
    exfalso. apply Hk. apply list_elem_of_lookup. exists i.
    by rewrite list_lookup_fmap, Hi.
Qed.

(** X2. A cluster file that holds a non-empty JSON array of N items is
    loaded as a mapping whose keys are "0", ..., "N-1" in the order of the
    array and whose values are the items, unchanged; the keys are
    distinct, and looking up the decimal index of an item gives back that
    item. *)
Theorem load_array_keyed_by_index E path text items :
  json_loads E text = Some (JArr items) → items ≠ [] →
  ∃ clusters,
    load_cluster_data E path (FileText text) = Ok clusters
    ∧ clusters.*1 = pretty <$> seq 0 (length items)
    ∧ clusters.*2 = items
    ∧ NoDup clusters.*1
    ∧ ∀ i item, items !! i = Some item → dict_get (pretty i) clusters = Some item.
Proof.
  intros Hparse Hitems.
  assert (Hnd : NoDup (keyed_by_index items).*1).
  { rewrite keyed_by_index_keys. apply NoDup_fmap; [apply _|apply NoDup_seq]. }
  exists (keyed_by_index items).
  split.
  { unfold load_cluster_data. rewrite Hparse.
    destruct (keyed_by_index items) as [|c cs] eqn:Hk; [|done].
    destruct items; [done|discriminate]. }
  split; [apply keyed_by_index_keys|].
  split; [apply keyed_by_index_values|].
  split; [exact Hnd|].
  intros i item Hi. apply (dict_get_lookup _ i); [exact Hnd|].
  unfold keyed_by_index. by rewrite list_lookup_imap, Hi.
Qed.

(** ** Ranking the clusters *)

Section RankingFacts.

Context (py_lt : json -> json -> result bool).

Lemma insert_by_key_perm x sorted placed :
  insert_by_key py_lt x sorted = Ok placed → placed ≡ₚ x :: sorted.
Proof.
  revert placed. induction sorted as [|y rest IH]; intros placed; simpl.
  - by intros [= <-].
  - destruct (py_lt x.1 y.1) as [[]|]; [|by intros [= <-]|done].
    destruct (insert_by_key py_lt x rest) as [l|]; [|done].
    intros [= <-]. rewrite (IH l eq_refl). apply Permutation_swap.
Qed.

Lemma sort_by_key_perm keyed sorted :
  sort_by_key py_lt keyed = Ok sorted → sorted ≡ₚ keyed.
Proof.
  revert sorted. induction keyed as [|x rest IH]; intros sorted; simpl.
  - by intros [= <-].
  - destruct (sort_by_key py_lt rest) as [l|]; [|done].
    intros Hins. rewrite (insert_by_key_perm _ _ _ Hins). by rewrite (IH l).
Qed.

Lemma with_keys_values clusters keyed :
  with_keys clusters = Ok keyed → keyed.*2 = clusters.
Proof.
  revert keyed. induction clusters as [|kv rest IH]; intros keyed; simpl.
  - by intros [= <-].
  - destruct (negative_count kv.2); [|done].
    destruct (with_keys rest) as [l|]; [|done].
    intros [= <-]. rewrite fmap_cons. simpl. by rewrite (IH l).
Qed.

Lemma ranked_clusters_perm clusters ranked :
  ranked_clusters py_lt clusters = Ok ranked → ranked ≡ₚ clusters.
Proof.
  unfold ranked_clusters.
  destruct (with_keys clusters) as [keyed|] eqn:Hkeys; [|done].
  destruct (sort_by_key py_lt keyed) as [sorted|] eqn:Hsort; [|done].
  intros [= <-]. rewrite (sort_by_key_perm _ _ Hsort).
  by rewrite (with_keys_values _ _ Hkeys).
Qed.

Lemma with_keys_integer clusters :
  integer_counts clusters →
  ∃ keyed, with_keys clusters = Ok keyed ∧ Forall keyed_by_count keyed.
Proof.
  induction 1 as [|kv rest [n Hn] _ (keyed & Hkeyed & Hall)]; simpl.
  - by exists [].
  - rewrite Hn, Hkeyed. eexists. split; [done|].
    constructor; [|done]. unfold keyed_by_count, count_of. simpl. by rewrite Hn.
Qed.

Lemma insert_by_key_sorted x sorted :
  orders_integers py_lt →
  keyed_by_count x → Forall keyed_by_count sorted →
  StronglySorted keyed_decreasing sorted →
  ∃ placed,
    insert_by_key py_lt x sorted = Ok placed
    ∧ Forall keyed_by_count placed
    ∧ StronglySorted keyed_decreasing placed
    ∧ ∀ n, filter (fun y => count_of y.2 = n) placed
           = filter (fun y => count_of y.2 = n) (x :: sorted).
Proof.
  intros Hlt Hx Hall Hsorted.
  induction Hsorted as [|y rest Hrest IH Hy]; simpl.
  - exists [x]. split; [done|]. split; [by constructor|].
    split; [by repeat constructor|done].
  - apply Forall_cons in Hall as [Hyk Hall].
    pose proof Hx as Hx'. pose proof Hyk as Hyk'.
    red in Hx', Hyk'. rewrite Hx', Hyk', Hlt.
    destruct (Z.ltb_spec (count_of x.2) (count_of y.2)) as [Hless|Hge].
    + destruct (IH Hall) as (placed & Hins & Hplaced & Hsp & Hfilter).
      rewrite Hins. exists (y :: placed). split; [done|].
      split; [by constructor|].
      split.
      { constructor; [done|].
        rewrite (insert_by_key_perm _ _ _ Hins).
        constructor; [unfold keyed_decreasing; lia|done]. }
      intros n. rewrite (filter_cons _ y placed), Hfilter.
      rewrite (filter_cons _ x (y :: rest)), (filter_cons _ y rest),
        (filter_cons _ x rest).
      repeat case_decide; try done. lia.
    + exists (x :: y :: rest). split; [done|].
      split; [by repeat constructor|].
      split; [|done].
      constructor; [by constructor|].
      constructor; [unfold keyed_decreasing; lia|].
      eapply Forall_impl; [exact Hy|].
      intros z Hz. unfold keyed_decreasing in *. lia.
Qed.

Lemma sort_by_key_sorted keyed :
  orders_integers py_lt → Forall keyed_by_count keyed →
  ∃ sorted,
    sort_by_key py_lt keyed = Ok sorted
    ∧ Forall keyed_by_count sorted
    ∧ StronglySorted keyed_decreasing sorted
    ∧ ∀ n, filter (fun y => count_of y.2 = n) sorted
           = filter (fun y => count_of y.2 = n) keyed.
Proof.
  intros Hlt. induction 1 as [|x rest Hx _ (sorted & Hsort & Hall & Hss & Hf)]; simpl.
  - exists []. by repeat split; try constructor.
  - rewrite Hsort.
    destruct (insert_by_key_sorted x sorted Hlt Hx Hall Hss)
      as (placed & Hins & Hplaced & Hsp & Hfilter).
    exists placed. split; [done|]. split; [done|]. split; [done|].
    intros n. rewrite Hfilter, !filter_cons, Hf. reflexivity.
Qed.

Lemma filter_count_values n (keyed : list (json * (string * json))) :
  filter (fun kv => count_of kv = n) keyed.*2
  = (filter (fun y => count_of y.2 = n) keyed).*2.
Proof.
  induction keyed as [|y rest IH]; [done|].
  rewrite fmap_cons, !filter_cons, IH. by case_decide.
Qed.

Lemma sorted_values (keyed : list (json * (string * json))) :
  StronglySorted keyed_decreasing keyed →
  StronglySorted by_decreasing_count keyed.*2.
Proof.
  induction 1 as [|y rest _ IH Hy]; [constructor|].
  rewrite fmap_cons. constructor; [done|].
  apply Forall_fmap. eapply Forall_impl; [exact Hy|]. by intros z Hz.
Qed.

Lemma ranked_clusters_sorted clusters :
  orders_integers py_lt → integer_counts clusters →
  ∃ ranked,
    ranked_clusters py_lt clusters = Ok ranked
    ∧ ranked ≡ₚ clusters
    ∧ StronglySorted by_decreasing_count ranked
    ∧ ∀ n, filter (fun kv => count_of kv = n) ranked
           = filter (fun kv => count_of kv = n) clusters.
Proof.
  intros Hlt Hint.
  destruct (with_keys_integer clusters Hint) as (keyed & Hkeys & Hall).
  destruct (sort_by_key_sorted keyed Hlt Hall) as (sorted & Hsort & _ & Hss & Hf).
  assert (Hranked : ranked_clusters py_lt clusters = Ok sorted.*2)
    by (unfold ranked_clusters; by rewrite Hkeys, Hsort).
  exists sorted.*2. split; [exact Hranked|].
  split; [by apply ranked_clusters_perm|].
  split; [by apply sorted_values|].
  intros n. rewrite filter_count_values, Hf, <- filter_count_values.
  by rewrite (with_keys_values _ _ Hkeys).
Qed.

Lemma sorted_app_dominates {A} (R : A → A → Prop) (l1 l2 : list A) :
  StronglySorted R (l1 ++ l2) → ∀ a b, a ∈ l1 → b ∈ l2 → R a b.
Proof.
  induction l1 as [|x l1 IH]; intros Hs a b Ha Hb.
  - by apply elem_of_nil in Ha.
  - simpl in Hs. apply StronglySorted_inv in Hs as [Hs Hx].
    apply elem_of_cons in Ha as [->|Ha]; [|by eapply IH].
    rewrite Forall_forall in Hx. apply Hx. apply elem_of_app. by right.
Qed.

End RankingFacts.

(** X3. Whatever the clusters hold, a selection that [pick_top_clusters]
    returns has min(k, N) entries (none for k <= 0) and is made of
    clusters of the input, each taken at most once: together with the
    clusters left out it is a rearrangement of the input, and its keys are
    distinct when those of the input are. *)
Theorem pick_top_selects_from_clusters py_lt clusters k selected :
  pick_top_clusters py_lt clusters k = Ok selected →
  length selected = (Z.to_nat k `min` length clusters)%nat
  ∧ (∃ rest, selected ++ rest ≡ₚ clusters)
  ∧ (NoDup clusters.*1 → NoDup selected.*1).
Proof.
  unfold pick_top_clusters. intros Hpick.
  assert (Hsel : length selected = (Z.to_nat k `min` length clusters)%nat
                 ∧ ∃ rest, selected ++ rest ≡ₚ clusters).
  { destruct (Z.leb_spec k 0) as [Hk|Hk].
    - injection Hpick as <-. split; [simpl; lia|]. by exists clusters.
    - destruct (ranked_clusters py_lt clusters) as [ranked|] eqn:Hranked; [|done].
      injection Hpick as <-.
      pose proof (ranked_clusters_perm _ _ _ Hranked) as Hperm.
      split.
      + rewrite length_take, <- (Permutation_length Hperm). lia.
      + exists (drop (Z.to_nat (k `min` Z.of_nat (length ranked))) ranked).
        by rewrite take_drop. }
  destruct Hsel as [Hlen [rest Hrest]].
  split; [exact Hlen|]. split; [by exists rest|].
  intros Hnd. rewrite <- Hrest, fmap_app in Hnd.
  by apply NoDup_app in Hnd as [Hnd _].
Qed.

(** X4. When the negative counts are integers, [pick_top_clusters] with
    k > 0 returns the first k clusters of a ranking of the input that is
    by decreasing negative count and stable: clusters of equal count stay
    in the order of the input. So no selected cluster has a smaller count
    than a cluster left out. *)
Theorem pick_top_ranks_by_negative_count py_lt clusters k :
  orders_integers py_lt → integer_counts clusters → 0 < k →
  ∃ ranked,
    pick_top_clusters py_lt clusters k = Ok (take (Z.to_nat k) ranked)
    ∧ ranked ≡ₚ clusters
    ∧ StronglySorted (fun a b => count_of b ≤ count_of a) ranked
    ∧ (∀ n, filter (fun kv => count_of kv = n) ranked
            = filter (fun kv => count_of kv = n) clusters)
    ∧ (∀ a b, a ∈ take (Z.to_nat k) ranked → b ∈ drop (Z.to_nat k) ranked →
              count_of b ≤ count_of a).
Proof.
  intros Hlt Hint Hk.
  destruct (ranked_clusters_sorted py_lt clusters Hlt Hint)
    as (ranked & Hranked & Hperm & Hsorted & Hstable).
  exists ranked. split.
  { unfold pick_top_clusters. destruct (Z.leb_spec k 0); [lia|].
    rewrite Hranked. f_equal.
    destruct (Z.min_spec k (Z.of_nat (length ranked))) as [[_ ->]|[Hle ->]];
      [done|].
    rewrite Nat2Z.id, !take_ge; [done|lia..]. }
  split; [exact Hperm|]. split; [exact Hsorted|]. split; [exact Hstable|].
  intros a b Ha Hb.
  apply (sorted_app_dominates by_decreasing_count
           (take (Z.to_nat k) ranked) (drop (Z.to_nat k) ranked)); [|done..].
  by rewrite take_drop.
Qed.

(** ** What the stages do to the world *)

Lemma grown_refl w : grown w w 0 0.
Proof. split; [by exists []|]. split; [lia|done]. Qed.

Lemma grown_trans w w1 w2 a b c d :
  grown w w1 a b → grown w1 w2 c d → grown w w2 (a + c) (b + d).
Proof.
  intros ((p1 & Hl1 & Hc1) & Hs1 & Hr1) ((p2 & Hl2 & Hc2) & Hs2 & Hr2).
  split.
  - exists (p2 ++ p1). split; [rewrite length_app; lia|].
    by rewrite Hc2, Hc1, app_assoc.
  - split; [lia|congruence].
Qed.

Lemma grown_weaken w w' a b a' b' :
  a = a' → b = b' → grown w w' a b → grown w w' a' b'.
Proof. by intros -> ->. Qed.

Lemma grown_log_prompt prompt w : grown w (log_prompt prompt w) 1 0.
Proof. split; [by exists [prompt]|]. split; [simpl; lia|done]. Qed.

Lemma grown_count_shuffle w : grown w (count_shuffle w) 0 1.
Proof. split; [by exists []|]. split; [simpl; lia|done]. Qed.

Lemma grown_after_attempts k prompt w : grown w (after_attempts k prompt w) k 0.
Proof.
  split; [exists (replicate k prompt); by rewrite length_replicate|].
  split; [simpl; lia|done].
Qed.

Section WorldFacts.

Context (E : Env).

Lemma ask_llm_world prompt w :
  ∃ k, (1 ≤ k ≤ 3)%nat ∧ (ask_llm E prompt w).1 = after_attempts k prompt w.
Proof.
  unfold ask_llm, invoke_llm_with_retry, try_except.
  rewrite invoke_once_eq.
  destruct (llm_reply E (llm_calls w) prompt); simpl;
    [exists 1%nat; split; [lia|done]|].
  rewrite invoke_once_eq.
  destruct (llm_reply E _ prompt); simpl; [exists 2%nat; split; [lia|done]|].
  rewrite invoke_once_eq. exists 3%nat. split; [lia|done].
Qed.

Lemma ask_llm_grown prompt w :
  ∃ k, (k ≤ 3)%nat ∧ grown w (ask_llm E prompt w).1 k 0.
Proof.
  destruct (ask_llm_world prompt w) as (k & Hk & ->).
  exists k. split; [lia|apply grown_after_attempts].
Qed.

Lemma cluster_lines_world line clusters w : (cluster_lines line clusters w).1 = w.
Proof.
  induction clusters as [|[cid data] rest IH]; [done|].
  destruct data; simpl; try exact IH.
  destruct (line cid fields); [|done].
  unfold_M. by destruct (cluster_lines line rest w) as [w' [ls|e]].
Qed.

Lemma ideate_features_grown selected n w :
  ∃ k, (k ≤ 3)%nat ∧ grown w (ideate_features E selected n w).1 k 0.
Proof.
  unfold ideate_features.
  destruct selected as [|c cs]; [exists 0%nat; split; [lia|apply grown_refl]|].
  unfold mbind, M_bind, bind at 1.
  pose proof (cluster_lines_world (ideation_cluster_line E) (c :: cs) w) as Hw.
  destruct (cluster_lines _ _ w) as [w1 [lines|e]]; simpl in Hw; subst w1;
    [|exists 0%nat; split; [lia|apply grown_refl]].
  destruct lines as [|l ls]; [exists 0%nat; split; [lia|apply grown_refl]|].
  unfold_M.
  destruct (ask_llm_grown (ideation_prompt E n (PyStr.join PyStr.nl (l :: ls))) w)
    as (k & Hk & Hgrown).
  exists k. split; [exact Hk|].
  by destruct (ask_llm E _ w) as [w' [raw|e]].
Qed.

Lemma generate_personas_grown clusters count w :
  ∃ k, (k ≤ 3)%nat ∧ grown w (generate_personas E clusters count w).1 k 0.
Proof.
  destruct clusters as [|c cs]; [exists 0%nat; split; [lia|apply grown_refl]|].
  destruct (Z.leb_spec count 0) as [Hle|Hgt].
  { unfold generate_personas. destruct (Z.leb_spec count 0); [|lia].
    exists 0%nat; split; [lia|apply grown_refl]. }
  rewrite generate_personas_eq by done.
  match goal with |- context [cluster_lines ?line ?cl w] =>
    pose proof (cluster_lines_world line cl w) as Hw;
    destruct (cluster_lines line cl w) as [w1 [lines|e]] end;
    simpl in Hw; subst w1; [|exists 0%nat; split; [lia|apply grown_refl]].
  destruct lines as [|l ls]; [exists 0%nat; split; [lia|apply grown_refl]|].
  destruct (ask_llm_grown (persona_prompt E count (PyStr.join "\n" (l :: ls))) w)
    as (k & Hk & Hgrown).
  by exists k.
Qed.

Lemma summarise_meeting_grown transcript_md history w :
  ∃ k, (k ≤ 3)%nat ∧ grown w (summarise_meeting E transcript_md history w).1 k 0.
Proof.
  unfold summarise_meeting.
  destruct (PyStr.is_empty _); [exists 0%nat; split; [lia|apply grown_refl]|].
  unfold_M.
  destruct (ask_llm_grown (summary_prompt transcript_md) w) as (k & Hk & Hgrown).
  exists k. split; [exact Hk|].
  by destruct (ask_llm E _ w) as [w' [reply|e]].
Qed.

Lemma persona_turns_grown features rounds r fac order :
  ∀ st w,
    Forall (fun p => is_Some (chains st !! name p)) order →
    ∃ w' st',
      for_each (persona_turn E features rounds r fac) order st w = (w', Ok st')
      ∧ dom (chains st') = dom (chains st)
      ∧ grown w w' (length order) 0.
Proof.
  induction order as [|p order IH]; intros st w Hdom.
  - exists w, st. split; [done|]. split; [done|apply grown_refl].
  - apply Forall_cons in Hdom as [[chain Hc] Hrest].
    pose proof (persona_turn_eq E features rounds r fac st p chain w Hc) as Hturn.
    set (st1 := mkSim _ _ _ _) in Hturn.
    assert (Hdom1 : dom (chains st1) = dom (chains st)).
    { simpl. apply dom_insert_lookup_L. eauto. }
    destruct (IH st1 (after_call w chain fac)) as (w' & st' & Hrun & Hd & Hgrown).
    { eapply Forall_impl; [exact Hrest|]. intros q Hq. simpl in Hq.
      apply elem_of_dom. rewrite Hdom1. by apply elem_of_dom. }
    exists w', st'. split.
    { simpl. unfold mbind, M_bind, bind. rewrite Hturn. exact Hrun. }
    split; [by rewrite Hd|].
    eapply (grown_weaken _ _ (1 + length order) (0 + 0)); [done..|].
    eapply grown_trans; [|exact Hgrown]. apply grown_log_prompt.
Qed.

Lemma discussion_round_grown personas features rounds st r w :
  fair_shuffle E →
  (∀ p, p ∈ personas → name p ∈ dom (chains st)) →
  ∃ w' st',
    discussion_round E personas features rounds st r w = (w', Ok st')
    ∧ dom (chains st') = dom (chains st)
    ∧ grown w w' (length personas) 1.
Proof.
  intros Hfair Hdom.
  unfold discussion_round, shuffle, mbind, M_bind, bind.
  set (order := shuffled E (shuffles w) personas).
  set (st1 := mkSim _ _ _ _).
  destruct (persona_turns_grown features rounds r (fac_input features r) order st1
              (count_shuffle w)) as (w' & st' & Hrun & Hd & Hgrown).
  { apply Forall_forall. intros p Hp. apply elem_of_dom. simpl.
    apply Hdom. by rewrite <- (Hfair (shuffles w) personas). }
  exists w', st'. split; [exact Hrun|]. split; [by rewrite Hd|].
  eapply (grown_weaken _ _ (0 + length order) (1 + 0)).
  - unfold order. by rewrite (Hfair (shuffles w) personas).
  - done.
  - eapply grown_trans; [apply grown_count_shuffle|exact Hgrown].
Qed.

Lemma discussion_rounds_grown personas features rounds rs :
  fair_shuffle E →
  ∀ st w,
    (∀ p, p ∈ personas → name p ∈ dom (chains st)) →
    ∃ w' st',
      for_each (discussion_round E personas features rounds) rs st w = (w', Ok st')
      ∧ grown w w' (length rs * length personas) (length rs).
Proof.
  intros Hfair. induction rs as [|r rs IH]; intros st w Hdom.
  - exists w, st. split; [done|apply grown_refl].
  - destruct (discussion_round_grown personas features rounds st r w Hfair Hdom)
      as (w1 & st1 & Hrun1 & Hd & Hg1).
    destruct (IH st1 w1) as (w' & st' & Hrun & Hg).
    { intros p Hp. rewrite Hd. by apply Hdom. }
    exists w', st'. split.
    { simpl. unfold mbind, M_bind, bind. rewrite Hrun1. exact Hrun. }
    eapply grown_weaken; [| |eapply grown_trans; [exact Hg1|exact Hg]]; simpl; lia.
Qed.

Lemma simulate_board_grown personas features rounds w :
  fair_shuffle E → personas ≠ [] → features ≠ [] →
  grown w (simulate_board E personas features rounds w).1
    (Z.to_nat rounds * length personas) (Z.to_nat rounds).
Proof.
  intros Hfair Hp Hf.
  destruct (discussion_rounds_grown personas features rounds (seqZ 1 rounds) Hfair
              (mkSim (init_chains personas) [] [] ∅) w)
    as (w' & st' & Hrun & Hg).
  { intros p Hin. simpl. by apply init_chains_dom. }
  rewrite length_seqZ in Hg.
  destruct personas as [|p ps]; [done|]. destruct features as [|f fs]; [done|].
  unfold simulate_board, run_discussion, mbind, M_bind, bind. by rewrite Hrun.
Qed.

End WorldFacts.

(** X6. A discussion of R rounds among P personas costs exactly R * P
    calls of the chat model, one per turn and without retry, whether the
    calls succeed or fail, and R shuffles; it writes no report. *)
Theorem simulate_board_call_count E personas features rounds w :
  fair_shuffle E → personas ≠ [] → features ≠ [] →
  ∃ w' outcome prompts,
    simulate_board E personas features rounds w = (w', outcome)
    ∧ llm_calls w' = prompts ++ llm_calls w
    ∧ length prompts = (Z.to_nat rounds * length personas)%nat
    ∧ shuffles w' = (shuffles w + Z.to_nat rounds)%nat
    ∧ reports w' = reports w.
Proof.
  intros Hfair Hp Hf.
  destruct (simulate_board_grown E personas features rounds w Hfair Hp Hf)
    as ((prompts & Hlen & Hcalls) & Hshuffles & Hreports).
  destruct (simulate_board E personas features rounds w) as [w' outcome].
  by exists w', outcome, prompts.
Qed.

(** ** What a run of the pipeline costs *)

Section PipelineCost.

Context (E : Env) (CFG : Config).

Lemma feature_node_grown st w :
  ∃ w' st' k,
    step (run_feature_ideation E CFG) st w = (w', Ok st')
    ∧ (k ≤ 3)%nat ∧ grown w w' k 0
    ∧ personas st' = personas st.
Proof.
  destruct (ideate_features_grown E (selected_clusters st) (feature_count CFG) w)
    as (k & Hk & Hg).
  unfold step, run_feature_ideation. unfold_M.
  destruct (ideate_features E _ _ w) as [w' [fs|e]]; by eexists _, _, k.
Qed.

Lemma persona_node_grown st w :
  ∃ w' st' k,
    step (run_persona_generation E CFG) st w = (w', Ok st')
    ∧ (k ≤ 3)%nat ∧ grown w w' k 0
    ∧ (length (personas st')
       ≤ length (personas st) `max` Z.to_nat (persona_count CFG))%nat.
Proof.
  unfold step, run_persona_generation.
  destruct (error_flag st).
  { exists w, st, 0%nat. unfold_M. rewrite apply_no_update.
    split; [done|]. split; [lia|]. split; [apply grown_refl|lia]. }
  destruct (generate_personas_grown E (selected_clusters st) (persona_count CFG) w)
    as (k & Hk & Hg).
  unfold_M.
  destruct (generate_personas E _ _ w) as [w' [ps|e]] eqn:Hgen.
  - eexists _, _, k. split; [done|]. split; [done|]. split; [done|]. simpl.
    pose proof (generate_personas_length E _ _ _ _ _ Hgen). lia.
  - eexists _, _, k. split; [done|]. split; [done|]. split; [done|]. simpl. lia.
Qed.

Lemma board_node_grown st w :
  fair_shuffle E →
  ∃ w' st' k d,
    step (run_board_simulation E CFG) st w = (w', Ok st')
    ∧ (k ≤ Z.to_nat (discussion_rounds CFG) * length (personas st))%nat
    ∧ grown w w' k d.
Proof.
  intros Hfair. unfold step, run_board_simulation.
  destruct (error_flag st).
  { exists w, st, 0%nat, 0%nat. unfold_M. rewrite apply_no_update.
    split; [done|]. split; [lia|apply grown_refl]. }
  assert (Hg : ∃ k d,
            (k ≤ Z.to_nat (discussion_rounds CFG) * length (personas st))%nat
            ∧ grown w (simulate_board E (personas st) (features st)
                         (discussion_rounds CFG) w).1 k d).
  { destruct (personas st) as [|p ps] eqn:Hp;
      [exists 0%nat, 0%nat; split; [lia|apply grown_refl]|].
    destruct (features st) as [|f fs] eqn:Hf;
      [exists 0%nat, 0%nat; split; [lia|apply grown_refl]|].
    eexists _, _. split; [|by apply simulate_board_grown]. done. }
  destruct Hg as (k & d & Hk & Hg).
  unfold_M.
  destruct (simulate_board E _ _ _ w) as [w' [[t h]|e]]; by eexists _, _, k, d.
Qed.

Lemma summary_node_grown st w :
  ∃ w' st' k,
    step (run_summary_generation E) st w = (w', Ok st')
    ∧ (k ≤ 3)%nat ∧ grown w w' k 0.
Proof.
  unfold step, run_summary_generation.
  destruct (error_flag st).
  { exists w, st, 0%nat. unfold_M. rewrite apply_no_update.
    split; [done|]. split; [lia|apply grown_refl]. }
  destruct (summarise_meeting_grown E (state_transcript st) (conversation_history st) w)
    as (k & Hk & Hg).
  unfold mbind, M_bind, bind, try_except at 1.
  destruct (summarise_meeting E _ _ w) as [w' [s|e]]; by eexists _, _, k.
Qed.

Lemma invoke_pipeline_grown selected w :
  fair_shuffle E →
  ∃ w' final k d,
    invoke_pipeline E CFG (initial_state selected) w = (w', Ok final)
    ∧ (k ≤ 9 + Z.to_nat (discussion_rounds CFG) * Z.to_nat (persona_count CFG))%nat
    ∧ grown w w' k d.
Proof.
  intros Hfair. unfold invoke_pipeline. unfold mbind, M_bind, bind.
  destruct (feature_node_grown (initial_state selected) w)
    as (w1 & s1 & k1 & -> & Hk1 & Hg1 & Hp1).
  destruct (persona_node_grown s1 w1) as (w2 & s2 & k2 & -> & Hk2 & Hg2 & Hp2).
  destruct (board_node_grown s2 w2 Hfair) as (w3 & s3 & k3 & d3 & -> & Hk3 & Hg3).
  destruct (summary_node_grown s3 w3) as (w4 & s4 & k4 & -> & Hk4 & Hg4).
  exists w4, s4, (k1 + (k2 + (k3 + k4)))%nat, (0 + (0 + (d3 + 0)))%nat.
  split; [done|]. split.
  - rewrite Hp1 in Hp2. simpl in Hp2. nia.
  - eapply grown_trans; [exact Hg1|].
    eapply grown_trans; [exact Hg2|].
    eapply grown_trans; [exact Hg3|exact Hg4].
Qed.

End PipelineCost.

(** X7. A run of the pipeline always comes to an end, and calls the chat
    model at most 9 + R * C times, where R is the configured number of
    rounds and C the configured number of personas: at most three calls
    for each of ideation, persona generation and summary, and one call
    per turn of the discussion. It writes no report itself. *)
Theorem pipeline_call_bound E CFG selected w :
  fair_shuffle E →
  ∃ w' final prompts,
    invoke_pipeline E CFG (initial_state selected) w = (w', Ok final)
    ∧ llm_calls w' = prompts ++ llm_calls w
    ∧ (length prompts
       ≤ 9 + Z.to_nat (discussion_rounds CFG) * Z.to_nat (persona_count CFG))%nat
    ∧ reports w' = reports w.
Proof.
  intros Hfair.
  destruct (invoke_pipeline_grown E CFG selected w Hfair)
    as (w' & final & k & d & Hrun & Hk & (prompts & Hlen & Hcalls) & _ & Hreports).
  exists w', final, prompts. split; [exact Hrun|]. split; [exact Hcalls|].
  split; [lia|exact Hreports].
Qed.

(** ** The entry point *)

Lemma step_keeps_clusters node st w w' st' :
  step node st w = (w', Ok st') → selected_clusters st' = selected_clusters st.
Proof.
  unfold step. unfold_M. destruct (node st w) as [w1 [u|e]]; [|done].
  by intros [= _ <-].
Qed.

Lemma invoke_pipeline_keeps_clusters E CFG st w w' final :
  invoke_pipeline E CFG st w = (w', Ok final) →
  selected_clusters final = selected_clusters st.
Proof.
  unfold invoke_pipeline. unfold mbind, M_bind, bind.
  destruct (step (run_feature_ideation E CFG) st w) as [w1 [s1|e]] eqn:H1; [|done].
  destruct (step (run_persona_generation E CFG) s1 w1) as [w2 [s2|e]] eqn:H2; [|done].
  destruct (step (run_board_simulation E CFG) s2 w2) as [w3 [s3|e]] eqn:H3; [|done].
  intros H4.
  rewrite (step_keeps_clusters _ _ _ _ _ H4), (step_keeps_clusters _ _ _ _ _ H3),
    (step_keeps_clusters _ _ _ _ _ H2).
  by apply (step_keeps_clusters _ _ _ _ _ H1).
Qed.

Lemma main_after_selection_outcome E CFG selected w :
  selected ≠ [] →
  ∃ w' final,
    main_after_selection E CFG selected w =
      (file_report
         (mkReport (selected_clusters final) (features final) (personas final)
            (state_transcript final) (summary final)) w',
       Ok (if error_flag final then 1 else 0))
    ∧ invoke_pipeline E CFG (initial_state selected) w = (w', Ok final)
    ∧ selected_clusters final = selected.
Proof.
  intros Hsel.
  destruct (invoke_pipeline_total E CFG (initial_state selected) w)
    as (w' & final & Hrun).
  exists w', final.
  split; [|split; [exact Hrun|by apply (invoke_pipeline_keeps_clusters _ _ _ _ _ _ Hrun)]].
  destruct selected as [|c cs]; [done|].
  unfold main_after_selection, write_report. unfold_M.
  rewrite Hrun. by destruct (error_flag final).
Qed.





(** ** Feature ideation *)

Lemma slice_upto_lookup {A} (n : Z) (l : list A) i x :
  slice_upto n l !! i = Some x → l !! i = Some x.
Proof.
  unfold slice_upto. destruct (0 <=? n); rewrite lookup_take_Some; by intros [? _].
Qed.

Lemma proposals_of_reply_lookup raw n i f :
  proposals_of_reply raw n !! i = Some f →
  feature_id f = Z.of_nat i + 1
  ∧ description f ≠ ""
  ∧ is_markup_line (description f) = false
  ∧ ∃ line, line ∈ PyStr.split_on (Ascii.ascii_of_nat 10) raw
            ∧ description f = PyStr.strip line.
Proof.
  unfold proposals_of_reply.
  set (lines := List.filter _ (PyStr.strip <$> _)).
  set (texts := List.filter _ lines).
  intros Hf.
  assert (Hi : imap (fun i desc => mkFeature (Z.of_nat i + 1) desc)
                 (slice_upto n texts) !! i = Some f).
  { destruct (_ <? n); [done|].
    destruct (_ >? n); [by apply slice_upto_lookup in Hf|done]. }
  rewrite list_lookup_imap in Hi.
  destruct (slice_upto n texts !! i) as [desc|] eqn:Hdesc; [|done].
  injection Hi as <-. simpl. split; [done|].
  apply slice_upto_lookup in Hdesc.
  assert (Hin : In desc texts)
    by (apply list_elem_of_In, list_elem_of_lookup; eauto).
  apply filter_In in Hin as [Hin Hmarkup].
  apply filter_In in Hin as [Hin Hempty].
  apply negb_true_iff in Hmarkup, Hempty.
  split; [by intros ->|]. split; [exact Hmarkup|].
  apply list_elem_of_In, list_elem_of_fmap in Hin as (line & -> & Hline).
  by exists line.
Qed.

Lemma proposals_of_reply_length raw n :
  0 ≤ n → Z.of_nat (length (proposals_of_reply raw n)) ≤ n.
Proof.
  intros Hn. unfold proposals_of_reply.
  set (texts := List.filter _ (List.filter _ _)).
  destruct (Z.ltb_spec (Z.of_nat (length (imap (fun i desc => mkFeature (Z.of_nat i + 1) desc)
                                   (slice_upto n texts)))) n) as [Hlt|Hge]; [lia|].
  destruct (Z.gtb_spec (Z.of_nat (length (imap (fun i desc => mkFeature (Z.of_nat i + 1) desc)
                                   (slice_upto n texts)))) n) as [Hgt|Hle]; [|lia].
  by apply slice_upto_length.
Qed.

Lemma ideate_features_reply E selected n w w' fs :
  ideate_features E selected n w = (w', Ok fs) →
  fs = [] ∨ ∃ w1 prompt raw,
             ask_llm E prompt w1 = (w', Ok raw) ∧ fs = proposals_of_reply raw n.
Proof.
  unfold ideate_features.
  destruct selected as [|c cs]; [intros [= _ <-]; by left|].
  unfold mbind, M_bind, bind at 1.
  destruct (cluster_lines _ _ w) as [w1 [lines|e]]; [|done].
  destruct lines as [|l ls]; [intros [= _ <-]; by left|].
  unfold_M. destruct (ask_llm E _ w1) as [w2 [raw|e]] eqn:Hask; intros [= <- <-];
    [right; by eexists w1, _, raw|by left].
Qed.

(** X8. The proposals that [ideate_features] returns for n >= 0 are at
    most n, are numbered 1, 2, ... in order, and each description is a
    line of the reply of the completion request, with its surrounding
    white space removed, that is not empty, does not start with a bullet
    or heading mark and holds no pipe character. *)
Theorem ideate_features_proposals E selected n w w' fs :
  ideate_features E selected n w = (w', Ok fs) → 0 ≤ n →
  Z.of_nat (length fs) ≤ n
  ∧ ∀ i f, fs !! i = Some f →
      feature_id f = Z.of_nat i + 1
      ∧ description f ≠ ""
      ∧ PyStr.startswith (description f) "*" = false
      ∧ PyStr.startswith (description f) "-" = false
      ∧ PyStr.startswith (description f) "#" = false
      ∧ PyStr.contains "|" (description f) = false
      ∧ ∃ w1 prompt raw line,
          ask_llm E prompt w1 = (w', Ok raw)
          ∧ line ∈ PyStr.split_on (Ascii.ascii_of_nat 10) raw
          ∧ description f = PyStr.strip line.
Proof.
  intros Hrun Hn.
  destruct (ideate_features_reply E selected n w w' fs Hrun)
    as [->|(w1 & prompt & raw & Hask & ->)].
  { split; [simpl; lia|]. by intros i f Hf. }
  split; [by apply proposals_of_reply_length|].
  intros i f Hf.
  destruct (proposals_of_reply_lookup raw n i f Hf) as (Hid & Hne & Hmark & line & Hl & Hd).
  unfold is_markup_line in Hmark.
  repeat (apply orb_false_iff in Hmark as [Hmark ?]).
  repeat split; try done. by exists w1, prompt, raw, line.
Qed.

(** X9. The numbered list of features that the facilitator presents in
    round 1 is the list of the ideated features in their own rendering:
    the number shown before a feature is its identifier. *)
Theorem ideated_features_numbered_by_id E selected n w w' fs :
  ideate_features E selected n w = (w', Ok fs) →
  feature_list_md fs = PyStr.join PyStr.nl (feature_md <$> fs).
Proof.
  intros Hrun. unfold feature_list_md. f_equal.
  apply list_eq. intros i. rewrite list_lookup_imap, list_lookup_fmap.
  destruct (fs !! i) as [f|] eqn:Hf; [|done]. simpl. unfold feature_md.
  destruct (ideate_features_reply E selected n w w' fs Hrun)
    as [->|(w1 & prompt & raw & _ & ->)]; [done|].
  by destruct (proposals_of_reply_lookup raw n i f Hf) as (-> & _).
Qed.

(** ** Persona generation *)

Section MorePersonaFacts.

Context (E : Env).

Lemma validate_item_sentiment item p :
  validate_item E item = Ok (Some p) → valid_sentiment (sentiment p) = true.
Proof.
  unfold validate_item. destruct item; try done.
  destruct (negb (has_required_keys fields)); [done|].
  destruct (default (JStr "") (dict_get "sentiment" fields)); try done.
  destruct (valid_sentiment (py_lower E s)) eqn:Hvalid; [|done]. simpl.
  destruct (default (JArr []) (dict_get "pain_points" fields)); try done.
  destruct (all_strings items); [|done].
  by intros [= <-].
Qed.

Lemma validate_item_raises fields v :
  has_required_keys fields = true →
  dict_get "sentiment" fields = Some v → (∀ s, v ≠ JStr s) →
  ∃ e, validate_item E (JObj fields) = Raise e.
Proof.
  intros Hkeys Hget Hv. simpl. rewrite Hkeys, Hget. simpl.
  destruct v; try by eexists. by destruct (Hv s).
Qed.

Lemma validate_items_accepted items all :
  validate_items E items = Ok all →
  all = omap (accepted E) items
  ∧ Forall (fun item => ∃ o, validate_item E item = Ok o) items.
Proof.
  revert all. induction items as [|item rest IH]; intros all; simpl.
  - by intros [= <-].
  - unfold accepted at 1.
    destruct (validate_item E item) as [o|e] eqn:Hitem; [|done].
    destruct (validate_items E rest) as [ps|e]; [|done].
    destruct (IH ps eq_refl) as [-> Hrest].
    intros [= <-]. split; [by destruct o|]. constructor; [by eexists|done].
Qed.

Lemma generate_personas_from_array clusters count w w' ps :
  generate_personas E clusters count w = (w', Ok ps) → ps ≠ [] →
  0 < count
  ∧ ∃ lines raw items,
      cluster_lines (persona_cluster_line E)
        (take (Z.to_nat (Z.min count (Z.of_nat (length clusters)))) clusters) w
        = (w, Ok lines)
      ∧ ask_llm E (persona_prompt E count (PyStr.join "\n" lines)) w = (w', Ok raw)
      ∧ json_loads E (clean_response raw) = Some (JArr items)
      ∧ ps = take (Z.to_nat count) (omap (accepted E) items)
      ∧ Forall (fun item => ∃ o, validate_item E item = Ok o) items.
Proof.
  intros Hrun Hps.
  destruct clusters as [|c cs]; [by injection Hrun as _ <-|].
  destruct (Z.leb_spec count 0) as [Hle|Hgt].
  { unfold generate_personas in Hrun.
    destruct (Z.leb_spec count 0); [|lia]. by injection Hrun as _ <-. }
  split; [exact Hgt|].
  rewrite generate_personas_eq in Hrun by done.
  match type of Hrun with context [cluster_lines ?line ?cl w] =>
    pose proof (cluster_lines_world line cl w) as Hw;
    destruct (cluster_lines line cl w) as [w1 [lines|e]] eqn:Hlines end;
    simpl in Hw; subst w1; [|done].
  destruct lines as [|l ls]; [by injection Hrun as _ <-|].
  destruct (ask_llm E _ w) as [w2 [raw|e]] eqn:Hask; simpl in Hrun.
  2: { destruct (is_json_decode_error e); [done|]. by injection Hrun as _ <-. }
  injection Hrun as -> <-. unfold personas_of_reply in Hps |- *.
  destruct (_ || _); [done|].
  destruct (json_loads E (clean_response raw)) as [parsed|] eqn:Hparse; [|done].
  destruct (validated_personas E parsed count) as [l'|e] eqn:Hval; [|done].
  unfold validated_personas in Hval.
  destruct parsed; try (by injection Hval as <-); try done.
  destruct (validate_items E items) as [all|e] eqn:Hitems; [|done].
  destruct (validate_items_accepted items all Hitems) as [-> Hall].
  exists (l :: ls), raw, items.
  split; [reflexivity|]. split; [exact Hask|]. split; [done|].
  split; [|exact Hall].
  destruct (Z.gtb_spec (Z.of_nat (length (omap (accepted E) items))) count)
    as [Hmore|Hfew]; injection Hval as <-.
  - unfold slice_upto. destruct (Z.leb_spec 0 count); [done|lia].
  - rewrite take_ge; [done|lia].
Qed.

End MorePersonaFacts.

(** X10. When [generate_personas] returns personas at all, its completion
    request succeeded, and the personas are the first [count] accepted
    elements of the array that the cleaned reply of that request parses
    to, in the order of the array; no element of the array made the
    validation raise: in particular every object of the array that has
    the six required fields has a string as its sentiment. (One such
    object with a sentiment that is not a string makes the stage return
    no persona, the valid ones included.) Every persona returned has one
    of the three sentiments, in lower case. *)
Theorem personas_all_or_nothing E clusters count w w' ps :
  generate_personas E clusters count w = (w', Ok ps) → ps ≠ [] →
  ∃ lines raw items,
    cluster_lines (persona_cluster_line E)
      (take (Z.to_nat (Z.min count (Z.of_nat (length clusters)))) clusters) w
      = (w, Ok lines)
    ∧ ask_llm E (persona_prompt E count (PyStr.join "\n" lines)) w = (w', Ok raw)
    ∧ json_loads E (clean_response raw) = Some (JArr items)
    ∧ ps = take (Z.to_nat count) (omap (accepted E) items)
    ∧ (∀ fields v,
         JObj fields ∈ items → has_required_keys fields = true →
         dict_get "sentiment" fields = Some v → ∃ s, v = JStr s)
    ∧ Forall (fun p => sentiment p = "positive" ∨ sentiment p = "neutral"
                       ∨ sentiment p = "negative") ps.
Proof.
  intros Hrun Hps.
  destruct (generate_personas_from_array E clusters count w w' ps Hrun Hps)
    as (_ & lines & raw & items & Hlines & Hask & Hparse & -> & Hall).
  exists lines, raw, items. split; [exact Hlines|]. split; [exact Hask|].
  split; [exact Hparse|]. split; [reflexivity|].
  split.
  - intros fields v Hin Hkeys Hget.
    rewrite Forall_forall in Hall. destruct (Hall _ Hin) as [o Ho].
    destruct v; try (destruct (validate_item_raises E fields _ Hkeys Hget) as [e He];
      [done|congruence]).
    by exists s.
  - apply Forall_forall. intros p Hp.
    apply elem_of_take in Hp as (i & Hp & _).
    apply list_elem_of_lookup_2, list_elem_of_omap in Hp as (item & _ & Hacc).
    unfold accepted in Hacc.
    destruct (validate_item E item) as [[q|]|] eqn:Hitem; try done.
    injection Hacc as ->.
    pose proof (validate_item_sentiment E item p Hitem) as Hvalid.
    unfold valid_sentiment in Hvalid.
    repeat (apply orb_true_iff in Hvalid as [Hvalid|Hvalid]);
      apply String.eqb_eq in Hvalid; eauto.
Qed.

(** ** The tally *)

Lemma total_votes_insert key n (votes : gmap string Z) :
  total_votes (<[key := n]> votes) = total_votes votes - default 0 (votes !! key) + n.
Proof.
  unfold total_votes.
  destruct (votes !! key) as [old|] eqn:Hkey; simpl.
  - rewrite <- (insert_delete_eq votes key n).
    rewrite map_fold_insert_L; [|intros; lia|by rewrite lookup_delete_eq].
    rewrite (map_fold_delete_L _ 0 key old votes); [lia|intros; lia|done].
  - rewrite map_fold_insert_L; [lia|intros; lia|done].
Qed.

Lemma total_votes_increment key votes :
  total_votes (increment key votes) = total_votes votes + 1.
Proof. unfold increment. rewrite total_votes_insert. lia. Qed.

Lemma tally_vote_step E features reply votes :
  tally_of features votes →
  tally_of features (tally_vote E features reply votes)
  ∧ total_votes votes ≤ total_votes (tally_vote E features reply votes)
      ≤ total_votes votes + 1.
Proof.
  intros Hinv.
  assert (Hgen : ∀ fs, (∀ f, f ∈ fs → f ∈ features) →
            tally_of features (tally_vote E fs reply votes)
            ∧ total_votes votes ≤ total_votes (tally_vote E fs reply votes)
                ≤ total_votes votes + 1).
  { induction fs as [|f fs IH]; intros Hsub; simpl; [split; [done|lia]|].
    destruct (PyStr.contains _ _).
    - split.
      + intros key n. rewrite lookup_insert. case_decide as Hk.
        * intros [= <-]. subst key. split.
          -- destruct (votes !! description f) as [old|] eqn:Hold; simpl; [|lia].
             destruct (Hinv _ _ Hold). lia.
          -- exists f. split; [apply Hsub; by left|done].
        * apply Hinv.
      + fold (increment (description f) votes). rewrite total_votes_increment. lia.
    - apply IH. intros g Hg. apply Hsub. by right. }
  by apply Hgen.
Qed.

Lemma tally_votes_steps E features rs :
  ∀ votes,
    tally_of features votes →
    tally_of features (tally_votes E features rs votes)
    ∧ total_votes votes ≤ total_votes (tally_votes E features rs votes)
        ≤ total_votes votes + Z.of_nat (length rs).
Proof.
  unfold tally_votes.
  induction rs as [|reply rs IH]; intros votes Hinv; simpl; [split; [done|lia]|].
  destruct (tally_vote_step E features reply votes Hinv) as [Hinv1 Htotal1].
  destruct (IH _ Hinv1) as [Hinv2 Htotal2]. split; [done|lia].
Qed.

Lemma final_round_votes E personas features rounds w :
  fair_shuffle E →
  ∃ w' st rs,
    run_discussion E personas features rounds w = (w', Ok st)
    ∧ priority_votes st = tally_votes E features rs ∅
    ∧ (length rs ≤ length personas)%nat.
Proof.
  intros Hfair.
  destruct (run_discussion_log E personas features rounds w Hfair)
    as (w' & st & log & Hrun & Hrs & Hall & _ & _ & Hv & _).
  exists w', st.
  destruct (Z.le_gt_cases 1 rounds) as [Hr|Hr].
  - replace rounds with ((rounds - 1) + 1) in Hrs at 1 by lia.
    rewrite seqZ_app in Hrs by lia.
    apply fmap_app_inv in Hrs as (earlier & last & Hearlier & Hlast & ->).
    replace (seqZ (1 + (rounds - 1)) 1) with [rounds] in Hlast
      by (replace (1 + (rounds - 1)) with rounds by lia; reflexivity).
    destruct last as [|final [|]]; try done.
    injection Hlast as Hfinal.
    assert (Hlt : Forall (fun rl => round_no rl < rounds) earlier).
    { apply Forall_forall. intros rl Hrl.
      assert (Hin : round_no rl ∈ seqZ 1 (rounds - 1))
        by (rewrite Hearlier; by apply list_elem_of_fmap_2).
      apply elem_of_seqZ in Hin. lia. }
    apply Forall_app in Hall as [_ Hwf].
    apply Forall_singleton in Hwf as [_ Hlen].
    exists (replies final). split; [exact Hrun|]. split.
    + rewrite Hv, foldl_app, (earlier_rounds_no_votes E features rounds earlier ∅ Hlt).
      simpl. unfold round_votes. by rewrite <- Hfinal, Z.eqb_refl.
    + unfold replies. rewrite length_fmap. lia.
  - rewrite seqZ_nil in Hrs by lia. apply fmap_nil_inv in Hrs as ->.
    exists []. split; [exact Hrun|]. split; [exact Hv|simpl; lia].
Qed.

(** X11. At the end of the discussion the tally holds at most one vote per
    persona: its counts add up to at most P. Every entry of the tally is
    positive and its key is the description of one of the features. *)
Theorem tally_bounded_by_personas E personas features rounds w :
  fair_shuffle E →
  ∃ w' st,
    run_discussion E personas features rounds w = (w', Ok st)
    ∧ 0 ≤ total_votes (priority_votes st) ≤ Z.of_nat (length personas)
    ∧ ∀ key n, priority_votes st !! key = Some n →
        1 ≤ n ∧ ∃ f, f ∈ features ∧ description f = key.
Proof.
  intros Hfair.
  destruct (final_round_votes E personas features rounds w Hfair)
    as (w' & st & rs & Hrun & Hv & Hlen).
  exists w', st. split; [exact Hrun|].
  destruct (tally_votes_steps E features rs ∅) as [Hinv Htotal].
  { intros key n. by rewrite lookup_empty. }
  rewrite Hv. split; [|exact Hinv].
  assert (total_votes ∅ = 0) as Hzero by reflexivity. lia.
Qed.

(** ** The reply without its fence *)

Lemma append_nil_r s : s +:+ "" = s.
Proof.
  induction s as [|c s IH]; [done|].
  change (String c s +:+ "") with (String c (s +:+ "")). by rewrite IH.
Qed.

Lemma append_assoc a b c : (a +:+ b) +:+ c = a +:+ (b +:+ c).
Proof.
  induction a as [|x a IH]; [done|].
  change ((String x a +:+ b) +:+ c) with (String x ((a +:+ b) +:+ c)).
  by rewrite IH.
Qed.

Lemma rev_onto_append s : ∀ acc, PyStr.rev_onto s acc = PyStr.reverse s +:+ acc.
Proof.
  unfold PyStr.reverse. induction s as [|c s IH]; intros acc; [done|].
  simpl. rewrite IH, (IH (String c "")).
  by rewrite append_assoc.
Qed.

Lemma reverse_append a b :
  PyStr.reverse (a +:+ b) = PyStr.reverse b +:+ PyStr.reverse a.
Proof.
  induction a as [|c a IH].
  - change ("" +:+ b) with b. change (PyStr.reverse "") with "".
    by rewrite append_nil_r.
  - change (String c a +:+ b) with (String c (a +:+ b)).
    unfold PyStr.reverse at 1 3. simpl.
    rewrite !rev_onto_append, IH. by rewrite append_assoc.
Qed.

Lemma reverse_involutive s : PyStr.reverse (PyStr.reverse s) = s.
Proof.
  induction s as [|c s IH]; [done|].
  unfold PyStr.reverse at 2. simpl. rewrite rev_onto_append, reverse_append, IH.
  reflexivity.
Qed.

Lemma is_space2_ascii_last c2 c :
  (Ascii.nat_of_ascii c < 128)%nat → PyStr.is_space2 c2 c = false.
Proof.
  intros Hc. unfold PyStr.is_space2.
  destruct (Nat.eqb_spec (Ascii.nat_of_ascii c) 133); [lia|].
  destruct (Nat.eqb_spec (Ascii.nat_of_ascii c) 160); [lia|].
  by rewrite andb_false_r.
Qed.

Lemma is_space3_ascii_last c3 c2 c :
  (Ascii.nat_of_ascii c < 128)%nat → PyStr.is_space3 c3 c2 c = false.
Proof.
  intros Hc. unfold PyStr.is_space3.
  destruct (Nat.eqb_spec (Ascii.nat_of_ascii c) 128); [lia|].
  destruct (Nat.leb_spec 128 (Ascii.nat_of_ascii c)); [lia|].
  destruct (Nat.eqb_spec (Ascii.nat_of_ascii c) 168); [lia|].
  destruct (Nat.eqb_spec (Ascii.nat_of_ascii c) 169); [lia|].
  destruct (Nat.eqb_spec (Ascii.nat_of_ascii c) 175); [lia|].
  destruct (Nat.eqb_spec (Ascii.nat_of_ascii c) 159); [lia|].
  simpl. by rewrite !andb_false_r.
Qed.

(** A text that ends with an ASCII character that is no white space has
    nothing for [rstrip] to remove. *)
Lemma rstrip_ending s c :
  PyStr.is_space c = false → (Ascii.nat_of_ascii c < 128)%nat →
  PyStr.rstrip (s +:+ String c "") = s +:+ String c "".
Proof.
  intros Hc Hascii. unfold PyStr.rstrip. rewrite reverse_append.
  change (PyStr.reverse (String c "") +:+ PyStr.reverse s)
    with (String c (PyStr.reverse s)).
  assert (Hkept : PyStr.strip_leading (fun c1 c2 => PyStr.is_space2 c2 c1)
                    (fun c1 c2 c3 => PyStr.is_space3 c3 c2 c1)
                    (String c (PyStr.reverse s))
                  = String c (PyStr.reverse s)).
  { destruct (PyStr.reverse s) as [|c2 [|c3 rest]]; simpl; rewrite Hc;
      rewrite ?(is_space2_ascii_last c2 c Hascii),
              ?(is_space3_ascii_last c3 c2 c Hascii); reflexivity. }
  rewrite Hkept.
  change (String c (PyStr.reverse s))
    with (PyStr.reverse (String c "") +:+ PyStr.reverse s).
  by rewrite <- reverse_append, reverse_involutive.
Qed.

(** X12. A reply that consists of a [```json] fence around a body is
    cleaned to that body without its surrounding white space: this is the
    text handed to the JSON parser. *)
Theorem clean_response_fenced body :
  clean_response ("```json" +:+ body +:+ "```") = PyStr.strip body.
Proof.
  assert (Hstrip : PyStr.strip ("```json" +:+ body +:+ "```")
                   = "```json" +:+ body +:+ "```").
  { unfold PyStr.strip.
    change (PyStr.lstrip ("```json" +:+ body +:+ "```"))
      with ("```json" +:+ body +:+ "```").
    assert (Hsplit : "```json" +:+ body +:+ "```"
                     = ("```json" +:+ body +:+ "``") +:+ "`")
      by (by rewrite !append_assoc).
    rewrite Hsplit. apply rstrip_ending; [reflexivity|vm_compute; lia]. }
  assert (Hstart : PyStr.startswith ("```json" +:+ body +:+ "```") "```json" = true)
    by (apply prefix_iff_append; by exists (body +:+ "```")).
  unfold clean_response. rewrite Hstrip, Hstart.
  change (PyStr.drop_prefix 7 ("```json" +:+ body +:+ "```")) with (body +:+ "```").
  assert (Hrev : PyStr.reverse (body +:+ "```") = "```" +:+ PyStr.reverse body)
    by apply reverse_append.
  assert (Hend : String.prefix (PyStr.reverse "```") ("```" +:+ PyStr.reverse body)
                 = true)
    by (apply prefix_iff_append; by exists (PyStr.reverse body)).
  unfold PyStr.endswith, PyStr.drop_suffix. rewrite Hrev, Hend.
  change (PyStr.drop_prefix 3 ("```" +:+ PyStr.reverse body)) with (PyStr.reverse body).
  by rewrite reverse_involutive.
Qed.

(** ** The report *)

(** X13. A summary that [summarise_meeting] returns for an empty
    transcript or after a failed completion call is never written to the
    report as a summary: it starts with "Error:", and the section of the
    report shows the placeholder line with the text as its details. *)
Theorem failed_summary_shown_as_placeholder E transcript_md history w w' s :
  summarise_meeting E transcript_md history w = (w', Ok s) →
  PyStr.strip transcript_md = ""
  ∨ failed (ask_llm E (summary_prompt transcript_md) w).2 →
  PyStr.startswith s "Error:" = true
  ∧ summary_section s =
      ["## 📝 Meeting Summary" +:+ PyStr.nl +:+ PyStr.nl;
       "*Summary could not be generated. Details: " +:+ s +:+ "*" +:+ PyStr.nl].
Proof.
  unfold summarise_meeting, try_except. intros Hrun Hfailed.
  assert (Hprefix : PyStr.startswith s "Error:" = true).
  { destruct (PyStr.is_empty (PyStr.strip transcript_md)) eqn:Hempty.
    - by injection Hrun as _ <-.
    - destruct Hfailed as [Hblank|Hfailed].
      { apply is_empty_spec in Hblank. congruence. }
      destruct (ask_llm E (summary_prompt transcript_md) w) as [w1 [reply|e]];
        [done|].
      by injection Hrun as _ <-. }
  split; [exact Hprefix|].
  unfold summary_section. rewrite Hprefix. by rewrite andb_false_r.
Qed.

Section StepFacts.

Context (E : Env) (CFG : Config).

Lemma feature_step_frame st w w' st' :
  step (run_feature_ideation E CFG) st w = (w', Ok st') →
  personas st' = personas st
  ∧ state_transcript st' = state_transcript st
  ∧ summary st' = summary st.
Proof.
  unfold step, run_feature_ideation. unfold_M.
  destruct (ideate_features E _ _ w) as [w1 [fs|e]]; by intros [= _ <-].
Qed.

Lemma persona_step_frame st w w' st' :
  step (run_persona_generation E CFG) st w = (w', Ok st') →
  features st' = features st
  ∧ state_transcript st' = state_transcript st
  ∧ summary st' = summary st.
Proof.
  unfold step, run_persona_generation. unfold_M.
  destruct (error_flag st); [by intros [= _ <-]|].
  destruct (generate_personas E _ _ w) as [w1 [ps|e]]; by intros [= _ <-].
Qed.

Lemma board_step_frame st w w' st' :
  step (run_board_simulation E CFG) st w = (w', Ok st') →
  features st' = features st
  ∧ personas st' = personas st
  ∧ summary st' = summary st
  ∧ (features st = [] ∨ personas st = [] →
     state_transcript st' = state_transcript st ∨ state_transcript st' = "").
Proof.
  unfold step, run_board_simulation. unfold_M.
  destruct (error_flag st); [intros [= _ <-]; repeat split; by left|].
  destruct (simulate_board E _ _ _ w) as [w1 [[t h]|e]] eqn:Hboard;
    intros [= _ <-]; repeat split; try by left.
  simpl. intros Hempty. right.
  assert (Hnone : simulate_board E (personas st) (features st)
                    (discussion_rounds CFG) w = (w, Ok ("", []))).
  { destruct Hempty as [-> | ->]; [by destruct (personas st)|done]. }
  rewrite Hnone in Hboard. by injection Hboard as _ <- _.
Qed.

Lemma summary_step_frame st w w' st' :
  step (run_summary_generation E) st w = (w', Ok st') →
  features st' = features st
  ∧ personas st' = personas st
  ∧ state_transcript st' = state_transcript st
  ∧ (PyStr.strip (state_transcript st) = "" →
     summary st' = summary st ∨ summary st' = empty_transcript_error).
Proof.
  unfold step, run_summary_generation.
  destruct (error_flag st); [unfold_M; intros [= _ <-]; repeat split; by left|].
  unfold mbind, M_bind, bind, try_except at 1.
  destruct (summarise_meeting E _ _ w) as [w1 [s|e]] eqn:Hsum;
    intros [= _ <-]; repeat split; try by left.
  simpl. intros Hblank. right.
  unfold summarise_meeting in Hsum.
  apply is_empty_spec in Hblank. rewrite Hblank in Hsum. by injection Hsum as _ <-.
Qed.

End StepFacts.

Lemma pipeline_without_discussion E CFG selected w w' final :
  invoke_pipeline E CFG (initial_state selected) w = (w', Ok final) →
  features final = [] ∨ personas final = [] →
  state_transcript final = ""
  ∧ (summary final = "" ∨ summary final = empty_transcript_error).
Proof.
  unfold invoke_pipeline. unfold mbind, M_bind, bind. intros Hrun Hempty.
  destruct (step (run_feature_ideation E CFG) (initial_state selected) w)
    as [w1 [s1|e]] eqn:H1; [|done].
  destruct (step (run_persona_generation E CFG) s1 w1) as [w2 [s2|e]] eqn:H2; [|done].
  destruct (step (run_board_simulation E CFG) s2 w2) as [w3 [s3|e]] eqn:H3; [|done].
  destruct (feature_step_frame E CFG _ _ _ _ H1) as (_ & Ht1 & Hs1).
  destruct (persona_step_frame E CFG _ _ _ _ H2) as (_ & Ht2 & Hs2).
  destruct (board_step_frame E CFG _ _ _ _ H3) as (Hf3 & Hp3 & Hs3 & Ht3).
  destruct (summary_step_frame E _ _ _ _ Hrun) as (Hf4 & Hp4 & Ht4 & Hs4).
  simpl in Ht1, Hs1.
  assert (Htranscript : state_transcript final = "").
  { rewrite Ht4. destruct Ht3 as [Hsame| ->]; [|congruence|done].
    rewrite <- Hf3, <- Hp3, <- Hf4, <- Hp4. exact Hempty. }
  split; [exact Htranscript|].
  destruct Hs4 as [Hsame|Herr]; [by rewrite <- Ht4, Htranscript| |by right].
  left. congruence.
Qed.

(** X14. [main], on a non-empty selection, runs the pipeline and hands
    its final state to [write_report]. When that state holds no features
    or no personas, no discussion took place: its transcript is empty and
    its summary is either still empty or "Error: Transcript was empty.";
    and when the loop of [write_report] over the clusters ends without an
    exception, what the call writes is the header, the clusters, the
    features and the personas, then the place-holder of the transcript
    and the place-holder of the summary, then the footer. *)
Theorem report_without_discussion E CFG selected w :
  selected ≠ [] →
  ∃ w1 final,
    invoke_pipeline E CFG (initial_state selected) w = (w1, Ok final)
    ∧ (main_after_selection E CFG selected w).1 = file_report (report_of final) w1
    ∧ report_clusters (report_of final) = selected
    ∧ (features final = [] ∨ personas final = [] →
       state_transcript final = ""
       ∧ (summary final = "" ∨ summary final = empty_transcript_error)
       ∧ ∀ written,
           report_cluster_section E selected = (written, None) →
           report_writes E CFG (report_of final) =
             report_header E CFG (report_of final) ++ written
             ++ features_section (features final)
             ++ personas_section E (personas final)
             ++ transcript_placeholder
             ++ summary_placeholder (summary final)
             ++ report_footer).
Proof.
  intros Hsel.
  destruct (main_after_selection_outcome E CFG selected w Hsel)
    as (w1 & final & Hmain & Hrun & Hclusters).
  exists w1, final. split; [exact Hrun|]. split; [by rewrite Hmain|].
  split; [exact Hclusters|]. intros Hempty.
  destruct (pipeline_without_discussion E CFG selected w w1 final Hrun Hempty)
    as [Htranscript Hsummary].
  split; [exact Htranscript|]. split; [exact Hsummary|].
  intros written Hwritten.
  unfold report_writes, report_body.
  change (report_clusters (report_of final)) with (selected_clusters final).
  rewrite Hclusters, Hwritten.
  change (report_features (report_of final)) with (features final).
  change (report_personas (report_of final)) with (personas final).
  change (report_transcript (report_of final)) with (state_transcript final).
  change (report_summary (report_of final)) with (summary final).
  rewrite Htranscript.
  change (transcript_section "") with transcript_placeholder.
  by destruct Hsummary as [-> | ->].
Qed.

(** ** A failed turn *)

(** X15. A turn whose call of the chat model fails is kept apart, in
    every round: one prompt was sent, the placeholder reply is recorded
    in the transcript and in the global history, the chains and their
    memories are exactly as before, and no exception leaves the turn. The
    tally is as before in a round other than the last; in the last round
    the placeholder is tallied as any reply is. *)
Theorem failed_turn_is_isolated E features rounds r fac st p chain w e :
  chains st !! name p = Some chain →
  llm_reply E (llm_calls w) (format_prompt chain (load_history chain) fac) = Raise e →
  persona_turn E features rounds r fac st p w =
    (log_prompt (format_prompt chain (load_history chain) fac) w,
     Ok {| chains := chains st;
           transcript := transcript st ++ [persona_header p; error_reply];
           global_history := global_history st ++ [AIMessage error_reply];
           priority_votes :=
             if r =? rounds
             then tally_vote E features error_reply (priority_votes st)
             else priority_votes st |}).
Proof.
  intros Hchain Hfail.
  rewrite (persona_turn_eq E features rounds r fac st p chain w Hchain).
  unfold turn_output, after_call. rewrite Hfail. simpl.
  by rewrite (insert_id _ _ _ Hchain).
Qed.

(** ** The further properties at sample inputs *)


Lemma load_array_keyed_by_index_witness :
  ∃ clusters,
    load_cluster_data (Inputs.env Sample.talkative) "clusters.json"
      (FileText "two clusters") = Ok clusters
    ∧ clusters.*1 = ["0"; "1"]
    ∧ clusters.*2 = [(Inputs.cluster_with "x" 2).2; (Inputs.cluster_with "y" 5).2].
Proof.
  destruct (load_array_keyed_by_index (Inputs.env Sample.talkative) "clusters.json"
              "two clusters"
              [(Inputs.cluster_with "x" 2).2; (Inputs.cluster_with "y" 5).2])
    as (clusters & Hload & Hkeys & Hvalues & _); [reflexivity|discriminate|].
  exists clusters. split; [exact Hload|]. split; [exact Hkeys|exact Hvalues].
Defined.

Lemma pick_top_selects_from_clusters_witness :
  pick_top_clusters Inputs.int_lt Inputs.clusters 2
    = Ok [Inputs.cluster_with "b" 7; Inputs.cluster_with "c" 7]
  ∧ length [Inputs.cluster_with "b" 7; Inputs.cluster_with "c" 7]
    = (Z.to_nat 2 `min` length Inputs.clusters)%nat.
Proof.
  assert (Hpick : pick_top_clusters Inputs.int_lt Inputs.clusters 2
                  = Ok [Inputs.cluster_with "b" 7; Inputs.cluster_with "c" 7])
    by reflexivity.
  split; [exact Hpick|].
  exact (proj1 (pick_top_selects_from_clusters Inputs.int_lt Inputs.clusters 2 _ Hpick)).
Defined.

Lemma inputs_integer_counts : integer_counts Inputs.clusters.
Proof. repeat constructor; by eexists. Qed.

Lemma int_lt_orders_integers : orders_integers Inputs.int_lt.
Proof. by intros a b. Qed.

Lemma pick_top_ranks_by_negative_count_witness :
  ∃ ranked,
    pick_top_clusters Inputs.int_lt Inputs.clusters 3 = Ok (take (Z.to_nat 3) ranked)
    ∧ ranked ≡ₚ Inputs.clusters
    ∧ StronglySorted (fun a b => count_of b ≤ count_of a) ranked.
Proof.
  destruct (pick_top_ranks_by_negative_count Inputs.int_lt Inputs.clusters 3)
    as (ranked & Hpick & Hperm & Hsorted & _);
    [apply int_lt_orders_integers|apply inputs_integer_counts|lia|].
  exists ranked. split; [exact Hpick|]. split; [exact Hperm|exact Hsorted].
Defined.

(** The two clusters of seven negative reviews come first, in the order
    of the input. *)
Example sample_ranking :
  pick_top_clusters Inputs.int_lt Inputs.clusters 3
  = Ok [Inputs.cluster_with "b" 7; Inputs.cluster_with "c" 7;
        Inputs.cluster_with "a" 3].
Proof. reflexivity. Qed.

Lemma simulate_board_call_count_witness :
  ∃ w' outcome prompts,
    simulate_board (Sample.env Inputs.fails_second) Sample.board Sample.proposals 3
      Sample.world = (w', outcome)
    ∧ llm_calls w' = prompts ++ llm_calls Sample.world
    ∧ length prompts = (Z.to_nat 3 * length Sample.board)%nat.
Proof.
  destruct (simulate_board_call_count (Sample.env Inputs.fails_second)
              Sample.board Sample.proposals 3 Sample.world)
    as (w' & outcome & prompts & Hrun & Hcalls & Hlen & _);
    [apply sample_shuffle_fair|discriminate|discriminate|].
  exists w', outcome, prompts. split; [exact Hrun|]. split; [exact Hcalls|exact Hlen].
Defined.

Lemma pipeline_call_bound_witness :
  ∃ w' final prompts,
    invoke_pipeline (Sample.env Sample.talkative) Sample.config
      (initial_state [Sample.cluster]) Sample.world = (w', Ok final)
    ∧ llm_calls w' = prompts ++ llm_calls Sample.world
    ∧ (length prompts ≤ 9 + Z.to_nat 3 * Z.to_nat 5)%nat.
Proof.
  destruct (pipeline_call_bound (Sample.env Sample.talkative) Sample.config
              [Sample.cluster] Sample.world)
    as (w' & final & prompts & Hrun & Hcalls & Hlen & _);
    [apply sample_shuffle_fair|].
  exists w', final, prompts. split; [exact Hrun|]. split; [exact Hcalls|exact Hlen].
Defined.


(** The statuses of the runs that stop before the pipeline *)
Example sample_exit_statuses :
  (main Inputs.int_lt (Inputs.env Sample.talkative) Sample.config "clusters.json"
     FileMissing Sample.world).2 = Ok 2
  ∧ (main Inputs.int_lt (Inputs.env Sample.talkative) Sample.config "clusters.json"
       (FileText "not json") Sample.world).2 = Ok 3
  ∧ (main Inputs.int_lt (Inputs.env Sample.talkative) Sample.config "clusters.json"
       (FileText "[]") Sample.world).2 = Ok 3
  ∧ (main Inputs.int_lt (Inputs.env Sample.talkative) (mkConfig 0 3 3) "clusters.json"
       (FileText "two clusters") Sample.world) = (Sample.world, Ok 1).
Proof. repeat split; reflexivity. Qed.

Lemma ideate_features_proposals_witness :
  ∃ w' fs,
    ideate_features (Sample.env Sample.talkative) [Sample.cluster] 3 Sample.world
      = (w', Ok fs)
    ∧ 0 ≤ 3
    ∧ Z.of_nat (length fs) ≤ 3.
Proof.
  destruct (ideate_features (Sample.env Sample.talkative) [Sample.cluster] 3
              Sample.world) as [w' [fs|e]] eqn:Hrun; [|vm_compute in Hrun; discriminate].
  exists w', fs. split; [reflexivity|]. split; [lia|].
  exact (proj1 (ideate_features_proposals _ _ _ _ _ _ Hrun ltac:(lia))).
Defined.

Lemma ideated_features_numbered_by_id_witness :
  ∃ w' fs,
    ideate_features (Sample.env Sample.talkative) [Sample.cluster] 3 Sample.world
      = (w', Ok fs)
    ∧ feature_list_md fs = PyStr.join PyStr.nl (feature_md <$> fs).
Proof.
  destruct (ideate_features (Sample.env Sample.talkative) [Sample.cluster] 3
              Sample.world) as [w' [fs|e]] eqn:Hrun; [|vm_compute in Hrun; discriminate].
  exists w', fs. split; [reflexivity|].
  exact (ideated_features_numbered_by_id _ _ _ _ _ _ Hrun).
Defined.

Lemma personas_all_or_nothing_witness :
  ∃ w' p q,
    generate_personas Inputs.persona_env [Sample.cluster] 5 Sample.world
      = (w', Ok [p; q])
    ∧ [p; q] ≠ []
    ∧ ∃ raw items,
        ask_llm Inputs.persona_env "- Cluster 0" Sample.world = (w', Ok raw)
        ∧ json_loads Inputs.persona_env (clean_response raw) = Some (JArr items)
        ∧ [p; q] = take (Z.to_nat 5) (omap (accepted Inputs.persona_env) items).
Proof.
  eexists _, _, _.
  assert (Hrun : generate_personas Inputs.persona_env [Sample.cluster] 5 Sample.world
                 = (log_prompt "- Cluster 0" Sample.world,
                    Ok (omap (accepted Inputs.persona_env)
                          [Sample.complete_item; Sample.complete_item])))
    by reflexivity.
  split; [exact Hrun|]. split; [discriminate|].
  destruct (personas_all_or_nothing _ _ _ _ _ _ Hrun ltac:(discriminate))
    as (lines & raw & items & Hlines & Hask & Hparse & Hps & _).
  injection Hlines as <-.
  by exists raw, items.
Defined.

Lemma tally_bounded_by_personas_witness :
  ∃ w' st,
    run_discussion (Sample.env Sample.talkative) Sample.board Sample.proposals 2
      Sample.world = (w', Ok st)
    ∧ 0 ≤ total_votes (priority_votes st) ≤ Z.of_nat (length Sample.board).
Proof.
  destruct (tally_bounded_by_personas (Sample.env Sample.talkative) Sample.board
              Sample.proposals 2 Sample.world)
    as (w' & st & Hrun & Htotal & _); [apply sample_shuffle_fair|].
  exists w', st. split; [exact Hrun|exact Htotal].
Defined.

Lemma failed_summary_shown_as_placeholder_witness :
  ∃ w' s,
    summarise_meeting (Sample.env (Sample.failing "rate limit")) "notes" []
      Sample.world = (w', Ok s)
    ∧ failed (ask_llm (Sample.env (Sample.failing "rate limit"))
                (summary_prompt "notes") Sample.world).2
    ∧ PyStr.startswith s "Error:" = true.
Proof.
  eexists _, _.
  assert (Hrun : summarise_meeting (Sample.env (Sample.failing "rate limit")) "notes" []
                   Sample.world
                 = (after_attempts 3 (summary_prompt "notes") Sample.world,
                    Ok "Error: Failed to generate meeting summary due to: rate limit"))
    by reflexivity.
  assert (Hfailed : failed (ask_llm (Sample.env (Sample.failing "rate limit"))
                              (summary_prompt "notes") Sample.world).2)
    by exact I.
  split; [exact Hrun|]. split; [exact Hfailed|].
  exact (proj1 (failed_summary_shown_as_placeholder _ _ _ _ _ _ Hrun (or_intror Hfailed))).
Defined.

Lemma report_without_discussion_witness :
  ∃ w1 final,
    invoke_pipeline (Sample.env Sample.unreachable) Sample.config
      (initial_state [Sample.cluster]) Sample.world = (w1, Ok final)
    ∧ features final = []
    ∧ report_writes (Sample.env Sample.unreachable) Sample.config (report_of final) =
        report_header (Sample.env Sample.unreachable) Sample.config (report_of final)
        ++ ["### Cluster 0" +:+ PyStr.nl +:+ PyStr.nl]
        ++ features_section [] ++ personas_section (Sample.env Sample.unreachable) []
        ++ transcript_placeholder
        ++ summary_placeholder empty_transcript_error
        ++ report_footer.
Proof.
  destruct (report_without_discussion (Sample.env Sample.unreachable) Sample.config
              [Sample.cluster] Sample.world ltac:(discriminate))
    as (w1 & final & Hrun & _ & _ & Hempty).
  assert (Hfinal : final = mkState [Sample.cluster] [] [] "" []
                             empty_transcript_error None)
    by (vm_compute in Hrun; by injection Hrun as _ <-).
  exists w1, final. split; [exact Hrun|].
  split; [by rewrite Hfinal|].
  destruct (Hempty ltac:(left; by rewrite Hfinal)) as (_ & _ & Hwrites).
  rewrite (Hwrites ["### Cluster 0" +:+ PyStr.nl +:+ PyStr.nl] eq_refl).
  by rewrite Hfinal.
Defined.



Lemma failed_turn_is_isolated_witness :
  ∃ chain w' st',
    chains (mkSim (init_chains Sample.board) [] [] ∅) !! name Sample.alex = Some chain
    ∧ persona_turn (Sample.env Sample.unreachable) Sample.proposals 1 1 "Welcome"
        (mkSim (init_chains Sample.board) [] [] ∅) Sample.alex Sample.world
      = (w', Ok st')
    ∧ chains st' = init_chains Sample.board
    ∧ global_history st' = [AIMessage error_reply]
    ∧ priority_votes st' = ∅.
Proof.
  assert (Hchain : chains (mkSim (init_chains Sample.board) [] [] ∅) !! name Sample.alex
                   = Some (mkChain "Alex" "Commuter on the free tier" "negative"
                             "ads; discovery" [])) by reflexivity.
  eexists _, _, _. split; [exact Hchain|].
  split;
    [exact (failed_turn_is_isolated (Sample.env Sample.unreachable) Sample.proposals
              1 1 "Welcome" (mkSim (init_chains Sample.board) [] [] ∅) Sample.alex _
              Sample.world (PyExc "APIError" "service unavailable") Hchain eq_refl)
    |split; [reflexivity|split; reflexivity]].
Defined.

(** ** Text outside ASCII *)

(** White space outside ASCII is stripped like any other: a transcript
    of NO-BREAK SPACE and EM SPACE counts as empty and no summary is
    requested for it, a line of NO-BREAK SPACE gives no proposal, and the
    cleaned reply loses the IDEOGRAPHIC SPACE before its closing fence. *)
Example sample_unicode_white_space :
  PyStr.strip (Inputs.nbsp +:+ Inputs.em_space +:+ "x y"
               +:+ Inputs.ideographic_space +:+ Inputs.nbsp) = "x y"
  ∧ summarise_meeting (Sample.env Sample.talkative)
      (Inputs.nbsp +:+ Inputs.em_space) [] Sample.world
    = (Sample.world, Ok empty_transcript_error)
  ∧ proposals_of_reply
      ("Dark mode" +:+ PyStr.nl +:+ Inputs.nbsp +:+ PyStr.nl
       +:+ Inputs.em_space +:+ "Sleep timer" +:+ Inputs.nbsp) 3
    = [mkFeature 1 "Dark mode"; mkFeature 2 "Sleep timer"]
  ∧ clean_response ("```json" +:+ Inputs.nbsp +:+ "[1]"
                    +:+ Inputs.ideographic_space +:+ "```") = "[1]".
Proof. repeat split; reflexivity. Qed.

(** A description with an accented letter is found in a reply that
    writes it in capitals, given the lower case of the two texts. *)
Example sample_vote_beyond_ascii :
  tally_vote (Sample.env Sample.talkative)
    [mkFeature 1 "Dark mode"; mkFeature 2 "Café mode"]
    "I want CAFÉ MODE now" ∅ !! "Café mode" = Some 1.
Proof. reflexivity. Qed.

(** ** A failure that escapes persona generation *)

(** When the completion request of [generate_personas] fails with a
    [json.JSONDecodeError], the handler of that exception raises in its
    turn: the node sets the error flag, the later nodes are skipped and
    [main] exits with status 1. *)
Example sample_decode_failure_escapes :
  generate_personas (Sample.env Inputs.undecodable) [Sample.cluster] 5 Sample.world
    = (after_attempts 3 "- Cluster 0" Sample.world, Raise unbound_cleaned_response)
  ∧ ∃ w' final,
      invoke_pipeline (Sample.env Inputs.undecodable) Sample.config
        (initial_state [Sample.cluster]) Sample.world = (w', Ok final)
      ∧ error final
        = Some ("Persona Generation Failed: " +:+ exn_str unbound_cleaned_response)
      ∧ length (llm_calls w') = 6%nat
      ∧ (main_after_selection (Sample.env Inputs.undecodable) Sample.config
           [Sample.cluster] Sample.world).2 = Ok 1.
Proof.
  split; [reflexivity|]. eexists _, _.
  split; [vm_compute; reflexivity|]. repeat split; reflexivity.
Qed.

(** ** A report that stops at a malformed cluster *)

(** For a cluster that is not a dictionary the loop of [write_report]
    raises at its first access, and nothing is written after the heading
    of that cluster: no section of features, personas, transcript or
    summary, and no footer. *)
Example sample_report_stops_at_malformed_cluster :
  report_writes (Sample.env Sample.unreachable) Sample.config
    (mkReport [("0", JInt 5)] [] [] "" "")
  = report_header (Sample.env Sample.unreachable) Sample.config
      (mkReport [("0", JInt 5)] [] [] "" "")
    ++ ["### Cluster 0" +:+ PyStr.nl +:+ PyStr.nl].
Proof. reflexivity. Qed.
